(** * israso-generavimas: the extraction and normalisation pipeline of
      [streamlit_app.py], embedded in Rocq.

    The program reads a spreadsheet of pupils and grades, finds the table
    inside it, filters and cleans the grades and writes one PDF per pupil
    into a ZIP archive.  This file embeds the pure part of that pipeline:

    - Python text ([str]) is a list of Unicode code points;
    - the calls into [re] are run by a small backtracking matcher that
      keeps the priority order of CPython's engine (first alternative
      first, greedy repetition), so that [search], [match] and [sub] pick
      the same match;
    - a spreadsheet cell is missing (NaN), a [str], or some other object,
      of which the program only ever looks at its [str()] text;
    - the raw sheet is a rectangular grid read through [iat]; the table of
      pupils is a list of labelled columns over a list of rows;
    - exceptions are values of a sum type, threaded by a small error monad;
    - the PDF renderer (reportlab) is a parameter.

    Character data.  The interpreter's character database is tabulated for
    Basic Latin, Latin-1 Supplement, Latin Extended-A (which hold the whole
    Lithuanian alphabet), Combining Diacritical Marks and General
    Punctuation, together with every white-space character of Unicode and
    the Kelvin sign.  A code point outside these blocks is treated as an
    uncased symbol that is neither a word character nor white space.

    pandas selects columns by label.  The frame operations below are those
    of a frame whose labels are pairwise distinct; for a repeated label
    pandas hands back a sub-frame instead of a column, which the program
    does not expect: the test of the loop that prunes the columns then
    raises, and the model raises with it.  Statements that go through a
    label carry the distinctness of the labels as a hypothesis.

    reportlab parses the text of a paragraph when the paragraph is made and
    lays the story out in [doc.build]; either may raise (markup in a name
    that does not parse, for one).  The renderer is therefore a parameter
    that returns the bytes of the PDF or raises. *)

From Stdlib Require Import String Ascii.
From Stdlib Require Import List NArith Bool Arith Lia DecimalNat.
Import ListNotations.

(* ================================================================== *)
(** * Characters *)
(* ================================================================== *)

Module Unicode.

Local Open Scope N_scope.

Definition char := N.

Definition between (lo hi c : N) : bool := (N.leb lo c && N.leb c hi)%bool.

(** [str.isspace] on one character; the same set drives [str.strip()] and
    the class [\s] of a [str] pattern. *)
Definition is_space (c : char) : bool :=
  between 9 13 c || between 28 32 c || N.eqb c 133 || N.eqb c 160
  || N.eqb c 5760 || between 8192 8202 c || between 8232 8233 c
  || N.eqb c 8239 || N.eqb c 8287 || N.eqb c 12288.

(** The class [\w] of a [str] pattern: alphanumeric or underscore. *)
Definition is_word (c : char) : bool :=
  between 48 57 c || between 65 90 c || N.eqb c 95 || between 97 122 c
  || N.eqb c 170 || between 178 179 c || N.eqb c 181 || between 185 186 c
  || between 188 190 c || between 192 214 c || between 216 246 c
  || between 248 383 c || N.eqb c 8490.

(** The class [\d] of a [str] pattern: decimal digits. *)
Definition is_digit (c : char) : bool := between 48 57 c.

(** Upper-case letters whose lower-case partner is the next code point. *)
Definition lower_is_next (c : char) : bool :=
  (between 256 303 c && N.even c) || (between 306 311 c && N.even c)
  || (between 313 328 c && N.odd c) || (between 330 375 c && N.even c)
  || (between 377 382 c && N.odd c).

(** The simple lower-case mapping, [_sre.unicode_tolower]. *)
Definition tolower (c : char) : char :=
  if between 65 90 c || between 192 214 c || between 216 222 c then c + 32
  else if lower_is_next c then c + 1
  else if N.eqb c 304 then 105
  else if N.eqb c 376 then 255
  else if N.eqb c 8490 then 107
  else c.

(** The full lower-case mapping of [str.lower()]: one character may become
    two (capital I with dot above). *)
Definition lower_full (c : char) : list char :=
  if N.eqb c 304 then [105; 775] else [tolower c].

(** Characters that the [re] module treats as equal under [IGNORECASE] on
    top of the lower-case mapping (dotless i, long s, micro sign, iota
    subscript). *)
Definition ignorecase_fixes (c : char) : list char :=
  if N.eqb c 105 then [305] else if N.eqb c 305 then [105]
  else if N.eqb c 115 then [383] else if N.eqb c 383 then [115]
  else if N.eqb c 181 then [956] else if N.eqb c 837 then [953; 8126]
  else [].

(** General category Mn (non-spacing mark). *)
Definition is_Mn (c : char) : bool := between 768 879 c.

(** Canonical decompositions, fully expanded. *)
Definition decompositions : list (char * list char) :=
  [ (192, [65; 768]); (193, [65; 769]); (194, [65; 770]); (195, [65; 771]);
    (196, [65; 776]); (197, [65; 778]); (199, [67; 807]); (200, [69; 768]);
    (201, [69; 769]); (202, [69; 770]); (203, [69; 776]); (204, [73; 768]);
    (205, [73; 769]); (206, [73; 770]); (207, [73; 776]); (209, [78; 771]);
    (210, [79; 768]); (211, [79; 769]); (212, [79; 770]); (213, [79; 771]);
    (214, [79; 776]); (217, [85; 768]); (218, [85; 769]); (219, [85; 770]);
    (220, [85; 776]); (221, [89; 769]); (224, [97; 768]); (225, [97; 769]);
    (226, [97; 770]); (227, [97; 771]); (228, [97; 776]); (229, [97; 778]);
    (231, [99; 807]); (232, [101; 768]); (233, [101; 769]); (234, [101; 770]);
    (235, [101; 776]); (236, [105; 768]); (237, [105; 769]); (238, [105; 770]);
    (239, [105; 776]); (241, [110; 771]); (242, [111; 768]); (243, [111; 769]);
    (244, [111; 770]); (245, [111; 771]); (246, [111; 776]); (249, [117; 768]);
    (250, [117; 769]); (251, [117; 770]); (252, [117; 776]); (253, [121; 769]);
    (255, [121; 776]); (256, [65; 772]); (257, [97; 772]); (258, [65; 774]);
    (259, [97; 774]); (260, [65; 808]); (261, [97; 808]); (262, [67; 769]);
    (263, [99; 769]); (264, [67; 770]); (265, [99; 770]); (266, [67; 775]);
    (267, [99; 775]); (268, [67; 780]); (269, [99; 780]); (270, [68; 780]);
    (271, [100; 780]); (274, [69; 772]); (275, [101; 772]); (276, [69; 774]);
    (277, [101; 774]); (278, [69; 775]); (279, [101; 775]); (280, [69; 808]);
    (281, [101; 808]); (282, [69; 780]); (283, [101; 780]); (284, [71; 770]);
    (285, [103; 770]); (286, [71; 774]); (287, [103; 774]); (288, [71; 775]);
    (289, [103; 775]); (290, [71; 807]); (291, [103; 807]); (292, [72; 770]);
    (293, [104; 770]); (296, [73; 771]); (297, [105; 771]); (298, [73; 772]);
    (299, [105; 772]); (300, [73; 774]); (301, [105; 774]); (302, [73; 808]);
    (303, [105; 808]); (304, [73; 775]); (308, [74; 770]); (309, [106; 770]);
    (310, [75; 807]); (311, [107; 807]); (313, [76; 769]); (314, [108; 769]);
    (315, [76; 807]); (316, [108; 807]); (317, [76; 780]); (318, [108; 780]);
    (323, [78; 769]); (324, [110; 769]); (325, [78; 807]); (326, [110; 807]);
    (327, [78; 780]); (328, [110; 780]); (332, [79; 772]); (333, [111; 772]);
    (334, [79; 774]); (335, [111; 774]); (336, [79; 779]); (337, [111; 779]);
    (340, [82; 769]); (341, [114; 769]); (342, [82; 807]); (343, [114; 807]);
    (344, [82; 780]); (345, [114; 780]); (346, [83; 769]); (347, [115; 769]);
    (348, [83; 770]); (349, [115; 770]); (350, [83; 807]); (351, [115; 807]);
    (352, [83; 780]); (353, [115; 780]); (354, [84; 807]); (355, [116; 807]);
    (356, [84; 780]); (357, [116; 780]); (360, [85; 771]); (361, [117; 771]);
    (362, [85; 772]); (363, [117; 772]); (364, [85; 774]); (365, [117; 774]);
    (366, [85; 778]); (367, [117; 778]); (368, [85; 779]); (369, [117; 779]);
    (370, [85; 808]); (371, [117; 808]); (372, [87; 770]); (373, [119; 770]);
    (374, [89; 770]); (375, [121; 770]); (376, [89; 776]); (377, [90; 769]);
    (378, [122; 769]); (379, [90; 775]); (380, [122; 775]); (381, [90; 780]);
    (382, [122; 780]); (832, [768]); (833, [769]); (835, [787]);
    (836, [776; 769]); (8192, [8194]); (8193, [8195]); (8490, [75]) ].

Fixpoint assoc (c : char) (t : list (char * list char)) : option (list char) :=
  match t with
  | [] => None
  | (k, v) :: t' => if N.eqb k c then Some v else assoc c t'
  end.

Definition decompose (c : char) : list char :=
  match assoc c decompositions with Some d => d | None => [c] end.

End Unicode.

Import Unicode.

(* ================================================================== *)
(** * Text: the [str] methods the program calls *)
(* ================================================================== *)

Module Py.

Local Open Scope N_scope.

Definition str := list char.

(** A literal of the source, written as it is there: the UTF-8 bytes of the
    Rocq string are decoded into code points. *)
Fixpoint utf8_go (pending : N) (need : nat) (s : string) : str :=
  match s with
  | EmptyString => []
  | String a t =>
      let b := N_of_ascii a in
      match need with
      | O => if N.ltb b 128 then b :: utf8_go 0 0 t
             else if N.ltb b 224 then utf8_go (b - 192) 1 t
             else if N.ltb b 240 then utf8_go (b - 224) 2 t
             else utf8_go (b - 240) 3 t
      | S O => (pending * 64 + (b - 128)) :: utf8_go 0 0 t
      | S k => utf8_go (pending * 64 + (b - 128)) k t
      end
  end.

Definition py (s : string) : str := utf8_go 0 0 s.

Fixpoint str_eqb (a b : str) : bool :=
  match a, b with
  | [], [] => true
  | x :: a', y :: b' => N.eqb x y && str_eqb a' b'
  | _, _ => false
  end.

(** [not s] on a [str]. *)
Definition is_empty (s : str) : bool :=
  match s with [] => true | _ => false end.

(** [c in chars] for one character. *)
Definition char_in (chars : str) (c : char) : bool := existsb (N.eqb c) chars.

Fixpoint lstrip_by (p : char -> bool) (s : str) : str :=
  match s with
  | [] => []
  | c :: t => if p c then lstrip_by p t else s
  end.

Definition strip_by (p : char -> bool) (s : str) : str :=
  rev (lstrip_by p (rev (lstrip_by p s))).

(** [s.strip()] *)
Definition strip (s : str) : str := strip_by is_space s.

(** [s.strip(chars)] *)
Definition strip_chars (chars : str) (s : str) : str := strip_by (char_in chars) s.

(** [s.lower()] *)
Definition lower (s : str) : str := flat_map lower_full s.

(** [s.startswith(p)] *)
Fixpoint startswith (p s : str) : bool :=
  match p, s with
  | [], _ => true
  | x :: p', y :: s' => N.eqb x y && startswith p' s'
  | _ :: _, [] => false
  end.

(** [p in s] *)
Fixpoint contains (p s : str) : bool :=
  startswith p s || match s with [] => false | _ :: t => contains p t end.

(** [s.split(sep, 1)] for a one-character [sep]: the text before the first
    [sep] and the text after it, when there is one. *)
Fixpoint split1 (sep : char) (s : str) : option (str * str) :=
  match s with
  | [] => None
  | c :: t =>
      if N.eqb c sep then Some ([], t)
      else match split1 sep t with
           | Some (a, b) => Some (c :: a, b)
           | None => None
           end
  end.

(** [s.replace(old, new)] for a one-character [old]. *)
Definition replace (old : char) (new : str) (s : str) : str :=
  flat_map (fun c => if N.eqb c old then new else [c]) s.

(** [str(n)] for a natural number. *)
Fixpoint digits_of_uint (d : Decimal.uint) : str :=
  match d with
  | Decimal.Nil => []
  | Decimal.D0 d => 48 :: digits_of_uint d
  | Decimal.D1 d => 49 :: digits_of_uint d
  | Decimal.D2 d => 50 :: digits_of_uint d
  | Decimal.D3 d => 51 :: digits_of_uint d
  | Decimal.D4 d => 52 :: digits_of_uint d
  | Decimal.D5 d => 53 :: digits_of_uint d
  | Decimal.D6 d => 54 :: digits_of_uint d
  | Decimal.D7 d => 55 :: digits_of_uint d
  | Decimal.D8 d => 56 :: digits_of_uint d
  | Decimal.D9 d => 57 :: digits_of_uint d
  end.

Definition str_of_nat (n : nat) : str := digits_of_uint (Nat.to_uint n).

(** Does [int(s)] return (rather than raise)?  An optional sign, then
    decimal digits, single underscores allowed between digits; white space
    around the number is ignored. *)
Fixpoint int_digits (after_digit : bool) (s : str) : bool :=
  match s with
  | [] => after_digit
  | c :: t =>
      if is_digit c then int_digits true t
      else if N.eqb c 95 then after_digit && int_digits false t
      else false
  end.

Definition int_parses (s : str) : bool :=
  match strip s with
  | [] => false
  | c :: t => if N.eqb c 43 || N.eqb c 45 then int_digits false t
              else int_digits false (c :: t)
  end.

(** [unicodedata.normalize("NFD", s)], up to the order of combining marks:
    every character is replaced by its canonical decomposition.  (The
    reordering step of the normal form only permutes combining marks, and
    the one caller discards them all.) *)
Definition normalize_NFD (s : str) : str := flat_map decompose s.

End Py.

Import Py.

(* ================================================================== *)
(** * Regular expressions: the part of [re] the program uses *)
(* ================================================================== *)

Module Re.

Local Open Scope N_scope.

Inductive category := Word | Space | Digit.

(** Pattern syntax.  [Set_] is a bracket set of literals and ranges (a
    single character [c] is the range [(c, c)]); [x?] is [Alt x Eps],
    [x{2}] is [Cat x x] and [x{2,}] is [Cat x (Cat x (Star x))]. *)
Inductive regex :=
| Eps
| Lit (c : char)
| Cls (k : category)
| Set_ (ranges : list (char * char))
| Cat (a b : regex)
| Alt (a b : regex)
| Star (a : regex)
| Bol
| Eol
| WordB
| Group (n : nat) (a : regex).

(** A compiled pattern: the [(?i)] flag and the expression. *)
Record pattern := { ignorecase : bool; body : regex }.

(** The literal string [s] as a pattern. *)
Fixpoint lit (s : str) : regex :=
  match s with
  | [] => Eps
  | [c] => Lit c
  | c :: t => Cat (Lit c) (lit t)
  end.

Definition opt (a : regex) : regex := Alt a Eps.

(** [folded p l]: the lower-cased text character [l] is among the
    lower-case forms the engine stores for the pattern character [p]. *)
Definition folded (p l : char) : bool :=
  let lo := tolower p in N.eqb l lo || char_in (ignorecase_fixes lo) l.

Definition lit_match (ci : bool) (p c : char) : bool :=
  if ci then folded p (tolower c) else N.eqb c p.

Definition chars_between (lo hi : char) : list char :=
  map (fun k => lo + N.of_nat k) (seq 0 (N.to_nat (hi + 1 - lo))).

Definition set_match (ci : bool) (ranges : list (char * char)) (c : char) : bool :=
  if ci
  then existsb (fun r => existsb (fun p => folded p (tolower c))
                                 (chars_between (fst r) (snd r))) ranges
  else existsb (fun r => between (fst r) (snd r) c) ranges.

Definition cls_match (k : category) (c : char) : bool :=
  match k with
  | Word => is_word c
  | Space => is_space c
  | Digit => is_digit c
  end.

(** The matcher walks the text with the character just behind it at hand
    (for [^] and [\b]) and collects the text of the groups. *)
Record mstate := { prev : option char; rest : str; caps : list (nat * str) }.

Definition wordy (o : option char) : bool :=
  match o with Some c => is_word c | None => false end.

Definition step_char (ok : char -> bool) (st : mstate) : list mstate :=
  match rest st with
  | c :: t => if ok c then [ {| prev := Some c; rest := t; caps := caps st |} ] else []
  | [] => []
  end.

(** Greedy repetition: first every way of going round once more, then
    stopping here.  A round that consumes nothing is not repeated. *)
Fixpoint star_loop (step : mstate -> list mstate) (fuel : nat) (st : mstate)
  : list mstate :=
  match fuel with
  | O => [st]
  | S k =>
      flat_map (fun st' =>
                  if Nat.ltb (length (rest st')) (length (rest st))
                  then star_loop step k st' else [])
               (step st) ++ [st]
  end.

Definition capture (n : nat) (st st' : mstate) : mstate :=
  {| prev := prev st'; rest := rest st';
     caps := (n, firstn (length (rest st) - length (rest st')) (rest st)) :: caps st' |}.

(** [run ci r st]: every way of matching [r] from [st], in the order in
    which the backtracking engine tries them; its head is the match the
    engine reports. *)
Fixpoint run (ci : bool) (r : regex) {struct r} : mstate -> list mstate :=
  match r with
  | Eps => fun st => [st]
  | Lit p => step_char (lit_match ci p)
  | Cls k => step_char (cls_match k)
  | Set_ rs => step_char (set_match ci rs)
  | Cat a b => fun st => flat_map (run ci b) (run ci a st)
  | Alt a b => fun st => run ci a st ++ run ci b st
  | Star a => fun st => star_loop (run ci a) (length (rest st)) st
  | Bol => fun st => match prev st with None => [st] | Some _ => [] end
  | Eol => fun st => match rest st with
                     | [] => [st]
                     | [c] => if N.eqb c 10 then [st] else []
                     | _ => []
                     end
  | WordB => fun st => if xorb (wordy (prev st)) (wordy (hd_error (rest st)))
                       then [st] else []
  | Group n a => fun st => map (capture n st) (run ci a st)
  end.

Definition attempt (p : pattern) (before : option char) (s : str) : list mstate :=
  run (ignorecase p) (body p) {| prev := before; rest := s; caps := [] |}.

(** [p.match(s)]: a match at the start of [s]. *)
Definition match_ (p : pattern) (s : str) : option mstate :=
  hd_error (attempt p None s).

(** [p.search(s)]: the leftmost match. *)
Fixpoint search_go (p : pattern) (before : option char) (s : str) : option mstate :=
  match attempt p before s with
  | m :: _ => Some m
  | [] => match s with
          | [] => None
          | c :: t => search_go p (Some c) t
          end
  end.

Definition search (p : pattern) (s : str) : option mstate := search_go p None s.

(** [m.group(n)]; [None] when the group took no part in the match. *)
Fixpoint group (n : nat) (cs : list (nat * str)) : option str :=
  match cs with
  | [] => None
  | (k, v) :: t => if Nat.eqb k n then Some v else group n t
  end.

(** [p.sub(repl, s)] for a replacement without back-references.  [skip]
    counts the characters of the current match still to be dropped.  After
    an empty match the engine has to advance: at that place only a
    non-empty match is accepted, otherwise the character is copied. *)
Fixpoint sub_go (p : pattern) (repl : str) (before : option char) (skip : nat)
  (s : str) : str :=
  match s with
  | [] =>
      match skip with
      | O => match attempt p before [] with [] => [] | _ :: _ => repl end
      | S _ => []
      end
  | c :: t =>
      match skip with
      | S k => sub_go p repl (Some c) k t
      | O =>
          let found := attempt p before s in
          let width m := (length s - length (rest m))%nat in
          match found with
          | [] => c :: sub_go p repl (Some c) 0 t
          | m :: _ =>
              match width m with
              | S k => repl ++ sub_go p repl (Some c) k t
              | O =>
                  repl ++
                  match filter (fun m' => negb (Nat.eqb (width m') 0)) found with
                  | m' :: _ => repl ++ sub_go p repl (Some c) (pred (width m')) t
                  | [] => c :: sub_go p repl (Some c) 0 t
                  end
              end
          end
      end
  end.

Definition sub (p : pattern) (repl : str) (s : str) : str := sub_go p repl None 0 s.

End Re.

(* ================================================================== *)
(** * Values, exceptions and frames *)
(* ================================================================== *)

(** A cell of the sheet as the program can tell cells apart: missing
    ([pd.isna]), a [str] ([isinstance(val, str)]), or another object (a
    number, a date), known to the program through [str(val)] alone. *)
Inductive cell :=
| NaN
| Text (s : str)
| Obj (repr : str).

Definition isna (v : cell) : bool := match v with NaN => true | _ => false end.
Definition notna (v : cell) : bool := negb (isna v).

(** [str(v)] *)
Definition str_ (v : cell) : str :=
  match v with
  | NaN => py "nan"
  | Text s => s
  | Obj repr => repr
  end.

Inductive exn :=
| IndexError
| KeyError (label : str)
| ValueError (msg : str).

Inductive result (A : Type) :=
| Ok (a : A)
| Raise (e : exn).

Arguments Ok {A} a.
Arguments Raise {A} e.

Definition bind {A B} (m : result A) (k : A -> result B) : result B :=
  match m with
  | Ok a => k a
  | Raise e => Raise e
  end.

Notation "x <- m ;; k" := (bind m (fun x => k))
  (at level 61, m at next level, right associativity).

(** One round of a [for] loop either falls through to the next round with
    the loop's variables, or leaves the function by [return]. *)
Inductive step (S R : Type) :=
| Continue (s : S)
| Return (r : R).

Arguments Continue {S R} s.
Arguments Return {S R} r.

Fixpoint for_in {A S R} (l : list A) (body : A -> S -> result (step S R)) (s : S)
  : result (step S R) :=
  match l with
  | [] => Ok (Continue s)
  | a :: l' =>
      match body a s with
      | Raise e => Raise e
      | Ok (Return r) => Ok (Return r)
      | Ok (Continue s') => for_in l' body s'
      end
  end.

(** [range(n)] *)
Definition range (n : nat) : list nat := seq 0 n.

(** The index pairs of [for r in range(nrows): for c in range(ncols)], in
    the order the nested loops visit them. *)
Definition range2 (nrows ncols : nat) : list (nat * nat) :=
  flat_map (fun r => map (pair r) (range ncols)) (range nrows).

(** The sheet as [pd.read_excel(..., header=None)] hands it over: a
    rectangle of cells. *)
Record RawGrid := { shape0 : nat; shape1 : nat; at_ : nat -> nat -> cell }.

(** [df.iat[r, c]] for non-negative [r], [c]. *)
Definition iat (df : RawGrid) (r c : nat) : result cell :=
  if Nat.ltb r (shape0 df) && Nat.ltb c (shape1 df) then Ok (at_ df r c)
  else Raise IndexError.

(** A sheet given by its rows; short rows are padded with missing cells. *)
Definition grid_of (rows : list (list cell)) : RawGrid :=
  {| shape0 := length rows;
     shape1 := fold_right (fun r m => Nat.max (length r) m) 0 rows;
     at_ := fun r c => nth c (nth r rows []) NaN |}.

(** The frame of pupils: labelled columns over rows of cells. *)
Record Table := { columns : list str; rows : list (list cell) }.

Fixpoint index_of (label : str) (cols : list str) : option nat :=
  match cols with
  | [] => None
  | c :: cols' => if str_eqb c label then Some 0
                  else option_map S (index_of label cols')
  end.

(** [label in labels] *)
Definition label_in (label : str) (labels : list str) : bool :=
  existsb (str_eqb label) labels.

(** [row[label]] for a row of the frame *)
Definition row_item (cols : list str) (row : list cell) (label : str) : result cell :=
  match index_of label cols with
  | Some i => Ok (nth i row NaN)
  | None => Raise (KeyError label)
  end.

(** [df[label]]: the cells of one column *)
Definition column (t : Table) (label : str) : result (list cell) :=
  match index_of label (columns t) with
  | Some i => Ok (map (fun row => nth i row NaN) (rows t))
  | None => Raise (KeyError label)
  end.

Fixpoint indices (labels cols : list str) : result (list nat) :=
  match labels with
  | [] => Ok []
  | l :: labels' =>
      match index_of l cols with
      | Some i => ixs <- indices labels' cols ;; Ok (i :: ixs)
      | None => Raise (KeyError l)
      end
  end.

(** [df[labels]]: the frame cut down to the listed columns *)
Definition select (t : Table) (labels : list str) : result Table :=
  ixs <- indices labels (columns t) ;;
  Ok {| columns := labels;
        rows := map (fun row => map (fun i => nth i row NaN) ixs) (rows t) |}.

(** [df[mask]] for a mask computed row by row *)
Definition filter_rows (keep : list cell -> bool) (t : Table) : Table :=
  {| columns := columns t; rows := filter keep (rows t) |}.

(** [df.empty]: no row or no column *)
Definition empty (t : Table) : bool :=
  match rows t, columns t with
  | _ :: _, _ :: _ => false
  | _, _ => true
  end.

(** A [dict] with [str] keys: insertion order is kept, assigning to a key
    that is present replaces its value in place. *)
Fixpoint dict_set (d : list (str * str)) (k v : str) : list (str * str) :=
  match d with
  | [] => [(k, v)]
  | (k', v') :: d' => if str_eqb k' k then (k, v) :: d'
                      else (k', v') :: dict_set d' k v
  end.

Notation "' p <- m ;; k" := (bind m (fun p => k))
  (at level 61, p pattern, m at next level, right associativity).

(* ================================================================== *)
(** * The program *)
(* ================================================================== *)

Import Re.

(** ** Patterns *)

Definition w_ := Cls Word.
Definition s_ := Cls Space.
Definition d_ := Cls Digit.

(** [(?i)pasiek\w*\s*lyg\w*] *)
Definition ACH_LVL_COL_RE : pattern :=
  {| ignorecase := true;
     body := Cat (lit (py "pasiek"))
               (Cat (Star w_) (Cat (Star s_) (Cat (lit (py "lyg")) (Star w_)))) |}.

(** [(?i)^(slenkstinis|patenkinamas|pagrindinis|aukštesnysis)\b] *)
Definition ACH_LVL_VAL_RE : pattern :=
  {| ignorecase := true;
     body := Cat Bol
               (Cat (Group 1 (Alt (lit (py "slenkstinis"))
                             (Alt (lit (py "patenkinamas"))
                             (Alt (lit (py "pagrindinis"))
                                  (lit (py "aukštesnysis"))))))
                    WordB) |}.

(** [(?i)\b(?:PR|IN)\b] *)
Definition TAG_PR_IN_RE : pattern :=
  {| ignorecase := true;
     body := Cat WordB (Cat (Alt (lit (py "PR")) (lit (py "IN"))) WordB) |}.

(** [\s*[(){}\[\]/|,;.-]\s*]; the program compiles this pattern and never
    applies it. *)
Definition EXTRA_SEP_RE : pattern :=
  {| ignorecase := false;
     body := Cat (Star s_)
               (Cat (Set_ (map (fun c => (c, c)) (py "(){}[]/|,;.-")))
                    (Star s_)) |}.

(** [\s{2,}] *)
Definition SPACES_RE : pattern :=
  {| ignorecase := false; body := Cat s_ (Cat s_ (Star s_)) |}.

(** [(20\d{2})\s*[–-]\s*(20\d{2})] *)
Definition year_re : regex := Cat (lit (py "20")) (Cat d_ d_).

Definition pat_years : pattern :=
  {| ignorecase := false;
     body := Cat (Group 1 year_re)
               (Cat (Star s_)
                  (Cat (Set_ (map (fun c => (c, c)) (py "–-")))
                     (Cat (Star s_) (Group 2 year_re)))) |}.

(** [(?i)^\s*IV\s*[A-ZĄČĘĖĮŠŲŪŽ]?\s*$] *)
Definition FINAL_CLASS_RE : pattern :=
  {| ignorecase := true;
     body := Cat Bol
               (Cat (Star s_)
                  (Cat (lit (py "IV"))
                     (Cat (Star s_)
                        (Cat (opt (Set_ ((65, 90)%N
                                         :: map (fun c => (c, c)) (py "ĄČĘĖĮŠŲŪŽ"))))
                           (Cat (Star s_) Eol))))) |}.

(** [(?i)\b12\b] *)
Definition HAS_12_RE : pattern :=
  {| ignorecase := true; body := Cat WordB (Cat (lit (py "12")) WordB) |}.

(** ** Helpers *)

Definition EIL_NR : str := py "Eil. Nr.".
Definition PAVARDE_VARDAS : str := py "Pavardė, vardas".

(** [txt.split(":", 1)[1]] *)
Definition after_colon (txt : str) : result str :=
  match split1 58%N txt with
  | Some (_, b) => Ok b
  | None => Raise IndexError
  end.

Definition try_extract_school_and_class (df_raw : RawGrid) : result (str * str) :=
  let nrows := Nat.min 12 (shape0 df_raw) in
  let ncols := Nat.min 12 (shape1 df_raw) in
  out <- for_in (range2 nrows ncols)
           (fun rc (st : str * str) =>
              let '(mokykla, klase) := st in
              val <- iat df_raw (fst rc) (snd rc) ;;
              match val with
              | Text v =>
                  let txt := strip v in
                  let low := lower txt in
                  mokykla <- (if contains (py "mokykla") low && contains (py ":") txt
                              then (a <- after_colon txt ;; Ok (strip a))
                              else Ok mokykla) ;;
                  klase <- (if (contains (py "klasė") low || contains (py "klase") low)
                               && contains (py ":") txt
                            then (a <- after_colon txt ;; Ok (strip a))
                            else Ok klase) ;;
                  Ok (Continue (R := str * str) (mokykla, klase))
              | _ => Ok (Continue (mokykla, klase))
              end)
           (py "", py "") ;;
  match out with
  | Continue st => Ok st
  | Return st => Ok st
  end.

(** An interpolated [m.group(n)] *)
Definition fmt_group (g : option str) : str :=
  match g with Some s => s | None => py "None" end.

(** [f"{m.group(1)}–{m.group(2)}"] *)
Definition fmt_years (m : mstate) : str :=
  fmt_group (group 1 (caps m)) ++ py "–" ++ fmt_group (group 2 (caps m)).

Definition try_extract_academic_year (df_raw : RawGrid) : result str :=
  let nrows := Nat.min 12 (shape0 df_raw) in
  let ncols := Nat.min 12 (shape1 df_raw) in
  out <- for_in (range2 nrows ncols)
           (fun rc (candidate : str) =>
              val <- iat df_raw (fst rc) (snd rc) ;;
              match val with
              | Text v =>
                  let txt := strip v in
                  match search pat_years txt with
                  | Some m => Ok (Return (fmt_years m))
                  | None =>
                      if contains (py "mokslo metai") (lower txt)
                      then match search pat_years txt with
                           | Some m2 => Ok (Return (fmt_years m2))
                           | None => Ok (Continue txt)
                           end
                      else Ok (Continue candidate)
                  end
              | _ => Ok (Continue candidate)
              end)
           (py "") ;;
  match out with
  | Continue candidate => Ok candidate
  | Return r => Ok r
  end.

(** The text of a header cell: [(str(c).strip() if pd.notna(c) else "").lower()] *)
Definition header_text (c : cell) : str :=
  lower (if notna c then strip (str_ c) else py "").

(** Returns [Some (i, i + 1)], or [None] for the pair [(None, None)].  When
    the sheet has one column, [c1] is [None], which [pd.notna] takes for
    missing. *)
Definition find_header_rows (df0 : RawGrid) : result (option (nat * nat)) :=
  let max_scan := Nat.min 40 (shape0 df0) in
  out <- for_in (range max_scan)
           (fun i (_ : unit) =>
              c0 <- iat df0 i 0 ;;
              c1 <- (if Nat.ltb 1 (shape1 df0) then iat df0 i 1 else Ok NaN) ;;
              let c0s := header_text c0 in
              let c1s := header_text c1 in
              if startswith (py "eil") c0s
                 && (contains (py "pavard") c1s || contains (py "vard") c1s)
              then Ok (Return (i, i + 1))
              else Ok (Continue tt))
           tt ;;
  match out with
  | Return p => Ok (Some p)
  | Continue _ => Ok None
  end.

(** The loop that names the columns (first block of [parse_excel_to_df]). *)
Definition name_columns (df0 : RawGrid) (subjects_row : nat) : result (list str) :=
  out <- for_in (seq 2 (shape1 df0 - 2))
           (fun j (columns : list str) =>
              name <- iat df0 subjects_row j ;;
              let name := if isna name then py "" else strip (str_ name) in
              let name := if is_empty name
                          then py "Dalykas_" ++ str_of_nat (j - 1) else name in
              Ok (Continue (R := list str) (columns ++ [name])))
           [EIL_NR; PAVARDE_VARDAS] ;;
  match out with
  | Continue columns => Ok columns
  | Return columns => Ok columns
  end.

(** The [while] loop that looks for the first numbered row; [todo] is
    [len(df0) - data_start]. *)
Fixpoint find_data_start (df0 : RawGrid) (todo : nat) (data_start : nat) : result nat :=
  match todo with
  | O => Ok data_start
  | S todo' =>
      v <- iat df0 data_start 0 ;;
      if notna v && int_parses (strip (str_ v)) then Ok data_start
      else find_data_start df0 todo' (S data_start)
  end.

(** [df0.iloc[data_start:, :len(columns)]] with [data.columns = columns] *)
Definition slice_named (df0 : RawGrid) (data_start : nat) (columns : list str)
  : result Table :=
  let width := Nat.min (length columns) (shape1 df0) in
  if Nat.eqb width (length columns)
  then Ok {| columns := columns;
             rows := map (fun r => map (at_ df0 r) (range width))
                         (seq data_start (shape0 df0 - data_start)) |}
  else Raise (ValueError (py "Length mismatch")).

(** [data.dropna(how="all")] *)
Definition dropna_all (t : Table) : Table :=
  filter_rows (fun row => negb (forallb isna row)) t.

(** [data[mask]] for a mask computed from the column [label] *)
Definition filter_by (t : Table) (label : str) (keep : cell -> bool) : result Table :=
  match index_of label (columns t) with
  | Some i => Ok (filter_rows (fun row => keep (nth i row NaN)) t)
  | None => Raise (KeyError label)
  end.

(** The message of the [ValueError] pandas raises when a Series is used as
    a condition (the wording of pandas 1 and 2; the program only prints
    it). *)
Definition AMBIGUOUS : str :=
  py "The truth value of a Series is ambiguous. Use a.empty, a.bool(), a.item(), a.any() or a.all().".

(** [data[col].notna().any()] as the condition of an [if].  When [col]
    labels several columns, [data[col]] is a sub-frame, [.any()] a Series
    with one entry for each of them, and taking its truth value raises. *)
Definition any_value (data : Table) (col : str) : result bool :=
  if Nat.ltb 1 (length (filter (str_eqb col) (columns data)))
  then Raise (ValueError AMBIGUOUS)
  else vals <- column data col ;; Ok (existsb notna vals).

(** The loop that collects the columns with at least one value. *)
Definition keep_columns (data : Table) : result (list str) :=
  out <- for_in (columns data)
           (fun col (keep_cols : list str) =>
              if label_in col keep_cols then Ok (Continue keep_cols)
              else
                some <- any_value data col ;;
                if (some : bool)
                then Ok (Continue (R := list str) (keep_cols ++ [col]))
                else Ok (Continue keep_cols))
           [EIL_NR; PAVARDE_VARDAS] ;;
  match out with
  | Continue keep_cols => Ok keep_cols
  | Return keep_cols => Ok keep_cols
  end.

Record Meta := { mokykla : str; klase : str; akadem_metai : str }.

Definition parse_excel_to_df (df0 : RawGrid) : result (Table * Meta) :=
  mk <- try_extract_school_and_class df0 ;;
  akadem_metai_auto <- try_extract_academic_year df0 ;;
  hdr <- find_header_rows df0 ;;
  match hdr with
  | None =>
      Raise (ValueError
               (py "Nerasta antraštės eilutė: turi būti 'Eil. Nr.' ir 'Pavardė, vardas'."))
  | Some (header_row, subjects_row) =>
      columns <- name_columns df0 subjects_row ;;
      data_start <- find_data_start df0 (shape0 df0 - (subjects_row + 1))
                                    (subjects_row + 1) ;;
      data <- slice_named df0 data_start columns ;;
      let data := dropna_all data in
      data <- filter_by data PAVARDE_VARDAS notna ;;
      keep_cols <- keep_columns data ;;
      data <- select data keep_cols ;;
      Ok (data, {| mokykla := fst mk; klase := snd mk;
                   akadem_metai := akadem_metai_auto |})
  end.

(** [is_final_class]; the argument is any value, only a [str] can pass. *)
Definition is_final_class (klase : cell) : bool :=
  match klase with
  | Text s =>
      let k := strip s in
      match match_ FINAL_CLASS_RE k with
      | Some _ => true
      | None =>
          match search HAS_12_RE k with
          | Some _ => true
          | None => false
          end
      end
  | _ => false
  end.

(** [strip_accents_lower] on a [str] (every caller passes one). *)
Definition strip_accents_lower (s : str) : str :=
  let n := normalize_NFD s in
  let n := filter (fun ch => negb (is_Mn ch)) n in
  strip (lower n).

(** [clean_value_remove_tags] on a [str] (every caller passes one). *)
Definition clean_value_remove_tags (val : str) : str :=
  let s := strip val in
  if is_empty s then s
  else
    let s := sub TAG_PR_IN_RE (py "") s in
    let s := sub SPACES_RE (py " ") s in
    let s := strip_chars (py " ()[]{}-/|,;.") s in
    let s := strip (sub SPACES_RE (py " ") s) in
    s.

(** The tests both filter loops apply to a value, in the order of the
    source: missing, blank or ["nan"], an achievement level, nothing left
    after cleaning.  [None] stands for [continue]. *)
Definition cleaned_value (v : cell) : option str :=
  if isna v then None
  else
    let sv := strip (str_ v) in
    if is_empty sv || str_eqb (lower sv) (py "nan") then None
    else
      match search ACH_LVL_VAL_RE sv with
      | Some _ => None
      | None =>
          let sv := clean_value_remove_tags sv in
          if is_empty sv then None else Some sv
      end.

(** The loop of [main] that fills the [subjects] dict of one row. *)
Definition subjects_of (cols : list str) (row : list cell)
  : result (list (str * str)) :=
  out <- for_in cols
           (fun col (subjects : list (str * str)) =>
              if label_in col [EIL_NR; PAVARDE_VARDAS] then Ok (Continue subjects)
              else
                v <- row_item cols row col ;;
                match cleaned_value v with
                | None => Ok (Continue subjects)
                | Some sv => Ok (Continue (R := list (str * str))
                                          (dict_set subjects col sv))
                end)
           [] ;;
  match out with
  | Continue subjects => Ok subjects
  | Return subjects => Ok subjects
  end.

(** [row.get(label, default)] *)
Definition row_get (cols : list str) (row : list cell) (label : str) (default : cell)
  : cell :=
  match index_of label cols with
  | Some i => nth i row NaN
  | None => default
  end.

Definition ch (s : string) : char := hd 0%N (py s).

(** The chain of [replace] calls that makes a file name of a pupil's name;
    character 34 is the double quote. *)
Definition safe_name (student_name : str) : str :=
  replace (ch "|") (py "-")
    (replace (ch ">") (py ")")
      (replace (ch "<") (py "(")
        (replace 34%N (py "")
          (replace (ch "?") (py "")
            (replace (ch "*") (py "-")
              (replace (ch ":") (py "-")
                (replace (ch "\") (py "-")
                  (replace (ch "/") (py "-") student_name)))))))).

(** A [str] used as a condition *)
Definition truthy (s : str) : bool := negb (is_empty s).

(** [a or b] on two [str] *)
Definition or_ (a b : str) : str := if truthy a then a else b.

(** ** The document and the archive *)

(** What [make_student_pdf] puts into the story it hands to reportlab. *)
Inductive flowable :=
| Paragraph (text : str) (style : string)
| Spacer (width height : nat)
| TableOf (data : list (list str)).

(** The rows of the grade table, header first. *)
Definition data_tbl (subjects_dict : list (str * str)) : list (list str) :=
  fold_left
    (fun tbl (item : str * str) =>
       match cleaned_value (Text (snd item)) with
       | None => tbl
       | Some sval => tbl ++ [[fst item; sval]]
       end)
    subjects_dict
    [[py "Dalykas"; py "Įvertinimas"]].

Definition story (student_name klase akademiniai_metai school : str)
  (subjects_dict : list (str * str)) : list flowable :=
  [Paragraph (py "Mokinio pasiekimų įrašas") "TitleLT"]
  ++ (if truthy school
      then [Paragraph (py "Mokykla: <b>" ++ school ++ py "</b>") "NormalLT"] else [])
  ++ (if truthy klase
      then [Paragraph (py "Klasė: <b>" ++ klase ++ py "</b>") "NormalLT"] else [])
  ++ (if truthy akademiniai_metai
      then [Paragraph (py "Mokslo metai: <b>" ++ akademiniai_metai ++ py "</b>")
                      "NormalLT"] else [])
  ++ [Paragraph (py "Mokinys: <b>" ++ student_name ++ py "</b>") "NormalLT";
      Spacer 1 10;
      TableOf (data_tbl subjects_dict);
      Spacer 1 10;
      if is_final_class (Text (or_ klase (py "")))
      then Paragraph (py "Baigė vidurinio ugdymo programą.") "NormalLT"
      else Paragraph (py "Direktoriaus įsakymu perkeltas/a į aukštesnę klasę.")
                     "NormalLT"].

Definition bytes := list Byte.byte.

Record Inputs := {
  excel_file : option RawGrid;
  akadem_metai_input : str;
  override_school : str;
  override_class : str;
  button : bool
}.

(** What a run of the script leaves on the page. *)
Inductive outcome :=
| Info
| Failed (e : exn)
| Preview (df_students : Table)
| NoStudents (df_students : Table)
| Download (df_students : Table) (zip : list (str * bytes)).

(** The first lines of [main]'s [try] block: the parsed table without the
    achievement-level columns and without the summary row. *)
Definition drop_level_columns (df_students : Table) : result Table :=
  select df_students
    (filter (fun c => match search ACH_LVL_COL_RE (or_ c (py "")) with
                      | Some _ => false
                      | None => true
                      end)
            (columns df_students)).

Definition SUMMARY : str := py "Klasės pažangumas".

Definition drop_summary_rows (df_students : Table) : result Table :=
  filter_by df_students PAVARDE_VARDAS
    (fun name => negb (str_eqb (strip_accents_lower (str_ name))
                               (strip_accents_lower SUMMARY))).

Definition student_table (df0 : RawGrid) : result (Table * Meta) :=
  parsed <- parse_excel_to_df df0 ;;
  df_students <- drop_level_columns (fst parsed) ;;
  df_students <- drop_summary_rows df_students ;;
  Ok (df_students, snd parsed).

Section Emitter.

(** The registered font and reportlab are outside the program.
    [doc_build font_name story] stands for all that reportlab does in
    [make_student_pdf]: making the paragraphs and the table of the story
    and running [doc.build]; it returns the bytes left in the buffer, or
    raises. *)
Variable FONT_NAME : str.
Variable doc_build : str -> list flowable -> result bytes.

Definition make_student_pdf (font_name student_name klase akademiniai_metai
  school : str) (subjects_dict : list (str * str)) : result bytes :=
  doc_build font_name (story student_name klase akademiniai_metai school subjects_dict).

(** The loop over [df_students.iterrows()] that writes the archive. *)
Definition generate (df_students : Table) (school klase akadem_metai : str)
  : result (list (str * bytes)) :=
  out <- for_in (rows df_students)
           (fun row (zf : list (str * bytes)) =>
              let student_name :=
                strip (str_ (row_get (columns df_students) row PAVARDE_VARDAS
                                     (Text (py "")))) in
              if is_empty student_name || str_eqb (lower student_name) (py "nan")
              then Ok (Continue zf)
              else if str_eqb (strip_accents_lower student_name)
                              (strip_accents_lower SUMMARY)
              then Ok (Continue zf)
              else
                subjects <- subjects_of (columns df_students) row ;;
                pdf_bytes <- make_student_pdf FONT_NAME student_name klase
                                              akadem_metai school subjects ;;
                Ok (Continue (R := list (str * bytes))
                      (zf ++ [(safe_name student_name ++ py ".pdf", pdf_bytes)])))
           [] ;;
  match out with
  | Continue zf => Ok zf
  | Return zf => Ok zf
  end.

(** The script from the upload on; any exception ends in the handler. *)
Definition main (i : Inputs) : outcome :=
  match excel_file i with
  | None => Info
  | Some df0 =>
      match student_table df0 with
      | Raise e => Failed e
      | Ok (df_students, meta) =>
          let school := or_ (override_school i) (mokykla meta) in
          let klase := or_ (override_class i) (klase meta) in
          let akadem_metai := or_ (akadem_metai_input i) (akadem_metai meta) in
          if button i then
            if empty df_students then NoStudents df_students
            else
              match generate df_students school klase akadem_metai with
              | Raise e => Failed e
              | Ok zip => Download df_students zip
              end
          else Preview df_students
      end
  end.

End Emitter.

(* ================================================================== *)
(** * The font *)
(* ================================================================== *)

Definition USER_FIXED_FONT_PATH : str := py "DejaVuSerif.ttf".

(** The warning shown when no font file could be registered. *)
Definition FONT_MISSING : str :=
  py "Nerastas DejaVuSerif.ttf — bus naudojama Helvetica (lietuviškos raidės gali būti neteisingos).".

Section Fonts.

(** Where the script lies, what the file system holds and what reportlab
    makes of a font file are outside the program.  [registerFont p] is
    [None] when [pdfmetrics.registerFont(TTFont("DejaVuSerifFixed", p))]
    returns, and the text of the exception when it raises. *)
Variable LOCAL_FONT_PATH : str.
Variable path_exists : str -> bool.
Variable registerFont : str -> option str.

(** The loop over the candidates, with the warnings shown so far. *)
Fixpoint try_fonts (font_candidates : list str) (warnings : list str)
  : str * list str :=
  match font_candidates with
  | [] => (py "Helvetica", warnings ++ [FONT_MISSING])
  | p :: more =>
      if truthy p && path_exists p
      then match registerFont p with
           | None => (py "DejaVuSerifFixed", warnings)
           | Some e =>
               try_fonts more
                 (warnings ++ [py "Šrifto registruoti nepavyko iš '" ++ p
                                 ++ py "': " ++ e])
           end
      else try_fonts more warnings
  end.

(** [register_fixed_font]: the name of the font and the warnings shown on
    the page, in order. *)
Definition register_fixed_font : str * list str :=
  try_fonts [USER_FIXED_FONT_PATH; LOCAL_FONT_PATH] [].

End Fonts.
(* ================================================================== *)
(** * Sample inputs *)
(* ================================================================== *)

(** A grade, a full stop, a line break and a tag in one cell. *)
Definition grade_dot_newline_tag : str := py "8." ++ [10%N] ++ py "PR".

(** A sheet in which one subject has a value in the summary row only. *)
Definition sheet_summary_only_value : RawGrid :=
  grid_of
    [ [Text (py "Eil. Nr."); Text (py "Pavardė, vardas"); NaN; NaN];
      [NaN; NaN; Text (py "Matematika"); Text (py "Fizika")];
      [Obj (py "1"); Text (py "Jonaitis Jonas"); Obj (py "8"); NaN];
      [NaN; Text (py "Klasės pažangumas"); Obj (py "8"); Text (py "95%")] ].


(** A sheet with two ranges of years in its first row. *)
Definition sheet_two_year_ranges : RawGrid :=
  grid_of [ [Text (py "2024-2025"); Text (py "2023-2024")] ].

(** A sheet with the school and the class above the table. *)
Definition sheet_with_metadata : RawGrid :=
  grid_of [ [Text (py "Mokykla: Vilniaus 5-oji vidurinė"); Text (py "Klasė: IVa")] ].

(** A sheet whose only labelled cell names the school after the colon. *)
Definition sheet_school_after_colon : RawGrid :=
  grid_of [ [Text (py "Vieta: Vilniaus mokykla")] ].

(** A sheet in which two columns carry the same subject name. *)
Definition sheet_repeated_subject : RawGrid :=
  grid_of
    [ [Text (py "Eil. Nr."); Text (py "Pavardė, vardas"); NaN; NaN];
      [NaN; NaN; Text (py "Matematika"); Text (py "Matematika")];
      [Obj (py "1"); Text (py "Jonaitis Jonas"); Obj (py "8"); Obj (py "9")] ].

(** A sheet with a named subject, a blank subject header and a padded one. *)
Definition sheet_blank_subject : RawGrid :=
  grid_of
    [ [Text (py "Eil. Nr."); Text (py "Pavardė, vardas"); NaN; NaN; NaN];
      [NaN; NaN; Text (py " Matematika "); NaN; Text (py "  ")];
      [Obj (py "1"); Text (py "Jonaitis Jonas"); Obj (py "8"); Obj (py "9"); NaN] ].

(** A sheet with two pupils, the second of whom has a blank for a name. *)
Definition sheet_blank_name : RawGrid :=
  grid_of
    [ [Text (py "Eil. Nr."); Text (py "Pavardė, vardas"); NaN];
      [NaN; NaN; Text (py "Matematika")];
      [Obj (py "1"); Text (py "Jonaitis Jonas"); Obj (py "8")];
      [Obj (py "2"); Text (py " "); Obj (py "9")] ].

(** A renderer that writes nothing and never raises, for runs in which only
    the names in the archive matter. *)
Definition no_bytes (font_name : str) (story : list flowable) : bytes := [].

Definition blank_page (font_name : str) (story : list flowable) : result bytes :=
  Ok (no_bytes font_name story).

Definition pressed (df0 : RawGrid) : Inputs :=
  {| excel_file := Some df0; akadem_metai_input := py ""; override_school := py "";
     override_class := py ""; button := true |}.

(** The labels and one row of a table: a grade with a tag, an achievement
    level, an empty cell. *)
Definition sample_labels : list str :=
  [EIL_NR; PAVARDE_VARDAS; py "Matematika"; py "Lygis"; py "Fizika"].

Definition sample_row : list cell :=
  [Obj (py "1"); Text (py "Jonaitis Jonas"); Text (py "8 PR");
   Text (py "Patenkinamas"); NaN].

(** A sheet with a title above the header row. *)
Definition sheet_title_then_header : RawGrid :=
  grid_of
    [ [Text (py "Mokinių pažangumo suvestinė"); NaN; NaN];
      [Text (py "Eil. Nr."); Text (py "Pavardė, vardas"); NaN];
      [NaN; NaN; Text (py "Matematika")];
      [Obj (py "1"); Text (py "Jonaitis Jonas"); Obj (py "8")] ].

(** The metadata of a sheet that names no school, class or year. *)
Definition no_meta : Meta :=
  {| mokykla := py ""; klase := py ""; akadem_metai := py "" |}.

(** The table of [sheet_blank_name] after all filters. *)
Definition table_blank_name : Table :=
  {| columns := [EIL_NR; PAVARDE_VARDAS; py "Matematika"];
     rows := [ [Obj (py "1"); Text (py "Jonaitis Jonas"); Obj (py "8")];
               [Obj (py "2"); Text (py " "); Obj (py "9")] ] |}.

(** What [parse_excel_to_df] makes of [sheet_summary_only_value], and the
    table after all filters. *)
Definition table_with_summary_row : Table :=
  {| columns := [EIL_NR; PAVARDE_VARDAS; py "Matematika"; py "Fizika"];
     rows := [ [Obj (py "1"); Text (py "Jonaitis Jonas"); Obj (py "8"); NaN];
               [NaN; Text (py "Klasės pažangumas"); Obj (py "8"); Text (py "95%")] ] |}.

Definition table_summary_row_dropped : Table :=
  {| columns := [EIL_NR; PAVARDE_VARDAS; py "Matematika"; py "Fizika"];
     rows := [ [Obj (py "1"); Text (py "Jonaitis Jonas"); Obj (py "8"); NaN] ] |}.
(* ================================================================== *)
(** * Vocabulary of the statements *)
(* ================================================================== *)

(** The text of a cell; a missing cell has none. *)
Definition text_of (c : cell) : str :=
  match c with
  | NaN => []
  | Text s => s
  | Obj repr => repr
  end.

(** The values [f] finds in a list of cells, in the order of the cells. *)
Definition hits {A} (f : cell -> option A) (cells : list cell) : list A :=
  flat_map (fun c => match f c with Some x => [x] | None => [] end) cells.

(** The cells of the 12 x 12 scan window, row by row. *)
Definition window (df : RawGrid) : list cell :=
  map (fun rc => at_ df (fst rc) (snd rc))
      (range2 (Nat.min 12 (shape0 df)) (Nat.min 12 (shape1 df))).

(** A [str] cell with a colon whose text, trimmed and lower-cased, contains
    one of [keys] anywhere: the trimmed text after the first colon. *)
Definition labelled (keys : list str) (c : cell) : option str :=
  match c with
  | Text v =>
      let txt := strip v in
      if existsb (fun k => contains k (lower txt)) keys
      then match split1 58%N txt with
           | Some (_, after) => Some (strip after)
           | None => None
           end
      else None
  | _ => None
  end.

(** What one cell of the window does to the pair (institution, class). *)
Definition school_class_round (c : cell) (st : str * str) : str * str :=
  (match labelled [py "mokykla"] c with Some x => x | None => fst st end,
   match labelled [py "klasė"; py "klase"] c with Some x => x | None => snd st end).

(** The same with the key looked for in the text before the colon only. *)
Definition labelled_before_colon (keys : list str) (c : cell) : option str :=
  match c with
  | Text v =>
      match split1 58%N (strip v) with
      | Some (before, after) =>
          if existsb (fun k => contains k (lower before)) keys
          then Some (strip after) else None
      | None => None
      end
  | _ => None
  end.

(** Row [i] of the sheet carries the two captions of the header: column 0,
    trimmed and lower-cased, starts with "eil"; column 1 (no text when the
    sheet has a single column) contains "pavard" or "vard". *)
Definition header_at (df0 : RawGrid) (i : nat) : bool :=
  match iat df0 i 0 with
  | Ok c0 =>
      let c1 := if Nat.ltb 1 (shape1 df0) then at_ df0 i 1 else NaN in
      startswith (py "eil") (lower (strip (text_of c0)))
      && (contains (py "pavard") (lower (strip (text_of c1)))
          || contains (py "vard") (lower (strip (text_of c1))))
  | Raise _ => false
  end.

Definition header_not_found : exn :=
  ValueError (py "Nerasta antraštės eilutė: turi būti 'Eil. Nr.' ir 'Pavardė, vardas'.").

(** A [str] cell holding a range of years: the range, as the scanner
    prints it. *)
Definition year_range (c : cell) : option str :=
  match c with
  | Text v => option_map fmt_years (search pat_years (strip v))
  | _ => None
  end.

(** A [str] cell naming the school year: its trimmed text. *)
Definition school_year_phrase (c : cell) : option str :=
  match c with
  | Text v => if contains (py "mokslo metai") (lower (strip v))
              then Some (strip v) else None
  | _ => None
  end.

(** "20" and two decimal digits *)
Definition is_year (y : str) : Prop :=
  exists d1 d2, y = py "20" ++ [d1; d2] /\ is_digit d1 = true /\ is_digit d2 = true.

(** ** Matching, said without the engine *)

(** The state of the matcher after it has walked over [head] and has
    [tail] left. *)
Definition jump (st : mstate) (head tail : str) : mstate :=
  {| prev := last (map Some head) (prev st); rest := tail; caps := caps st |}.

(** [p] and [c] are the same letter for a pattern compiled with [(?i)]. *)
Definition same_letter (p c : char) : Prop := lit_match true p c = true.

(** The text starts with the literal [s]: the matched head and the rest. *)
Fixpoint split_literal (ci : bool) (s text : str) : option (str * str) :=
  match s, text with
  | [], _ => Some ([], text)
  | p :: s', c :: t =>
      if lit_match ci p c
      then match split_literal ci s' t with
           | Some (head, tail) => Some (c :: head, tail)
           | None => None
           end
      else None
  | _ :: _, [] => None
  end.

(** Nothing or a non-word character comes next: with a word character
    just before, this is where [\b] holds. *)
Definition word_end (tail : str) : Prop :=
  match tail with
  | [] => True
  | c :: _ => is_word c = false
  end.

(** Nothing or a non-word character came last. *)
Definition word_start (head : str) : Prop :=
  wordy (last (map Some head) None) = false.

(** ** Class labels *)

(** The letters a class label may end in: A to Z and the nine Lithuanian
    letters with diacritics, in either case. *)
Definition class_letters : str :=
  Eval vm_compute in
    py "ABCDEFGHIJKLMNOPQRSTUVWXYZĄČĘĖĮŠŲŪŽabcdefghijklmnopqrstuvwxyząčęėįšųūž".

(** "IV" in either case, then optional white space and at most one letter. *)
Definition final_class_shape (k : str) : Prop :=
  exists i v ws suffix,
    k = [i; v] ++ ws ++ suffix
    /\ (i = ch "I" \/ i = ch "i") /\ (v = ch "V" \/ v = ch "v")
    /\ forallb is_space ws = true
    /\ (suffix = [] \/ exists c, suffix = [c] /\ char_in class_letters c = true).

(** "12" standing as a token of its own. *)
Definition has_token_12 (k : str) : Prop :=
  exists pre post, k = pre ++ py "12" ++ post /\ word_start pre /\ word_end post.

(** ** Ranges of years *)

Definition HYPHEN : char := ch "-".
Definition EN_DASH : char := ch "–".

(** The text holds two years with a hyphen or an en-dash between them,
    white space allowed around the dash. *)
Definition holds_year_range (txt : str) : Prop :=
  exists pre y1 ws1 dash ws2 y2 post,
    txt = pre ++ y1 ++ ws1 ++ [dash] ++ ws2 ++ y2 ++ post
    /\ is_year y1 /\ is_year y2
    /\ forallb is_space ws1 = true /\ forallb is_space ws2 = true
    /\ (dash = HYPHEN \/ dash = EN_DASH).

(** ** The range of years, said without the engine *)

(** The text starts with a year: the year and the text after it. *)
Definition year_at (s : str) : option (str * str) :=
  match s with
  | a :: b :: c :: d :: t =>
      if N.eqb a 50 && N.eqb b 48 && is_digit c && is_digit d
      then Some ([a; b; c; d], t)
      else None
  | _ => None
  end.

Definition is_dash (c : char) : bool := N.eqb c HYPHEN || N.eqb c EN_DASH.

(** The text starts with a range of years: the two years. *)
Definition range_at (s : str) : option (str * str) :=
  match year_at s with
  | Some (y1, t) =>
      match lstrip_by is_space t with
      | dash :: t' =>
          if is_dash dash
          then match year_at (lstrip_by is_space t') with
               | Some (y2, _) => Some (y1, y2)
               | None => None
               end
          else None
      | [] => None
      end
  | None => None
  end.

(** The first range of years of the text, from the left. *)
Fixpoint first_range (s : str) : option (str * str) :=
  match range_at s with
  | Some years => Some years
  | None => match s with
            | [] => None
            | _ :: t => first_range t
            end
  end.

(** A [str] cell holding a range of years: the two years of the first
    range of its trimmed text, with an en-dash between them. *)
Definition year_text (c : cell) : option str :=
  match c with
  | Text v =>
      match first_range (strip v) with
      | Some (y1, y2) => Some (y1 ++ [EN_DASH] ++ y2)
      | None => None
      end
  | _ => None
  end.

(** The text starts with the years [y1] and [y2], a hyphen or an en-dash
    between them, white space allowed around the dash. *)
Definition starts_with_range (s y1 y2 : str) : Prop :=
  exists ws1 dash ws2 post,
    s = y1 ++ ws1 ++ [dash] ++ ws2 ++ y2 ++ post
    /\ is_year y1 /\ is_year y2
    /\ forallb is_space ws1 = true /\ forallb is_space ws2 = true
    /\ (dash = HYPHEN \/ dash = EN_DASH).

(** ** Column names *)

(** The placeholder of column [j] *)
Definition placeholder (j : nat) : str := py "Dalykas_" ++ str_of_nat (j - 1).

(** The name of subject column [j]: the trimmed cell of the subjects row,
    or the placeholder when that is blank. *)
Definition subject_label (df0 : RawGrid) (subjects_row j : nat) : str :=
  let name := strip (text_of (at_ df0 subjects_row j)) in
  if is_empty name then placeholder j else name.

(** ** White space and file names *)

(** The white-space characters, one by one. *)
Definition space_chars : list char :=
  [9; 10; 11; 12; 13; 28; 29; 30; 31; 32; 133; 160; 5760; 8192; 8193; 8194;
   8195; 8196; 8197; 8198; 8199; 8200; 8201; 8202; 8232; 8233; 8239; 8287;
   12288]%N.

(** The part of [strip_accents_lower] before the final trim, on one
    character. *)
Definition fold_char (c : char) : str :=
  flat_map lower_full (filter (fun ch => negb (is_Mn ch)) (decompose c)).

(** The name a row is filed under. *)
Definition display_name (cols : list str) (row : list cell) : str :=
  strip (str_ (row_get cols row PAVARDE_VARDAS (Text (py "")))).

(** The row has a name: its trimmed name is neither empty nor "nan" in any
    case. *)
Definition named (cols : list str) (row : list cell) : bool :=
  negb (is_empty (display_name cols row))
  && negb (str_eqb (lower (display_name cols row)) (py "nan")).

(** The nine characters a file name must not hold; 34 is the double
    quote. *)
Definition UNSAFE : str := Eval vm_compute in py "/\:*?<>|" ++ [34%N].

(** What becomes of one character of a name. *)
Definition safe_char (c : char) : str :=
  if N.eqb c (ch "?") || N.eqb c 34%N then []
  else if N.eqb c (ch "<") then py "("
  else if N.eqb c (ch ">") then py ")"
  else if char_in (py "/\:*|") c then py "-"
  else [c].

(** One round of the loop that fills the [subjects] dict. *)
Definition subject_round (cols : list str) (row : list cell)
  (subjects : list (str * str)) (col : str) : list (str * str) :=
  if label_in col [EIL_NR; PAVARDE_VARDAS] then subjects
  else match cleaned_value (row_get cols row col NaN) with
       | None => subjects
       | Some sv => dict_set subjects col sv
       end.

Definition subjects_dict (cols : list str) (row : list cell) : list (str * str) :=
  fold_left (subject_round cols row) cols [].

(** The renderer returns on every story; [pages] are the bytes it
    leaves. *)
Definition renders (doc_build : str -> list flowable -> result bytes)
  (pages : str -> list flowable -> bytes) : Prop :=
  forall font_name story, doc_build font_name story = Ok (pages font_name story).

(** The story of the document of a row. *)
Definition story_of (cols : list str) (school klase akadem_metai : str)
  (row : list cell) : list flowable :=
  story (display_name cols row) klase akadem_metai school (subjects_dict cols row).

(** One round of the loop that fills the archive, for a row that is not
    the summary row: a row without a name is passed over; for the others
    the document is rendered and added under the name of the pupil. *)
Definition archive_round (FONT_NAME : str)
  (doc_build : str -> list flowable -> result bytes) (cols : list str)
  (school klase akadem_metai : str) (row : list cell) (zf : list (str * bytes))
  : result (step (list (str * bytes)) (list (str * bytes))) :=
  if named cols row
  then pdf_bytes <- doc_build FONT_NAME (story_of cols school klase akadem_metai row) ;;
       Ok (Continue (zf ++ [(safe_name (display_name cols row) ++ py ".pdf", pdf_bytes)]))
  else Ok (Continue zf).

(** The entry of the archive written for a row. *)
Definition entry (FONT_NAME : str) (pages : str -> list flowable -> bytes)
  (cols : list str) (school klase akadem_metai : str) (row : list cell)
  : str * bytes :=
  (safe_name (display_name cols row) ++ py ".pdf",
   pages FONT_NAME (story_of cols school klase akadem_metai row)).


(** ** Achievement levels and the per-value filter *)

Definition LEVEL_NAMES : list str :=
  [py "slenkstinis"; py "patenkinamas"; py "pagrindinis"; py "aukštesnysis"].

(** The text starts with a level name, letter case aside, and the name
    ends there: the text ends with it or goes on with a non-word
    character. *)
Definition level_word (sv : str) : Prop :=
  exists name head tail,
    In name LEVEL_NAMES /\ sv = head ++ tail
    /\ Forall2 same_letter name head /\ word_end tail.

(** The text starts with the letters of a level name, letter case aside,
    whatever follows. *)
Definition starts_with_level_name (sv : str) : bool :=
  existsb (fun name => match split_literal true name sv with
                       | Some _ => true
                       | None => false
                       end) LEVEL_NAMES.

(** The value is kept out of the subjects of a pupil. *)
Definition excluded (v : cell) : Prop :=
  isna v = true
  \/ strip (str_ v) = []
  \/ lower (strip (str_ v)) = py "nan"
  \/ level_word (strip (str_ v))
  \/ clean_value_remove_tags (strip (str_ v)) = [].

(** The subjects of a row, column by column. *)
Definition kept_subjects (cols : list str) (row : list cell) : list (str * str) :=
  flat_map (fun cv : str * cell =>
              if label_in (fst cv) [EIL_NR; PAVARDE_VARDAS] then []
              else match cleaned_value (snd cv) with
                   | Some sv => [(fst cv, sv)]
                   | None => []
                   end)
           (combine cols row).

(** ** Tags *)

(** [a], [b] spell one of the two tags, letter case aside. *)
Definition tag_pair (a b : char) : bool :=
  (lit_match true (ch "P") a && lit_match true (ch "R") b)
  || (lit_match true (ch "I") a && lit_match true (ch "N") b).

(** A tag stands at the head of [s] as a token of its own, [before] being
    the character in front of it. *)
Definition tag_at (before : option char) (s : str) : bool :=
  negb (wordy before)
  && match s with
     | a :: b :: t => tag_pair a b && negb (wordy (hd_error t))
     | _ => false
     end.


(** A tag stands somewhere in [s] as a token of its own. *)
Fixpoint has_tag (before : option char) (s : str) : bool :=
  tag_at before s
  || match s with
     | [] => false
     | c :: t => has_tag (Some c) t
     end.

(** The text starts with two white-space characters. *)
Definition two_spaces (s : str) : bool :=
  match s with
  | a :: b :: _ => is_space a && is_space b
  | _ => false
  end.

(** ** The table *)

(** The table starts with the two fixed columns and no row of it lacks a
    name. *)
Definition names_present (t : Table) : Prop :=
  (exists more, columns t = EIL_NR :: PAVARDE_VARDAS :: more)
  /\ forall row, In row (rows t) -> notna (nth 1 row NaN) = true.
(* ================================================================== *)
(** * More sample inputs *)
(* ================================================================== *)

(** A sheet that ends with its header row, with one subject column. *)
Definition sheet_header_at_bottom : RawGrid :=
  grid_of [ [Text (py "Mokinių sąrašas"); NaN; NaN];
            [Text (py "Eil. Nr."); Text (py "Pavardė, vardas"); NaN] ].

(** A sheet that ends with its header row and has two columns only. *)
Definition sheet_header_only : RawGrid :=
  grid_of [ [Text (py "Eil. Nr."); Text (py "Pavardė, vardas")] ].

(** A sheet in which no row under the subjects is numbered. *)
Definition sheet_without_numbers : RawGrid :=
  grid_of
    [ [Text (py "Eil. Nr."); Text (py "Pavardė, vardas"); NaN];
      [NaN; NaN; Text (py "Matematika")];
      [Text (py "a"); Text (py "Jonaitis Jonas"); Obj (py "8")];
      [NaN; Text (py "Petraitė Ona"); Obj (py "9")] ].

(** A sheet with a single column. *)
Definition sheet_one_column : RawGrid :=
  grid_of [ [Text (py "Eil. Nr.")]; [Obj (py "1")] ].

Definition not_pressed (df0 : RawGrid) : Inputs :=
  {| excel_file := Some df0; akadem_metai_input := py ""; override_school := py "";
     override_class := py ""; button := false |}.

(** A table with a column of achievement levels between two subjects. *)
Definition sample_levels_table : Table :=
  {| columns := [EIL_NR; PAVARDE_VARDAS; py "Matematika"; py "Pasiekimų lygis";
                 py "Fizika"];
     rows := [ [Obj (py "1"); Text (py "Jonaitis Jonas"); Obj (py "8");
                Text (py "Pagrindinis"); Obj (py "9")] ] |}.

(** A sheet with two pupils, the second of whom has an angle bracket in the
    name. *)
Definition sheet_bracket_name : RawGrid :=
  grid_of
    [ [Text (py "Eil. Nr."); Text (py "Pavardė, vardas"); NaN];
      [NaN; NaN; Text (py "Matematika")];
      [Obj (py "1"); Text (py "Petraitis Petras"); Obj (py "7")];
      [Obj (py "2"); Text (py "Jonaitis <Jonas"); Obj (py "8")] ].

Definition table_bracket_name : Table :=
  {| columns := [EIL_NR; PAVARDE_VARDAS; py "Matematika"];
     rows := [ [Obj (py "1"); Text (py "Petraitis Petras"); Obj (py "7")];
               [Obj (py "2"); Text (py "Jonaitis <Jonas"); Obj (py "8")] ] |}.

(** A renderer that, in the way of reportlab's paragraph parser, turns down
    a paragraph with more opening angle brackets than the two of the bold
    tags, and writes nothing otherwise. *)
Definition MARKUP_ERROR : exn := ValueError (py "paraparser: syntax error").

Definition strict_page (font_name : str) (story : list flowable) : result bytes :=
  if forallb (fun f => match f with
                       | Paragraph text _ =>
                           Nat.leb (length (filter (N.eqb 60) text)) 2
                       | _ => true
                       end) story
  then Ok []
  else Raise MARKUP_ERROR.

(** A cell with text around two ranges of years, the first with spaces
    around a hyphen. *)
Definition sheet_years_in_text : RawGrid :=
  grid_of [ [NaN; Text (py " nuo 2023 - 2024 iki 2024–2025 ")] ].
(* ================================================================== *)
(** * More vocabulary *)
(* ================================================================== *)

(** ** Normal forms *)

(** Nothing is left to do to the character: it is no combining mark, it
    does not decompose and [lower] leaves it alone. *)
Definition plain (c : char) : bool :=
  negb (is_Mn c) && str_eqb (decompose c) [c] && str_eqb (lower_full c) [c].

(** Two white-space characters stand side by side somewhere in [s]. *)
Fixpoint has_run (s : str) : bool :=
  two_spaces s || match s with [] => false | _ :: t => has_run t end.

(** The text starts with a white-space character. *)
Definition space_head (s : str) : bool :=
  match s with c :: _ => is_space c | [] => false end.

(** ** The document *)

Definition TITLE : flowable := Paragraph (py "Mokinio pasiekimų įrašas") "TitleLT".
Definition GRADUATED : flowable :=
  Paragraph (py "Baigė vidurinio ugdymo programą.") "NormalLT".
Definition MOVED_UP : flowable :=
  Paragraph (py "Direktoriaus įsakymu perkeltas/a į aukštesnę klasę.") "NormalLT".

Definition is_table (f : flowable) : bool :=
  match f with TableOf _ => true | _ => false end.

(** The value of a subject passes the tests of the grade table. *)
Definition shown (val : str) : bool :=
  match cleaned_value (Text val) with Some _ => true | None => false end.

(** What the grade table shows for a cell of the sheet: the value passes
    the tests of the loop in [main] and, cleaned, those of
    [make_student_pdf]. *)
Definition printed (v : cell) : option str :=
  match cleaned_value v with
  | Some sv => cleaned_value (Text sv)
  | None => None
  end.

Definition HEADINGS : list str := [py "Dalykas"; py "Įvertinimas"].

(** ** The font *)

(** The path is not empty, exists and registers. *)
Definition usable (path_exists : str -> bool) (registerFont : str -> option str)
  (p : str) : bool :=
  truthy p && path_exists p
  && match registerFont p with None => true | Some _ => false end.

(** The warning shown for a font file that did not register. *)
Definition failure_notice (w : str) : Prop :=
  exists p e, w = py "Šrifto registruoti nepavyko iš '" ++ p ++ py "': " ++ e.

(** ** The table, said from the sheet *)

(** The names the columns get from subjects row [subjects_row]. *)
Definition sheet_labels (df0 : RawGrid) (subjects_row : nat) : list str :=
  [EIL_NR; PAVARDE_VARDAS]
    ++ map (subject_label df0 subjects_row) (seq 2 (shape1 df0 - 2)).

(** The first cell of row [r] is there and reads as an integer. *)
Definition numbered (df0 : RawGrid) (r : nat) : bool :=
  notna (at_ df0 r 0) && int_parses (strip (str_ (at_ df0 r 0))).

(** The first numbered row from [start] on; with none, the row after the
    last (or [start], if that is further down). *)
Definition first_numbered (df0 : RawGrid) (start : nat) : nat :=
  match find (numbered df0) (seq start (shape0 df0 - start)) with
  | Some r => r
  | None => Nat.max start (shape0 df0)
  end.

(** The rows from [start] on that have a name in column 1. *)
Definition pupil_rows (df0 : RawGrid) (start : nat) : list nat :=
  filter (fun r => notna (at_ df0 r 1)) (seq start (shape0 df0 - start)).

(** Column [j] has a value in one of the rows [rs]. *)
Definition has_value (df0 : RawGrid) (rs : list nat) (j : nat) : bool :=
  existsb (fun r => notna (at_ df0 r j)) rs.

(** The columns that stay: the two fixed ones and the subjects with a
    value. *)
Definition kept_columns (df0 : RawGrid) (rs : list nat) : list nat :=
  filter (fun j => Nat.ltb j 2 || has_value df0 rs j) (range (shape1 df0)).

(** The table of pupils of a sheet whose subjects row is [subjects_row]. *)
Definition parsed_table (df0 : RawGrid) (subjects_row : nat) : Table :=
  let rs := pupil_rows df0 (first_numbered df0 (subjects_row + 1)) in
  let kept := kept_columns df0 rs in
  {| columns := map (fun j => nth j (sheet_labels df0 subjects_row) []) kept;
     rows := map (fun r => map (at_ df0 r) kept) rs |}.

(** [data[col].notna().any()] *)
Definition column_has_value (data : Table) (col : str) : bool :=
  match column data col with
  | Ok vals => existsb notna vals
  | Raise _ => false
  end.

(** The label names a column of achievement levels. *)
Definition level_label (c : str) : bool :=
  match search ACH_LVL_COL_RE c with Some _ => true | None => false end.

(** The row is the summary row of the class: its name, without accents and
    letter case, is that of [SUMMARY]. *)
Definition summary_row (cols : list str) (row : list cell) : bool :=
  str_eqb (strip_accents_lower (str_ (row_get cols row PAVARDE_VARDAS NaN)))
          (strip_accents_lower SUMMARY).

(** The parsed table without the achievement-level columns and the summary
    rows. *)
Definition final_table (t : Table) : Table :=
  let cols := filter (fun c => negb (level_label c)) (columns t) in
  {| columns := cols;
     rows := map (fun row => map (fun c => row_get (columns t) row c NaN) cols)
                 (filter (fun row => negb (summary_row (columns t) row)) (rows t)) |}.

(** The names given to the columns of the sheet are pairwise distinct. *)
Definition distinct_labels (df0 : RawGrid) : Prop :=
  forall h s, find_header_rows df0 = Ok (Some (h, s)) -> NoDup (sheet_labels df0 s).

(** The label holds "pasiek", any word characters, any white space and
    "lyg", letter case aside. *)
Definition names_level (c : str) : Prop :=
  exists pre a w sp b post,
    c = pre ++ a ++ w ++ sp ++ b ++ post
    /\ Forall2 same_letter (py "pasiek") a /\ forallb is_word w = true
    /\ forallb is_space sp = true /\ Forall2 same_letter (py "lyg") b.

(** ** The archive, said from the sheet *)

(** The name of the pupil of sheet row [r]. *)
Definition pupil_name (df0 : RawGrid) (r : nat) : str :=
  strip (str_ (at_ df0 r 1)).

(** Sheet row [r] stays in the table: it has a name, and the name is not
    that of the summary row. *)
Definition table_row (df0 : RawGrid) (r : nat) : bool :=
  notna (at_ df0 r 1)
  && negb (str_eqb (strip_accents_lower (str_ (at_ df0 r 1)))
                   (strip_accents_lower SUMMARY)).

(** Sheet row [r] gets a document: its trimmed name is neither empty nor
    "nan". *)
Definition gets_document (df0 : RawGrid) (r : nat) : bool :=
  negb (is_empty (pupil_name df0 r))
  && negb (str_eqb (lower (pupil_name df0 r)) (py "nan")).

(** ** The tabulated characters *)

(** The code points whose entries in the tables of this file say anything:
    up to the end of Latin Extended-A, the combining marks, the two quads
    and the Kelvin sign.  Every other character is its own decomposition
    and its own lower-case form, and is no combining mark. *)
Definition tabulated (c : char) : bool :=
  N.leb c 383 || between 768 879 c || N.eqb c 8192 || N.eqb c 8193 || N.eqb c 8490.

(** [P] holds of every tabulated character, one by one. *)
Definition checked (P : char -> bool) : bool :=
  forallb P (map N.of_nat (seq 0 384))
  && forallb (fun k => P (768 + N.of_nat k)%N) (seq 0 112)
  && P 8192%N && P 8193%N && P 8490%N.

(** The pattern character has no lower-case form outside the tables. *)
Definition small (p : char) : bool :=
  tabulated (tolower p) && forallb tabulated (ignorecase_fixes (tolower p)).

(** ** Class labels, exactly *)

(** The characters a pattern compiled with [(?i)] takes for "I", for "V"
    and for one of the letters of the class set: the dotted capital and
    the dotless small i count as "I"; they, the long s and the Kelvin sign
    count as letters. *)
Definition I_LIKE : str := Eval vm_compute in py "Iiİı".
Definition V_LIKE : str := Eval vm_compute in py "Vv".
Definition CLASS_LETTERS : str :=
  Eval vm_compute in class_letters ++ py "İıſ" ++ [8490%N].

(** "IV", then optional white space and at most one letter, letter case
    aside. *)
Definition final_class_text (k : str) : Prop :=
  exists i v ws letter,
    k = [i; v] ++ ws ++ letter
    /\ char_in I_LIKE i = true /\ char_in V_LIKE v = true
    /\ forallb is_space ws = true
    /\ (letter = [] \/ exists c, letter = [c] /\ char_in CLASS_LETTERS c = true).

Definition CLASS_SET : list (char * char) :=
  (65, 90)%N :: map (fun c => (c, c)) (py "ĄČĘĖĮŠŲŪŽ").
(* ================================================================== *)
(** * Basic facts: text, labels, loops *)
(* ================================================================== *)

(** Comparisons of code points stay folded during simplification. *)
Arguments N.eqb : simpl never.
Arguments N.leb : simpl never.
Arguments N.ltb : simpl never.

Lemma str_eqb_eq (a b : str) : str_eqb a b = true <-> a = b.
Proof.
  revert b. induction a as [|x a IH]; intros [|y b]; simpl; split;
    try congruence; try reflexivity.
  - intros H. apply andb_true_iff in H as [Hx Hab].
    apply N.eqb_eq in Hx. apply IH in Hab. congruence.
  - intros H. injection H as -> ->. rewrite N.eqb_refl.
    simpl. apply IH. reflexivity.
Qed.

Lemma str_eqb_refl (a : str) : str_eqb a a = true.
Proof. apply str_eqb_eq. reflexivity. Qed.

Lemma str_eqb_neq (a b : str) : str_eqb a b = false <-> a <> b.
Proof.
  split.
  - intros H E. apply str_eqb_eq in E. congruence.
  - intros H. destruct (str_eqb a b) eqn:E; [|reflexivity].
    apply str_eqb_eq in E. contradiction.
Qed.

Lemma is_empty_nil (s : str) : is_empty s = true <-> s = [].
Proof. destruct s; simpl; split; congruence. Qed.

Lemma label_in_In (l : str) (ls : list str) : label_in l ls = true <-> In l ls.
Proof.
  unfold label_in. rewrite existsb_exists. split.
  - intros (x & Hx & E). apply str_eqb_eq in E. subst. exact Hx.
  - intros H. exists l. split; [exact H | apply str_eqb_refl].
Qed.

Lemma index_of_In (l : str) (cols : list str) :
  In l cols -> exists i, index_of l cols = Some i.
Proof.
  induction cols as [|c cols IH]; simpl; [tauto|].
  intros [E | H].
  - subst. rewrite str_eqb_refl. eauto.
  - destruct (str_eqb c l); [eauto|].
    destruct (IH H) as [i ->]. simpl. eauto.
Qed.

(** In a list of distinct labels a label is found at its own place. *)
Lemma index_of_app_fresh (pre : list str) (l : str) (post : list str) :
  ~ In l pre -> index_of l (pre ++ l :: post) = Some (length pre).
Proof.
  induction pre as [|c pre IH]; simpl; intros H.
  - rewrite str_eqb_refl. reflexivity.
  - destruct (str_eqb c l) eqn:E.
    + apply str_eqb_eq in E. subst. tauto.
    + rewrite IH by tauto. reflexivity.
Qed.

(** ** [for] loops *)

(** A loop whose rounds neither raise nor return is a left fold. *)
Lemma for_in_fold {A S R} (f : A -> S -> S) (body : A -> S -> result (step S R))
  (l : list A) (s : S) :
  (forall a s', In a l -> body a s' = Ok (Continue (f a s'))) ->
  for_in l body s = Ok (Continue (fold_left (fun s' a => f a s') l s)).
Proof.
  revert s. induction l as [|a l IH]; intros s H; simpl; [reflexivity|].
  rewrite H by (left; reflexivity).
  apply IH. intros a' s' Hin. apply H. right. exact Hin.
Qed.

(** A loop that returns at the first element passing a test. *)
Lemma for_in_find {A R} (test : A -> bool) (ret : A -> R)
  (body : A -> unit -> result (step unit R)) (l : list A) :
  (forall a, In a l ->
     body a tt = if test a then Ok (Return (ret a)) else Ok (Continue tt)) ->
  for_in l body tt = match find test l with
                     | Some a => Ok (Return (ret a))
                     | None => Ok (Continue tt)
                     end.
Proof.
  induction l as [|a l IH]; intros H; simpl; [reflexivity|].
  rewrite H by (left; reflexivity).
  destruct (test a); [reflexivity|].
  apply IH. intros a' Hin. apply H. right. exact Hin.
Qed.

(** The first number below [n] passing a test is the least one. *)
Lemma find_seq_least (test : nat -> bool) (n a h : nat) :
  find test (seq a n) = Some h <->
  a <= h < a + n /\ test h = true /\ forall i, a <= i < h -> test i = false.
Proof.
  revert a. induction n as [|n IH]; intros a; simpl.
  - split; [discriminate | lia].
  - destruct (test a) eqn:Ta.
    + split.
      * intros E. injection E as <-. repeat split; try lia; auto.
      * intros (Hr & Th & Hl).
        destruct (Nat.eq_dec a h) as [->|Hne]; [reflexivity|].
        rewrite Hl in Ta by lia. discriminate.
    + rewrite IH. split.
      * intros (Hr & Th & Hl). repeat split; try lia; auto.
        intros i Hi. destruct (Nat.eq_dec i a) as [->|]; [exact Ta|].
        apply Hl. lia.
      * intros (Hr & Th & Hl).
        assert (a <> h) by (intros ->; congruence).
        repeat split; try lia; auto. intros i Hi. apply Hl. lia.
Qed.

Lemma find_seq_none (test : nat -> bool) (n a : nat) :
  find test (seq a n) = None <-> forall i, a <= i < a + n -> test i = false.
Proof.
  split.
  - intros H i Hi. apply (find_none _ _ H). apply in_seq. lia.
  - intros H. destruct (find test (seq a n)) as [h|] eqn:E; [|reflexivity].
    apply find_seq_least in E as (Hr & Th & _). rewrite H in Th by lia.
    discriminate.
Qed.

Lemma iat_ok (df : RawGrid) (r c : nat) :
  r < shape0 df -> c < shape1 df -> iat df r c = Ok (at_ df r c).
Proof.
  intros Hr Hc. unfold iat.
  apply Nat.ltb_lt in Hr, Hc. rewrite Hr, Hc. reflexivity.
Qed.

Lemma iat_out (df : RawGrid) (r c : nat) :
  shape0 df <= r \/ shape1 df <= c -> iat df r c = Raise IndexError.
Proof.
  intros H. unfold iat.
  destruct (Nat.ltb r (shape0 df)) eqn:Hr; [|reflexivity].
  destruct (Nat.ltb c (shape1 df)) eqn:Hc; [|reflexivity].
  apply Nat.ltb_lt in Hr, Hc. lia.
Qed.

Lemma in_range2 (nrows ncols r c : nat) :
  In (r, c) (range2 nrows ncols) <-> r < nrows /\ c < ncols.
Proof.
  unfold range2, range. rewrite in_flat_map. split.
  - intros (r' & Hr & Hc). apply in_map_iff in Hc as (c' & E & Hc).
    injection E as -> ->. apply in_seq in Hr, Hc. lia.
  - intros (Hr & Hc). exists r. split; [apply in_seq; lia|].
    apply in_map_iff. exists c. split; [reflexivity | apply in_seq; lia].
Qed.
(* ================================================================== *)
(** * The metadata scanners *)
(* ================================================================== *)

Lemma last_cons_default {A} (x : A) (l : list A) (d : A) : last (x :: l) d = last l x.
Proof.
  revert x d. induction l as [|y l IH]; intros x d; [reflexivity|].
  change (last (x :: y :: l) d) with (last (y :: l) d).
  rewrite !IH. reflexivity.
Qed.

(** "The last match wins", as a fold and as the last hit. *)
Lemma fold_last_hit {A} (f : cell -> option A) (cells : list cell) (d : A) :
  fold_left (fun acc c => match f c with Some x => x | None => acc end) cells d
  = last (hits f cells) d.
Proof.
  revert d. induction cells as [|c cells IH]; intros d; simpl; [reflexivity|].
  rewrite IH. destruct (f c) as [x|]; simpl app.
  - fold (hits f cells). rewrite last_cons_default. reflexivity.
  - reflexivity.
Qed.

Lemma fold_left_pair {A S T} (f : S -> A -> S) (g : T -> A -> T) (l : list A)
  (s : S) (t : T) :
  fold_left (fun st a => (f (fst st) a, g (snd st) a)) l (s, t)
  = (fold_left f l s, fold_left g l t).
Proof.
  revert s t. induction l as [|a l IH]; intros s t; simpl; [reflexivity|].
  apply IH.
Qed.

Lemma fold_left_over_map {A B S} (f : S -> B -> S) (g : A -> B) (l : list A) (s : S) :
  fold_left f (map g l) s = fold_left (fun s' a => f s' (g a)) l s.
Proof.
  revert s. induction l as [|a l IH]; intros s; simpl; [reflexivity | apply IH].
Qed.

Lemma contains_colon (txt : str) :
  contains (py ":") txt = true <-> split1 58%N txt <> None.
Proof.
  change (py ":") with [58%N].
  induction txt as [|c t IH]; simpl.
  - split; [discriminate | congruence].
  - rewrite andb_true_r. rewrite (N.eqb_sym 58 c).
    destruct (N.eqb c 58); simpl.
    + split; [discriminate | reflexivity].
    + rewrite IH. destruct (split1 58%N t) as [[a b]|]; split; congruence.
Qed.

Lemma labelled_guard (keys : list str) (v : str) (old : str) :
  (if existsb (fun k => contains k (lower (strip v))) keys
      && contains (py ":") (strip v)
   then (a <- after_colon (strip v) ;; Ok (strip a))
   else Ok old)
  = Ok (match labelled keys (Text v) with Some x => x | None => old end).
Proof.
  unfold labelled, after_colon.
  destruct (existsb _ keys); simpl; [|reflexivity].
  destruct (contains (py ":") (strip v)) eqn:Hc.
  - apply contains_colon in Hc.
    destruct (split1 58%N (strip v)) as [[a b]|]; [reflexivity | congruence].
  - destruct (split1 58%N (strip v)) as [[a b]|] eqn:Hs; [|reflexivity].
    assert (contains (py ":") (strip v) = true)
      by (apply contains_colon; congruence).
    congruence.
Qed.

Lemma try_extract_school_and_class_fold (df : RawGrid) :
  try_extract_school_and_class df
  = Ok (fold_left (fun st c => school_class_round c st) (window df) (py "", py "")).
Proof.
  unfold try_extract_school_and_class, window.
  rewrite for_in_fold
    with (f := fun rc st => school_class_round (at_ df (fst rc) (snd rc)) st).
  - simpl. f_equal. rewrite fold_left_over_map. reflexivity.
  - intros [r c] [m k] Hin. apply in_range2 in Hin. simpl fst. simpl snd.
    rewrite iat_ok by lia. simpl.
    destruct (at_ df r c) as [|v|repr]; try reflexivity.
    pose proof (labelled_guard [py "mokykla"] v m) as Hm.
    pose proof (labelled_guard [py "klasė"; py "klase"] v k) as Hk.
    cbn [existsb] in Hm, Hk. rewrite orb_false_r in Hm, Hk.
    rewrite Hm. simpl. rewrite Hk. reflexivity.
Qed.

(** The scanner as the claim words it, with the key looked for in the whole
    text of the cell. *)
Lemma try_extract_school_and_class_last (df : RawGrid) :
  try_extract_school_and_class df
  = Ok (last (hits (labelled [py "mokykla"]) (window df)) (py ""),
        last (hits (labelled [py "klasė"; py "klase"]) (window df)) (py "")).
Proof.
  rewrite try_extract_school_and_class_fold.
  unfold school_class_round.
  rewrite (fold_left_pair
             (fun m c => match labelled [py "mokykla"] c with
                         | Some x => x | None => m end)
             (fun k c => match labelled [py "klasė"; py "klase"] c with
                         | Some x => x | None => k end)).
  rewrite !fold_last_hit. reflexivity.
Qed.

Lemma academic_year_loop (df : RawGrid) (l : list (nat * nat)) (candidate : str) :
  (forall rc, In rc l -> fst rc < shape0 df /\ snd rc < shape1 df) ->
  let cells := map (fun rc => at_ df (fst rc) (snd rc)) l in
  for_in l
    (fun rc (candidate : str) =>
       val <- iat df (fst rc) (snd rc) ;;
       match val with
       | Text v =>
           let txt := strip v in
           match search pat_years txt with
           | Some m => Ok (Return (fmt_years m))
           | None =>
               if contains (py "mokslo metai") (lower txt)
               then match search pat_years txt with
                    | Some m2 => Ok (Return (fmt_years m2))
                    | None => Ok (Continue txt)
                    end
               else Ok (Continue candidate)
           end
       | _ => Ok (Continue candidate)
       end)
    candidate
  = Ok (match hits year_range cells with
        | y :: _ => Return y
        | [] => Continue (last (hits school_year_phrase cells) candidate)
        end).
Proof.
  revert candidate. induction l as [|[r c] l IH]; intros candidate Hin; simpl.
  - reflexivity.
  - destruct (Hin (r, c) (or_introl eq_refl)) as [Hr Hc]. simpl in Hr, Hc.
    rewrite iat_ok by assumption. simpl.
    assert (Hl : forall rc, In rc l -> fst rc < shape0 df /\ snd rc < shape1 df)
      by (intros rc H; apply Hin; right; exact H).
    destruct (at_ df r c) as [|v|repr]; simpl.
    + apply IH, Hl.
    + destruct (search pat_years (strip v)) as [m|]; simpl; [reflexivity|].
      destruct (contains (py "mokslo metai") (lower (strip v))); simpl.
      * rewrite (IH _ Hl). simpl.
        destruct (hits year_range _); [|reflexivity].
        f_equal. f_equal. symmetry.
        apply (last_cons_default (strip v) _ candidate).
      * apply IH, Hl.
    + apply IH, Hl.
Qed.

(** The first range of years wins; failing that, the last cell naming the
    school year; failing that, the empty text. *)
Lemma try_extract_academic_year_first (df : RawGrid) :
  try_extract_academic_year df
  = Ok (match hits year_range (window df) with
        | y :: _ => y
        | [] => last (hits school_year_phrase (window df)) (py "")
        end).
Proof.
  unfold try_extract_academic_year, window.
  rewrite academic_year_loop.
  - simpl. destruct (hits year_range _); reflexivity.
  - intros [r c] H. apply in_range2 in H. simpl. lia.
Qed.
(* ================================================================== *)
(** * The header locator *)
(* ================================================================== *)

Lemma header_text_eq (c : cell) : header_text c = lower (strip (text_of c)).
Proof. destruct c; reflexivity. Qed.

Lemma find_header_rows_find (df0 : RawGrid) :
  0 < shape1 df0 ->
  find_header_rows df0
  = Ok (option_map (fun i => (i, i + 1))
                   (find (header_at df0) (range (Nat.min 40 (shape0 df0))))).
Proof.
  intros Hcols. unfold find_header_rows.
  rewrite for_in_find with (test := header_at df0) (ret := fun i => (i, i + 1)).
  - simpl. destruct (find _ _); reflexivity.
  - intros i Hi. apply in_seq in Hi.
    unfold header_at. rewrite iat_ok by lia. simpl.
    destruct (Nat.ltb 1 (shape1 df0)) eqn:H1.
    + apply Nat.ltb_lt in H1. rewrite iat_ok by lia. simpl.
      rewrite !header_text_eq. reflexivity.
    + simpl. rewrite !header_text_eq. reflexivity.
Qed.

Lemma find_header_rows_no_column (df0 : RawGrid) :
  shape1 df0 = 0 ->
  find_header_rows df0 = Ok None \/ find_header_rows df0 = Raise IndexError.
Proof.
  intros Hcols. unfold find_header_rows, range.
  destruct (Nat.min 40 (shape0 df0)) as [|n]; simpl.
  - left. reflexivity.
  - right. rewrite iat_out by lia. reflexivity.
Qed.

Lemma header_at_no_column (df0 : RawGrid) (i : nat) :
  shape1 df0 = 0 -> header_at df0 i = false.
Proof.
  intros H. unfold header_at. rewrite iat_out by lia. reflexivity.
Qed.

Lemma find_header_rows_some (df0 : RawGrid) (h s : nat) :
  find_header_rows df0 = Ok (Some (h, s)) <->
  h < Nat.min 40 (shape0 df0) /\ header_at df0 h = true
  /\ (forall i, i < h -> header_at df0 i = false) /\ s = h + 1.
Proof.
  destruct (Nat.eq_dec (shape1 df0) 0) as [H0|Hpos].
  - split.
    + intros E. destruct (find_header_rows_no_column df0 H0); congruence.
    + intros (_ & Hh & _). rewrite header_at_no_column in Hh by assumption.
      discriminate Hh.
  - rewrite find_header_rows_find by lia. unfold range.
    destruct (find _ _) as [k|] eqn:E; cbn [option_map].
    + apply find_seq_least in E as (Hr & Tk & Hl). split.
      * intros Eq. injection Eq as -> <-. repeat split; try lia; auto.
        intros i Hi. apply Hl. lia.
      * intros (Hh & Th & Hl' & ->).
        assert (k = h); [|subst; reflexivity].
        destruct (Nat.lt_trichotomy k h) as [Hlt|[Heq|Hgt]]; [|exact Heq|].
        -- rewrite Hl' in Tk by lia. discriminate.
        -- rewrite Hl in Th by lia. discriminate.
    + split; [discriminate|].
      intros (Hh & Th & _).
      rewrite find_seq_none in E. rewrite E in Th by lia. discriminate.
Qed.

Lemma find_header_rows_none (df0 : RawGrid) :
  (forall i, i < Nat.min 40 (shape0 df0) -> header_at df0 i = false) ->
  (0 < shape1 df0 -> find_header_rows df0 = Ok None)
  /\ (find_header_rows df0 = Ok None \/ find_header_rows df0 = Raise IndexError).
Proof.
  intros Hno.
  assert (Hpos : 0 < shape1 df0 -> find_header_rows df0 = Ok None).
  { intros Hcols. rewrite find_header_rows_find by assumption.
    unfold range.
    replace (find _ _) with (@None nat); [reflexivity|].
    symmetry. apply find_seq_none. intros i Hi. apply Hno. lia. }
  split; [exact Hpos|].
  destruct (Nat.eq_dec (shape1 df0) 0) as [H0|Hne].
  - apply find_header_rows_no_column, H0.
  - left. apply Hpos. lia.
Qed.

(** Without a header row the parse raises. *)
Lemma parse_without_header (df0 : RawGrid) :
  (forall i, i < Nat.min 40 (shape0 df0) -> header_at df0 i = false) ->
  exists e, parse_excel_to_df df0 = Raise e
            /\ (0 < shape1 df0 -> e = header_not_found).
Proof.
  intros Hno. unfold parse_excel_to_df.
  rewrite try_extract_school_and_class_last, try_extract_academic_year_first.
  simpl bind.
  destruct (find_header_rows_none df0 Hno) as [Hpos [E|E]].
  - rewrite E. simpl. eexists. split; [reflexivity|]. reflexivity.
  - rewrite E. simpl. eexists. split; [reflexivity|].
    intros Hcols. rewrite (Hpos Hcols) in E. discriminate.
Qed.

(** C1.  The locator returns the first row, among the first 40, that
    carries the two header captions, and the row after it as the row of
    subjects; when no such row exists the parse raises (the message of the
    program when the sheet has a column at all), no table is built, and the
    run ends in the handler without an archive. *)
Theorem C1_header_location (FONT_NAME : str)
  (doc_build : str -> list flowable -> result bytes) (df0 : RawGrid) :
  (forall h s,
      find_header_rows df0 = Ok (Some (h, s)) <->
      h < Nat.min 40 (shape0 df0) /\ header_at df0 h = true
      /\ (forall i, i < h -> header_at df0 i = false) /\ s = h + 1)
  /\ ((forall i, i < Nat.min 40 (shape0 df0) -> header_at df0 i = false) ->
      exists e,
        parse_excel_to_df df0 = Raise e
        /\ (0 < shape1 df0 -> e = header_not_found)
        /\ student_table df0 = Raise e
        /\ forall inp, excel_file inp = Some df0 ->
                       main FONT_NAME doc_build inp = Failed e).
Proof.
  split.
  - intros h s. apply find_header_rows_some.
  - intros Hno. destruct (parse_without_header df0 Hno) as (e & Hp & He).
    exists e. repeat split; try assumption.
    + unfold student_table. rewrite Hp. reflexivity.
    + intros inp Hf. unfold main, student_table. rewrite Hf, Hp. reflexivity.
Qed.
(* ================================================================== *)
(** * Facts about the matcher *)
(* ================================================================== *)

Lemma in_singleton {A} (x y : A) : In x [y] <-> x = y.
Proof. simpl. split; [intros [H|[]]; congruence | intros ->; left; reflexivity]. Qed.

Lemma jump_nil (st : mstate) : jump st [] (rest st) = st.
Proof. destruct st; reflexivity. Qed.

Lemma last_app_default {A} (l1 l2 : list A) (d : A) :
  last (l1 ++ l2) d = last l2 (last l1 d).
Proof.
  revert d. induction l1 as [|x l1 IH]; intros d; [reflexivity|].
  rewrite <- app_comm_cons, !last_cons_default. apply IH.
Qed.

Lemma jump_jump (st : mstate) (h1 t1 h2 t2 : str) :
  jump (jump st h1 t1) h2 t2 = jump st (h1 ++ h2) t2.
Proof.
  unfold jump. simpl. f_equal.
  rewrite map_app, last_app_default. reflexivity.
Qed.

Lemma in_step_char (ok : char -> bool) (st st' : mstate) :
  In st' (step_char ok st) <->
  exists c, rest st = c :: rest st' /\ ok c = true /\ st' = jump st [c] (rest st').
Proof.
  unfold step_char. destruct (rest st) as [|c t] eqn:E.
  - split; [intros [] | intros (c & H & _); discriminate].
  - destruct (ok c) eqn:Hok.
    + rewrite in_singleton. split.
      * intros ->. exists c. simpl. repeat split; auto.
      * intros (c' & H & _ & ->). injection H as <- ->. reflexivity.
    + split; [intros [] | intros (c' & H & Hok' & _)].
      injection H as <- _. congruence.
Qed.

Lemma in_run_cat (ci : bool) (a b : regex) (st st2 : mstate) :
  In st2 (run ci (Cat a b) st) <->
  exists st1, In st1 (run ci a st) /\ In st2 (run ci b st1).
Proof. simpl. apply in_flat_map. Qed.

Lemma in_run_alt (ci : bool) (a b : regex) (st st' : mstate) :
  In st' (run ci (Alt a b) st) <-> In st' (run ci a st) \/ In st' (run ci b st).
Proof. simpl. apply in_app_iff. Qed.

Lemma in_run_group (ci : bool) (n : nat) (a : regex) (st m : mstate) :
  In m (run ci (Group n a) st) <->
  exists st', In st' (run ci a st) /\ m = capture n st st'.
Proof.
  simpl. rewrite in_map_iff. split; intros (st' & H1 & H2); exists st'; auto.
Qed.

(** ** Literals *)

Lemma split_literal_spec (ci : bool) (s text head tail : str) :
  split_literal ci s text = Some (head, tail) <->
  text = head ++ tail /\ Forall2 (fun p c => lit_match ci p c = true) s head.
Proof.
  revert text head tail. induction s as [|p s IH]; intros text head tail; simpl.
  - split.
    + intros E. injection E as <- <-. split; [reflexivity | constructor].
    + intros (-> & F). inversion F. reflexivity.
  - destruct text as [|c t].
    + split; [discriminate|]. intros (E & F). inversion F; subst. discriminate.
    + destruct (lit_match ci p c) eqn:Hm.
      * destruct (split_literal ci s t) as [[h tl]|] eqn:Hs.
        -- apply IH in Hs as (-> & F). split.
           ++ intros E. injection E as <- <-. split; [reflexivity|].
              constructor; assumption.
           ++ intros (E & F'). inversion F' as [|? c' ? h' ? F'']; subst.
              injection E as <- E.
              assert (Hs : split_literal ci s (h ++ tl) = Some (h', tail))
                by (apply IH; split; assumption).
              assert (Hs' : split_literal ci s (h ++ tl) = Some (h, tl))
                by (apply IH; split; [reflexivity | assumption]).
              rewrite Hs in Hs'. injection Hs' as -> ->. reflexivity.
        -- split; [discriminate|].
           intros (E & F'). inversion F' as [|? c' ? h' ? F'']; subst.
           injection E as <- E.
           assert (Hs' : split_literal ci s t = Some (h', tail))
             by (apply IH; split; assumption).
           rewrite Hs in Hs'. discriminate Hs'.
      * split; [discriminate|].
        intros (E & F'). inversion F' as [|? c' ? h' Hc F'']; subst.
        injection E as <- E. congruence.
Qed.

Lemma run_lit (ci : bool) (s : str) (st : mstate) :
  run ci (lit s) st = match split_literal ci s (rest st) with
                      | Some (head, tail) => [jump st head tail]
                      | None => []
                      end.
Proof.
  revert st. induction s as [|p s IH]; intros st.
  - simpl. rewrite jump_nil. reflexivity.
  - assert (Hcat : run ci (lit (p :: s)) st
                   = flat_map (run ci (lit s)) (step_char (lit_match ci p) st)).
    { destruct s as [|q s]; [|reflexivity].
      simpl. induction (step_char _ st) as [|x l IHl]; simpl; [reflexivity|].
      f_equal. exact IHl. }
    rewrite Hcat. unfold step_char. simpl split_literal.
    destruct (rest st) as [|c t]; [reflexivity|].
    destruct (lit_match ci p c); [|reflexivity].
    simpl. rewrite app_nil_r, IH. simpl.
    destruct (split_literal ci s t) as [[h tl]|]; [|reflexivity].
    change {| prev := Some c; rest := t; caps := caps st |} with (jump st [c] t).
    rewrite jump_jump. reflexivity.
Qed.

(** ** Runs of one class of characters *)

Lemma star_loop_chars (ok : char -> bool) (fuel : nat) (st st' : mstate) :
  length (rest st) <= fuel ->
  (In st' (star_loop (step_char ok) fuel st) <->
   exists head, rest st = head ++ rest st' /\ forallb ok head = true
                /\ st' = jump st head (rest st')).
Proof.
  revert st. induction fuel as [|fuel IH]; intros st Hlen.
  - assert (Hr : rest st = [])
      by (destruct (rest st); simpl in *; [reflexivity | lia]).
    change (star_loop (step_char ok) 0 st) with [st]. rewrite in_singleton.
    split.
    + intros ->. exists []. rewrite jump_nil. auto.
    + intros (head & E & _ & ->). rewrite Hr in E.
      symmetry in E. apply app_eq_nil in E as [-> E].
      rewrite E. destruct st as [pv r cs]. simpl in Hr. subst r. reflexivity.
  - change (star_loop (step_char ok) (S fuel) st)
      with (flat_map (fun st1 =>
                        if Nat.ltb (length (rest st1)) (length (rest st))
                        then star_loop (step_char ok) fuel st1 else [])
                     (step_char ok st) ++ [st]).
    rewrite in_app_iff, in_flat_map, in_singleton. split.
    + intros [(st1 & H1 & H2) | ->].
      * apply in_step_char in H1 as (c & Hc & Hok & E1).
        assert (Hlt : Nat.ltb (length (rest st1)) (length (rest st)) = true)
          by (apply Nat.ltb_lt; rewrite Hc; simpl; lia).
        rewrite Hlt in H2.
        apply IH in H2 as (head & Hh & Hall & E2);
          [|rewrite Hc in Hlen; simpl in Hlen; lia].
        exists (c :: head). repeat split.
        -- rewrite Hc, Hh. reflexivity.
        -- simpl. rewrite Hok, Hall. reflexivity.
        -- rewrite E2, E1, jump_jump. reflexivity.
      * exists []. rewrite jump_nil. auto.
    + intros ([|c head] & Hh & Hall & E).
      * right. simpl in Hh. rewrite <- Hh, jump_nil in E. exact E.
      * left. simpl in Hall. apply andb_true_iff in Hall as [Hok Hall].
        exists (jump st [c] (head ++ rest st')). split.
        -- apply in_step_char. exists c. simpl. auto.
        -- simpl rest at 1. rewrite Hh. simpl length.
           rewrite (proj2 (Nat.ltb_lt _ _)) by lia.
           apply IH.
           ++ simpl. rewrite Hh in Hlen. simpl in Hlen. lia.
           ++ exists head. simpl. repeat split; auto.
              rewrite E, jump_jump. reflexivity.
Qed.

Lemma in_run_star_cls (ci : bool) (k : category) (st st' : mstate) :
  In st' (run ci (Star (Cls k)) st) <->
  exists head, rest st = head ++ rest st' /\ forallb (cls_match k) head = true
               /\ st' = jump st head (rest st').
Proof. simpl. apply star_loop_chars. lia. Qed.

Lemma in_run_cls (ci : bool) (k : category) (st st' : mstate) :
  In st' (run ci (Cls k) st) <->
  exists c, rest st = c :: rest st' /\ cls_match k c = true
            /\ st' = jump st [c] (rest st').
Proof. simpl. apply in_step_char. Qed.

Lemma in_run_set (ci : bool) (rs : list (char * char)) (st st' : mstate) :
  In st' (run ci (Set_ rs) st) <->
  exists c, rest st = c :: rest st' /\ set_match ci rs c = true
            /\ st' = jump st [c] (rest st').
Proof. simpl. apply in_step_char. Qed.

Lemma in_run_lit (ci : bool) (s : str) (st st' : mstate) :
  In st' (run ci (lit s) st) <->
  exists head, rest st = head ++ rest st'
               /\ Forall2 (fun p c => lit_match ci p c = true) s head
               /\ st' = jump st head (rest st').
Proof.
  rewrite run_lit.
  destruct (split_literal ci s (rest st)) as [[h tl]|] eqn:E.
  - apply split_literal_spec in E as (E & F). rewrite in_singleton. split.
    + intros ->. exists h. simpl. auto.
    + intros (head & Hh & F' & ->).
      assert (H1 : split_literal ci s (rest st) = Some (h, tl))
        by (apply split_literal_spec; auto).
      assert (H2 : split_literal ci s (rest st) = Some (head, rest st'))
        by (apply split_literal_spec; auto).
      rewrite H1 in H2. injection H2 as <- <-. reflexivity.
  - split; [intros []|]. intros (head & Hh & F & _).
    assert (H : split_literal ci s (rest st) = Some (head, rest st'))
      by (apply split_literal_spec; auto).
    rewrite E in H. discriminate H.
Qed.

Lemma in_run_bol (ci : bool) (st st' : mstate) :
  In st' (run ci Bol st) <-> prev st = None /\ st' = st.
Proof.
  simpl. destruct (prev st); simpl.
  - split; [intros [] | intros [H _]; discriminate H].
  - split; [intros [H|[]]; auto | intros [_ ->]; auto].
Qed.

Lemma in_run_wordb (ci : bool) (st st' : mstate) :
  In st' (run ci WordB st) <->
  xorb (wordy (prev st)) (wordy (hd_error (rest st))) = true /\ st' = st.
Proof.
  simpl. destruct (xorb _ _); simpl.
  - split; [intros [H|[]]; auto | intros [_ ->]; auto].
  - split; [intros [] | intros [H _]; discriminate H].
Qed.

Lemma in_run_eol (ci : bool) (st st' : mstate) :
  In st' (run ci Eol st) <-> (rest st = [] \/ rest st = [10%N]) /\ st' = st.
Proof.
  simpl. destruct (rest st) as [|c [|c' t]]; simpl.
  - split; [intros [H|[]]; auto | intros [_ ->]; auto].
  - destruct (N.eqb c 10) eqn:E; simpl.
    + apply N.eqb_eq in E. subst.
      split; [intros [H|[]]; auto | intros [_ ->]; auto].
    + split; [intros []|]. intros [[H|H] _]; [discriminate H|].
      injection H as ->. rewrite N.eqb_refl in E. discriminate E.
  - split; [intros []|]. intros [[H|H] _]; discriminate H.
Qed.

(** ** Searching *)

Lemma search_go_found (p : pattern) (pre suf : str) (before : option char)
  (m : mstate) :
  In m (attempt p (last (map Some pre) before) suf) ->
  search_go p before (pre ++ suf) <> None.
Proof.
  revert before. induction pre as [|c pre IH]; intros before Hin.
  - simpl in *. destruct suf; simpl;
      destruct (attempt p before _); try discriminate; destruct Hin.
  - rewrite <- app_comm_cons. simpl.
    destruct (attempt p before (c :: pre ++ suf)); [|discriminate].
    apply IH. simpl map in Hin. rewrite last_cons_default in Hin. exact Hin.
Qed.

Lemma search_go_some (p : pattern) (s : str) (before : option char) (m : mstate) :
  search_go p before s = Some m ->
  exists pre suf, s = pre ++ suf
                  /\ In m (attempt p (last (map Some pre) before) suf).
Proof.
  revert before. induction s as [|c s IH]; intros before; simpl.
  - destruct (attempt p before []) as [|m' l] eqn:E; [discriminate|].
    intros H. injection H as <-. exists [], []. simpl. rewrite E.
    split; [reflexivity | left; reflexivity].
  - destruct (attempt p before (c :: s)) as [|m' l] eqn:E.
    + intros H. apply IH in H as (pre & suf & -> & Hin).
      exists (c :: pre), suf. split; [reflexivity|].
      simpl map. rewrite last_cons_default. exact Hin.
    + intros H. injection H as <-. exists [], (c :: s). simpl. rewrite E.
      split; [reflexivity | left; reflexivity].
Qed.

(** A pattern anchored with [^] can only match at the start. *)
Lemma search_anchored (ci : bool) (r : regex) (s : str) :
  search {| ignorecase := ci; body := Cat Bol r |} s
  = match_ {| ignorecase := ci; body := Cat Bol r |} s.
Proof.
  unfold search, match_.
  assert (Hlater : forall c t, search_go {| ignorecase := ci; body := Cat Bol r |}
                                         (Some c) t = None).
  { intros c t. revert c. induction t as [|c' t IH]; intros c; simpl.
    - reflexivity.
    - apply IH. }
  destruct s as [|c s]; simpl.
  - destruct (attempt _ None []); reflexivity.
  - destruct (attempt _ None (c :: s)); [apply Hlater | reflexivity].
Qed.
(* ================================================================== *)
(** * The cleaner on the inputs of its docstring *)
(* ================================================================== *)

Example clean_grade_with_tag : clean_value_remove_tags (py "8 PR") = py "8".
Proof. vm_compute. reflexivity. Qed.

Example clean_bracketed_tag : clean_value_remove_tags (py "įsk (IN)") = py "įsk".
Proof. vm_compute. reflexivity. Qed.

Example clean_tag_alone : clean_value_remove_tags (py "PR") = py "".
Proof. vm_compute. reflexivity. Qed.

Example clean_keeps_longer_tokens :
  clean_value_remove_tags (py "PRA xIN in_ 8PR") = py "PRA xIN in_ 8PR".
Proof. vm_compute. reflexivity. Qed.

Example clean_collapses_spaces :
  clean_value_remove_tags (py "8   PR    9") = py "8 9".
Proof. vm_compute. reflexivity. Qed.

(** C4 (the code departs from the claim).  The claim has the cleaner
    collapse the separator punctuation that deleting a tag leaves behind.
    The pattern written for that, [EXTRA_SEP_RE], is never applied: in
    "8 (PR) 9" and in "8 (PR), 9 (IN)" the tags go and the emptied brackets
    stay inside the text, although the pattern does match them in the
    result. *)
Theorem C4_emptied_brackets_stay :
  clean_value_remove_tags (py "8 (PR) 9") = py "8 () 9"
  /\ clean_value_remove_tags (py "8 (PR), 9 (IN)") = py "8 (), 9"
  /\ option_map (fun m => rest m) (search EXTRA_SEP_RE (py "8 () 9"))
     = Some (py ") 9").
Proof. repeat split; vm_compute; reflexivity. Qed.

(** C5 (the code departs from the claim).  Cleaning is not idempotent: the
    separators are trimmed before the remaining white space is, so a
    separator in front of a line break outlives the first pass and falls
    to the second.  The program does run the second pass: the subjects of
    the pupil hold "8." and the table of the document, which cleans the
    values again, shows "8". *)
Theorem C5_second_pass_changes_result :
  clean_value_remove_tags grade_dot_newline_tag = py "8."
  /\ clean_value_remove_tags (clean_value_remove_tags grade_dot_newline_tag) = py "8"
  /\ clean_value_remove_tags (clean_value_remove_tags grade_dot_newline_tag)
     <> clean_value_remove_tags grade_dot_newline_tag
  /\ subjects_of [EIL_NR; PAVARDE_VARDAS; py "Matematika"]
                 [Obj (py "1"); Text (py "Jonaitis Jonas"); Text grade_dot_newline_tag]
     = Ok [(py "Matematika", py "8.")]
  /\ data_tbl [(py "Matematika", py "8.")]
     = [[py "Dalykas"; py "Įvertinimas"]; [py "Matematika"; py "8"]].
Proof.
  split; [vm_compute; reflexivity|].
  split; [vm_compute; reflexivity|].
  split; [vm_compute; discriminate|].
  split; vm_compute; reflexivity.
Qed.

(* ================================================================== *)
(** * The table on a sheet with a summary row *)
(* ================================================================== *)

(** C2 (the code departs from the claim).  Columns are pruned while the
    summary row is still in the table, and the row is dropped afterwards.
    A subject whose only value stands in the summary row is kept by the
    pruning and is left without any value in the final table. *)
Theorem C2_column_without_value_survives :
  parse_excel_to_df sheet_summary_only_value = Ok (table_with_summary_row, no_meta)
  /\ column table_with_summary_row (py "Fizika") = Ok [NaN; Text (py "95%")]
  /\ student_table sheet_summary_only_value = Ok (table_summary_row_dropped, no_meta)
  /\ column table_summary_row_dropped (py "Fizika") = Ok [NaN].
Proof. repeat split; vm_compute; reflexivity. Qed.
(* ================================================================== *)
(** * The class-type classifier *)
(* ================================================================== *)

Lemma hd_error_of_In {A} (x : A) (l : list A) : In x l -> hd_error l <> None.
Proof. destruct l; simpl; [intros [] | discriminate]. Qed.

Lemma run_eps (ci : bool) (st : mstate) : In st (run ci Eps st).
Proof. left. reflexivity. Qed.

Lemma in_run_star_none (ci : bool) (k : category) (st : mstate) :
  In st (run ci (Star (Cls k)) st).
Proof.
  apply in_run_star_cls. exists []. rewrite jump_nil. auto.
Qed.

Lemma class_letters_in_set (c : char) :
  char_in class_letters c = true ->
  set_match true ((65, 90)%N :: map (fun c => (c, c)) (py "ĄČĘĖĮŠŲŪŽ")) c = true.
Proof.
  assert (H : forallb (set_match true ((65, 90)%N
                                        :: map (fun c => (c, c)) (py "ĄČĘĖĮŠŲŪŽ")))
                      class_letters = true) by (vm_compute; reflexivity).
  rewrite forallb_forall in H. intros Hc. apply H.
  unfold char_in in Hc. apply existsb_exists in Hc as (x & Hx & E).
  apply N.eqb_eq in E. subst. exact Hx.
Qed.

Lemma wordy_hd_word_end (post : str) :
  word_end post -> wordy (hd_error post) = false.
Proof. destruct post; simpl; auto. Qed.

Lemma final_shape_matches (k : str) :
  final_class_shape k -> match_ FINAL_CLASS_RE k <> None.
Proof.
  intros (i & v & ws & suffix & -> & Hi & Hv & Hws & Hsuf).
  unfold match_.
  set (st0 := {| prev := None; rest := [i; v] ++ ws ++ suffix; caps := [] |}).
  set (st2 := jump st0 [i; v] (ws ++ suffix)).
  set (st3 := jump st2 ws suffix).
  set (st4 := jump st3 suffix []).
  apply hd_error_of_In with (x := st4).
  unfold attempt, FINAL_CLASS_RE. cbn [ignorecase body].
  apply in_run_cat. exists st0. split; [apply in_run_bol; auto|].
  apply in_run_cat. exists st0. split; [apply in_run_star_none|].
  apply in_run_cat. exists st2. split.
  { apply in_run_lit. exists [i; v]. repeat split.
    destruct Hi as [-> | ->], Hv as [-> | ->];
      repeat constructor; vm_compute; reflexivity. }
  apply in_run_cat. exists st3. split.
  { apply in_run_star_cls. exists ws. auto. }
  apply in_run_cat. exists st4. split.
  { apply in_run_alt. destruct Hsuf as [-> | (c & -> & Hc)].
    - right. unfold st4. rewrite jump_nil. apply run_eps.
    - left. apply in_run_set. exists c. repeat split.
      apply class_letters_in_set, Hc. }
  apply in_run_cat. exists st4. split; [apply in_run_star_none|].
  apply in_run_eol. auto.
Qed.

Lemma token_12_found (k : str) :
  has_token_12 k -> search HAS_12_RE k <> None.
Proof.
  intros (pre & post & -> & Hpre & Hpost).
  unfold search.
  set (st0 := {| prev := last (map Some pre) None; rest := py "12" ++ post;
                 caps := [] |}).
  apply search_go_found with (m := jump st0 (py "12") post).
  unfold attempt, HAS_12_RE. cbn [ignorecase body]. fold st0.
  apply in_run_cat. exists st0. split.
  { apply in_run_wordb. split; [|reflexivity].
    unfold word_start in Hpre. simpl. rewrite Hpre. reflexivity. }
  apply in_run_cat. exists (jump st0 (py "12") post). split.
  { apply in_run_lit. exists (py "12"). repeat split.
    repeat constructor; vm_compute; reflexivity. }
  apply in_run_wordb. split; [|reflexivity].
  simpl. rewrite (wordy_hd_word_end _ Hpost). reflexivity.
Qed.

(** C9.  A label of the shape "IV", "IVa", "iv B" is a final class, and so
    is a label holding "12" as a token of its own; a value that is not a
    [str], the empty text, "III", "11" and "12a" are not. *)
Theorem C9_is_final_class :
  (forall s, final_class_shape (strip s) -> is_final_class (Text s) = true)
  /\ (forall s, has_token_12 (strip s) -> is_final_class (Text s) = true)
  /\ is_final_class NaN = false
  /\ (forall repr, is_final_class (Obj repr) = false)
  /\ map (fun s => is_final_class (Text (py s)))
         ["IV"; "IVa"; "iv B"; "class 12"; "12a"; ""; "III"; "11"]%string
     = [true; true; true; true; false; false; false; false].
Proof.
  split; [|split; [|split; [|split]]].
  - intros s H. unfold is_final_class.
    apply final_shape_matches in H.
    destruct (match_ FINAL_CLASS_RE (strip s)); [reflexivity | congruence].
  - intros s H. unfold is_final_class.
    apply token_12_found in H.
    destruct (match_ FINAL_CLASS_RE (strip s)); [reflexivity|].
    destruct (search HAS_12_RE (strip s)); [reflexivity | congruence].
  - reflexivity.
  - reflexivity.
  - vm_compute. reflexivity.
Qed.
(* ================================================================== *)
(** * The pattern of the academic year *)
(* ================================================================== *)

Lemma firstn_head {A} (h t : list A) : firstn (length (h ++ t) - length t) (h ++ t) = h.
Proof.
  rewrite length_app, Nat.add_sub.
  rewrite firstn_app, Nat.sub_diag, firstn_all. simpl. apply app_nil_r.
Qed.

Lemma in_run_year (st st' : mstate) :
  In st' (run false year_re st) <->
  exists y, is_year y /\ rest st = y ++ rest st' /\ st' = jump st y (rest st').
Proof.
  unfold year_re. rewrite in_run_cat. split.
  - intros (st1 & H1 & H2).
    apply in_run_lit in H1 as (h & Hh & F & E1).
    apply in_run_cat in H2 as (st2 & H2 & H3).
    apply in_run_cls in H2 as (d1 & Hd1 & Hok1 & E2).
    apply in_run_cls in H3 as (d2 & Hd2 & Hok2 & E3).
    change (py "20") with [50; 48]%N in F.
    inversion F as [|p1 c1 ? ? L1 F1]; subst p1. clear F. subst.
    inversion F1 as [|p2 c2 ? ? L2 F2]; subst p2. clear F1. subst.
    inversion F2. subst. clear F2.
    simpl in L1, L2. apply N.eqb_eq in L1, L2. subst c1 c2.
    exists (py "20" ++ [d1; d2]). split; [|split].
    + exists d1, d2. auto.
    + rewrite Hh, E1. simpl rest. rewrite Hd1, E2. simpl rest. rewrite Hd2.
      reflexivity.
    + rewrite E3, E2, E1, !jump_jump. reflexivity.
  - intros (y & (d1 & d2 & -> & Hok1 & Hok2) & Hr & E).
    exists (jump st (py "20") (d1 :: d2 :: rest st')). split.
    + apply in_run_lit. exists (py "20"). split; [|split].
      * rewrite Hr. reflexivity.
      * repeat constructor.
      * reflexivity.
    + apply in_run_cat. exists (jump st (py "20" ++ [d1]) (d2 :: rest st')). split.
      * apply in_run_cls. exists d1. simpl rest.
        split; [reflexivity|]. split; [exact Hok1|].
        rewrite jump_jump. reflexivity.
      * apply in_run_cls. exists d2. simpl rest.
        split; [reflexivity|]. split; [exact Hok2|].
        rewrite jump_jump, E. reflexivity.
Qed.

Lemma dash_set (c : char) :
  set_match false (map (fun c => (c, c)) (py "–-")) c = true
  <-> c = HYPHEN \/ c = EN_DASH.
Proof.
  change (map (fun c => (c, c)) (py "–-")) with [(8211, 8211); (45, 45)]%N.
  change HYPHEN with 45%N. change EN_DASH with 8211%N.
  unfold set_match, between. simpl.
  rewrite orb_false_r, orb_true_iff, !andb_true_iff, !N.leb_le. lia.
Qed.

(** What a match of [pat_years] looks like: where it lies and what its
    two groups hold. *)
Lemma in_run_years (st m : mstate) :
  In m (run false (body pat_years) st) <->
  exists y1 ws1 dash ws2 y2,
    rest st = y1 ++ ws1 ++ [dash] ++ ws2 ++ y2 ++ rest m
    /\ is_year y1 /\ is_year y2
    /\ forallb is_space ws1 = true /\ forallb is_space ws2 = true
    /\ (dash = HYPHEN \/ dash = EN_DASH)
    /\ caps m = (2, y2) :: (1, y1) :: caps st
    /\ prev m = last (map Some y2) None.
Proof.
  unfold pat_years. cbn [body].
  split.
  - intros H.
    apply in_run_cat in H as (st1 & H1 & H).
    apply in_run_group in H1 as (st1' & H1 & E1).
    apply in_run_year in H1 as (y1 & Hy1 & Hr1 & E1').
    apply in_run_cat in H as (st2 & H2 & H).
    apply in_run_star_cls in H2 as (ws1 & Hr2 & Hws1 & E2).
    apply in_run_cat in H as (st3 & H3 & H).
    apply in_run_set in H3 as (dash & Hr3 & Hdash & E3).
    apply in_run_cat in H as (st4 & H4 & H).
    apply in_run_star_cls in H4 as (ws2 & Hr4 & Hws2 & E4).
    apply in_run_group in H as (st5 & H5 & E5).
    apply in_run_year in H5 as (y2 & Hy2 & Hr5 & E5').
    apply dash_set in Hdash.
    exists y1, ws1, dash, ws2, y2.
    assert (Hrest : rest m = rest st5) by (rewrite E5; reflexivity).
    assert (Hc1 : caps st1 = (1, y1) :: caps st).
    { rewrite E1. unfold capture. simpl caps. rewrite Hr1, firstn_head.
      rewrite E1'. reflexivity. }
    assert (R1 : rest st1 = rest st1') by (rewrite E1; reflexivity).
    assert (Hc4 : caps st4 = (1, y1) :: caps st).
    { rewrite E4, E3, E2. simpl. exact Hc1. }
    split; [|split; [|split; [|split; [|split; [|split; [|split]]]]]]; auto.
    + rewrite Hr1, <- R1, Hr2, Hr3, Hr4, Hr5, Hrest. reflexivity.
    + rewrite E5. unfold capture. simpl caps. rewrite Hr5, firstn_head.
      rewrite E5'. simpl caps. rewrite Hc4. reflexivity.
    + rewrite E5. unfold capture. simpl prev. rewrite E5'. simpl prev.
      destruct Hy2 as (d1 & d2 & -> & _). reflexivity.
  - intros (y1 & ws1 & dash & ws2 & y2 & Hs & Hy1 & Hy2 & Hws1 & Hws2 & Hd & Hc & Hp).
    set (r1 := ws1 ++ [dash] ++ ws2 ++ y2 ++ rest m) in *.
    set (st1' := jump st y1 r1).
    set (st1 := capture 1 st st1').
    set (st2 := jump st1 ws1 ([dash] ++ ws2 ++ y2 ++ rest m)).
    set (st3 := jump st2 [dash] (ws2 ++ y2 ++ rest m)).
    set (st4 := jump st3 ws2 (y2 ++ rest m)).
    set (st5 := jump st4 y2 (rest m)).
    assert (Em : m = capture 2 st4 st5).
    { destruct m as [pm rm cm]. simpl in Hc, Hp, r1. subst cm pm.
      unfold capture. simpl. f_equal.
      - destruct Hy2 as (d1 & d2 & -> & _). reflexivity.
      - rewrite firstn_head. rewrite Hs. rewrite firstn_head. reflexivity. }
    apply in_run_cat. exists st1. split.
    { apply in_run_group. exists st1'. split; [|reflexivity].
      apply in_run_year. exists y1. repeat split; auto. }
    apply in_run_cat. exists st2. split.
    { apply in_run_star_cls. exists ws1. repeat split; auto. }
    apply in_run_cat. exists st3. split.
    { apply in_run_set. exists dash. repeat split; auto. apply dash_set, Hd. }
    apply in_run_cat. exists st4. split.
    { apply in_run_star_cls. exists ws2. repeat split; auto. }
    apply in_run_group. exists st5. split; [|exact Em].
    apply in_run_year. exists y2. repeat split; auto.
Qed.

Lemma in_attempt_years (before : option char) (s : str) (m : mstate) :
  In m (attempt pat_years before s) <->
  exists y1 ws1 dash ws2 y2,
    s = y1 ++ ws1 ++ [dash] ++ ws2 ++ y2 ++ rest m
    /\ is_year y1 /\ is_year y2
    /\ forallb is_space ws1 = true /\ forallb is_space ws2 = true
    /\ (dash = HYPHEN \/ dash = EN_DASH)
    /\ caps m = [(2, y2); (1, y1)]
    /\ prev m = last (map Some y2) None.
Proof. unfold attempt. apply in_run_years. Qed.

Lemma search_years_iff (txt : str) :
  search pat_years txt <> None <-> holds_year_range txt.
Proof.
  split.
  - destruct (search pat_years txt) as [m|] eqn:E; [|congruence]. intros _.
    apply search_go_some in E as (pre & suf & -> & Hin).
    apply in_attempt_years in Hin
      as (y1 & ws1 & dash & ws2 & y2 & Hs & Hy1 & Hy2 & H1 & H2 & Hd & _).
    exists pre, y1, ws1, dash, ws2, y2, (rest m). rewrite Hs. auto 10.
  - intros (pre & y1 & ws1 & dash & ws2 & y2 & post & -> & Hy1 & Hy2 & H1 & H2 & Hd).
    apply search_go_found
      with (m := {| prev := last (map Some y2) None; rest := post;
                    caps := [(2, y2); (1, y1)] |}).
    apply in_attempt_years. exists y1, ws1, dash, ws2, y2. simpl. auto 10.
Qed.

(** The scanner prints the two years of a range with an en-dash. *)
Lemma search_years_format (txt : str) (m : mstate) :
  search pat_years txt = Some m ->
  exists y1 y2, is_year y1 /\ is_year y2 /\ fmt_years m = y1 ++ py "–" ++ y2.
Proof.
  intros E. apply search_go_some in E as (pre & suf & -> & Hin).
  apply in_attempt_years in Hin
    as (y1 & ws1 & dash & ws2 & y2 & Hs & Hy1 & Hy2 & _ & _ & _ & Hc & _).
  exists y1, y2. repeat split; auto.
  unfold fmt_years. rewrite Hc. reflexivity.
Qed.
(* ================================================================== *)
(** * The metadata scanners: the claims *)
(* ================================================================== *)

(** C6 as the claim words it fails: the scanner looks for the key in the
    whole text of the cell, so a cell that names the school after the colon
    sets the institution, where the claim has the key stand before the
    colon. *)
Lemma C6_counterexample :
  try_extract_school_and_class sheet_school_after_colon
  = Ok (py "Vilniaus mokykla", py "")
  /\ try_extract_school_and_class sheet_school_after_colon
     <> Ok (last (hits (labelled_before_colon [py "mokykla"])
                       (window sheet_school_after_colon)) (py ""),
            last (hits (labelled_before_colon [py "klasė"; py "klase"])
                       (window sheet_school_after_colon)) (py "")).
Proof.
  split.
  - vm_compute. reflexivity.
  - vm_compute. discriminate.
Qed.

(** C6, amended.  Over the cells of the 12 x 12 window in row-major order,
    the institution is the trimmed text after the first colon of the last
    [str] cell that has a colon and whose text contains "mokykla" anywhere
    (case folded), the class label likewise for "klasė" or "klase"; a field
    without such a cell is the empty text. *)
Theorem C6_school_and_class (df : RawGrid) :
  try_extract_school_and_class df
  = Ok (last (hits (labelled [py "mokykla"]) (window df)) (py ""),
        last (hits (labelled [py "klasė"; py "klase"]) (window df)) (py ""))
  /\ try_extract_school_and_class sheet_with_metadata
     = Ok (py "Vilniaus 5-oji vidurinė", py "IVa").
Proof.
  split.
  - apply try_extract_school_and_class_last.
  - vm_compute. reflexivity.
Qed.
(* ================================================================== *)
(** * Column naming *)
(* ================================================================== *)

Lemma digits_of_uint_inj (a b : Decimal.uint) :
  digits_of_uint a = digits_of_uint b -> a = b.
Proof.
  revert b. induction a; intros b H; destruct b; simpl in H;
    try discriminate H; try reflexivity;
    injection H as H; f_equal; apply IHa; exact H.
Qed.

Lemma str_of_nat_inj (n m : nat) : str_of_nat n = str_of_nat m -> n = m.
Proof.
  unfold str_of_nat. intros H. apply digits_of_uint_inj in H.
  rewrite <- (DecimalNat.Unsigned.of_to n), <- (DecimalNat.Unsigned.of_to m).
  rewrite H. reflexivity.
Qed.

Lemma placeholder_inj (j j' : nat) :
  2 <= j -> 2 <= j' -> placeholder j = placeholder j' -> j = j'.
Proof.
  unfold placeholder. intros Hj Hj' H.
  apply app_inv_head in H. apply str_of_nat_inj in H. lia.
Qed.

Lemma fold_left_snoc {A B} (g : A -> B) (l : list A) (init : list B) :
  fold_left (fun acc a => acc ++ [g a]) l init = init ++ map g l.
Proof.
  revert init. induction l as [|a l IH]; intros init; simpl.
  - symmetry. apply app_nil_r.
  - rewrite IH, <- app_assoc. reflexivity.
Qed.

Lemma name_columns_inside (df0 : RawGrid) (subjects_row : nat) :
  subjects_row < shape0 df0 ->
  name_columns df0 subjects_row
  = Ok ([EIL_NR; PAVARDE_VARDAS]
          ++ map (subject_label df0 subjects_row) (seq 2 (shape1 df0 - 2))).
Proof.
  intros Hrow. unfold name_columns.
  rewrite for_in_fold
    with (f := fun j columns => columns ++ [subject_label df0 subjects_row j]).
  - simpl bind. rewrite fold_left_snoc. reflexivity.
  - intros j columns Hj. apply in_seq in Hj.
    rewrite iat_ok by lia. simpl. unfold subject_label, placeholder.
    destruct (at_ df0 subjects_row j); reflexivity.
Qed.

(** The part of the column naming that holds for every sheet: for a
    subjects row inside the sheet the names are the two fixed names
    followed, for every further column [j], by the trimmed cell of the
    subjects row, or by the placeholder with index [j - 1] when that cell
    is blank; placeholders of different columns differ. *)
Lemma name_columns_spec (df0 : RawGrid) (subjects_row : nat)
  (Hrow : subjects_row < shape0 df0) :
  name_columns df0 subjects_row
  = Ok ([EIL_NR; PAVARDE_VARDAS]
          ++ map (subject_label df0 subjects_row) (seq 2 (shape1 df0 - 2)))
  /\ (forall j, subject_label df0 subjects_row j
                = if is_empty (strip (text_of (at_ df0 subjects_row j)))
                  then py "Dalykas_" ++ str_of_nat (j - 1)
                  else strip (text_of (at_ df0 subjects_row j)))
  /\ (forall j j', 2 <= j -> 2 <= j' -> j <> j' -> placeholder j <> placeholder j').
Proof.
  split; [apply name_columns_inside, Hrow|]. split.
  - intros j. reflexivity.
  - intros j j' Hj Hj' Hne E. apply Hne. apply placeholder_inj; assumption.
Qed.

Example name_columns_blank_subject :
  name_columns sheet_blank_subject 1
  = Ok [EIL_NR; PAVARDE_VARDAS; py "Matematika"; py "Dalykas_2"; py "Dalykas_3"].
Proof. vm_compute. reflexivity. Qed.
(* ================================================================== *)
(** * The table of pupils: names are never missing *)
(* ================================================================== *)

(** A loop that never returns early keeps what every round keeps. *)
Lemma for_in_keeps {A S R} (P : S -> Prop) (body : A -> S -> result (step S R))
  (l : list A) (s : S) (out : step S R) :
  (forall a s, P s -> match body a s with
                      | Ok (Continue s') => P s'
                      | Ok (Return _) => False
                      | Raise _ => True
                      end) ->
  P s -> for_in l body s = Ok out ->
  exists s', out = Continue s' /\ P s'.
Proof.
  intros Hbody. revert s. induction l as [|a l IH]; intros s Hs; simpl.
  - intros E. injection E as <-. eauto.
  - specialize (Hbody a s Hs). destruct (body a s) as [[s'|r]|e].
    + apply IH, Hbody.
    + contradiction.
    + discriminate.
Qed.

Lemma name_columns_fixed (df0 : RawGrid) (subjects_row : nat) (cols : list str) :
  name_columns df0 subjects_row = Ok cols ->
  exists more, cols = EIL_NR :: PAVARDE_VARDAS :: more.
Proof.
  unfold name_columns.
  destruct (for_in _ _ _) as [out|e] eqn:E; [|discriminate].
  apply for_in_keeps
    with (P := fun cols => exists more, cols = EIL_NR :: PAVARDE_VARDAS :: more) in E.
  - destruct E as (s' & -> & Hs'). simpl. intros H. injection H as <-. exact Hs'.
  - intros j s (more & ->).
    destruct (iat df0 subjects_row j); simpl; [|exact I].
    eexists. simpl. reflexivity.
  - exists []. reflexivity.
Qed.

Lemma keep_columns_fixed (data : Table) (keep : list str) :
  keep_columns data = Ok keep ->
  exists more, keep = EIL_NR :: PAVARDE_VARDAS :: more.
Proof.
  unfold keep_columns.
  destruct (for_in _ _ _) as [out|e] eqn:E; [|discriminate].
  apply for_in_keeps
    with (P := fun cols => exists more, cols = EIL_NR :: PAVARDE_VARDAS :: more) in E.
  - destruct E as (s' & -> & Hs'). simpl. intros H. injection H as <-. exact Hs'.
  - intros col s (more & ->).
    destruct (label_in col _); [eauto|].
    destruct (any_value data col) as [[|]|]; simpl; [|eauto|exact I].
    eexists. simpl. reflexivity.
  - exists []. reflexivity.
Qed.

Lemma index_of_name (more : list str) :
  index_of PAVARDE_VARDAS (EIL_NR :: PAVARDE_VARDAS :: more) = Some 1.
Proof.
  cbn [index_of]. replace (str_eqb EIL_NR PAVARDE_VARDAS) with false
    by (vm_compute; reflexivity).
  rewrite str_eqb_refl. reflexivity.
Qed.

(** Cutting the table down to labels that start with the two fixed ones
    keeps the names where they are. *)
Lemma select_names_present (t t' : Table) (more : list str) :
  names_present t ->
  select t (EIL_NR :: PAVARDE_VARDAS :: more) = Ok t' ->
  names_present t'.
Proof.
  intros [(more0 & Hcols) Hrows]. unfold select. simpl indices.
  rewrite Hcols. rewrite index_of_name.
  destruct (index_of EIL_NR (EIL_NR :: PAVARDE_VARDAS :: more0)) as [i0|];
    [|discriminate].
  destruct (indices more (EIL_NR :: PAVARDE_VARDAS :: more0)) as [ixs|];
    [|discriminate].
  simpl. intros E. injection E as <-. split.
  - simpl. eauto.
  - simpl. intros row' Hin. apply in_map_iff in Hin as (row & <- & Hin).
    simpl. apply Hrows, Hin.
Qed.

Lemma filter_rows_names_present (keep : list cell -> bool) (t : Table) :
  names_present t -> names_present (filter_rows keep t).
Proof.
  intros [Hcols Hrows]. split; [exact Hcols|].
  simpl. intros row Hin. apply filter_In in Hin as [Hin _]. apply Hrows, Hin.
Qed.

Lemma parse_names_present (df0 : RawGrid) (t : Table) (meta : Meta) :
  parse_excel_to_df df0 = Ok (t, meta) -> names_present t.
Proof.
  unfold parse_excel_to_df.
  destruct (try_extract_school_and_class df0) as [mk|]; [|discriminate].
  destruct (try_extract_academic_year df0) as [ak|]; [|discriminate].
  destruct (find_header_rows df0) as [[[h s]|]|]; try discriminate.
  simpl bind.
  destruct (name_columns df0 s) as [cols|] eqn:Hn; [|discriminate].
  apply name_columns_fixed in Hn as (more & ->). simpl bind.
  destruct (find_data_start _ _ _) as [ds|]; [|discriminate]. simpl bind.
  destruct (slice_named _ _ _) as [data|] eqn:Hs; [|discriminate]. simpl bind.
  assert (Hc : columns data = EIL_NR :: PAVARDE_VARDAS :: more).
  { unfold slice_named in Hs. destruct (Nat.eqb _ _); [|discriminate].
    injection Hs as <-. reflexivity. }
  unfold filter_by. simpl columns. rewrite Hc, index_of_name. simpl bind.
  destruct (keep_columns _) as [keep|] eqn:Hk; [|discriminate]. simpl bind.
  apply keep_columns_fixed in Hk as (more' & ->).
  destruct (select _ _) as [t'|] eqn:Hsel; [|discriminate]. simpl.
  intros E. injection E as <- _.
  eapply select_names_present; [|exact Hsel].
  split.
  - exists more. exact Hc.
  - simpl. intros row Hin. apply filter_In in Hin as [_ H]. exact H.
Qed.

(** The half of C2 that holds: in the table left by all the steps no row
    lacks a name. *)
Lemma name_column_never_missing (df0 : RawGrid) (t : Table) (meta : Meta) :
  student_table df0 = Ok (t, meta) ->
  forall row, In row (rows t) ->
              notna (row_get (columns t) row PAVARDE_VARDAS NaN) = true.
Proof.
  unfold student_table.
  destruct (parse_excel_to_df df0) as [[t1 m]|] eqn:Hp; [|discriminate].
  apply parse_names_present in Hp. simpl bind.
  destruct (drop_level_columns t1) as [t2|] eqn:Hl; [|discriminate]. simpl bind.
  assert (H2 : names_present t2).
  { unfold drop_level_columns in Hl.
    destruct Hp as [(more & Hc) Hrows]. rewrite Hc in Hl.
    assert (Hf : exists more',
               filter (fun c => match search ACH_LVL_COL_RE (or_ c (py "")) with
                                | Some _ => false | None => true end)
                      (EIL_NR :: PAVARDE_VARDAS :: more)
               = EIL_NR :: PAVARDE_VARDAS :: more').
    { eexists. cbn [filter].
      replace (search ACH_LVL_COL_RE (or_ EIL_NR (py ""))) with (@None mstate)
        by (vm_compute; reflexivity).
      replace (search ACH_LVL_COL_RE (or_ PAVARDE_VARDAS (py ""))) with (@None mstate)
        by (vm_compute; reflexivity).
      reflexivity. }
    destruct Hf as (more' & Hf). rewrite Hf in Hl.
    eapply select_names_present; [|exact Hl].
    split; [eauto | exact Hrows]. }
  destruct (drop_summary_rows t2) as [t3|] eqn:Hd; [|discriminate]. simpl.
  intros E. injection E as <- _.
  unfold drop_summary_rows, filter_by in Hd.
  destruct (index_of PAVARDE_VARDAS (columns t2)); [|discriminate].
  injection Hd as <-.
  destruct (filter_rows_names_present
              (fun row => negb (str_eqb (strip_accents_lower (str_ (nth n row NaN)))
                                        (strip_accents_lower SUMMARY))) t2 H2)
    as [(more & Hc) Hrows].
  intros row Hin. unfold row_get. rewrite Hc, index_of_name.
  apply Hrows, Hin.
Qed.
(* ================================================================== *)
(** * Trimming *)
(* ================================================================== *)

Lemma lstrip_by_app (p : char -> bool) (x b : str) :
  lstrip_by p (x ++ b) = if forallb p x then lstrip_by p b else lstrip_by p x ++ b.
Proof.
  induction x as [|c x IH]; simpl; [reflexivity|].
  destruct (p c); simpl; [exact IH | reflexivity].
Qed.

Lemma lstrip_by_all (p : char -> bool) (x : str) :
  forallb p x = true -> lstrip_by p x = [].
Proof.
  induction x as [|c x IH]; simpl; [reflexivity|].
  destruct (p c); simpl; [exact IH | discriminate].
Qed.

(** What [lstrip] removes is a run of characters of the set. *)
Lemma lstrip_by_split (p : char -> bool) (s : str) :
  exists a, forallb p a = true /\ s = a ++ lstrip_by p s.
Proof.
  induction s as [|c s (a & Ha & E)]; simpl.
  - exists []. auto.
  - destruct (p c) eqn:Hc.
    + exists (c :: a). simpl. rewrite Hc, Ha. split; [reflexivity | congruence].
    + exists []. auto.
Qed.

Lemma forallb_rev (p : char -> bool) (x : str) : forallb p (rev x) = forallb p x.
Proof.
  induction x as [|c x IH]; simpl; [reflexivity|].
  rewrite forallb_app, IH. simpl. rewrite andb_true_r. apply andb_comm.
Qed.

(** Trimming takes a run of the set off each end. *)
Lemma strip_by_split (p : char -> bool) (s : str) :
  exists a b, forallb p a = true /\ forallb p b = true
              /\ s = a ++ strip_by p s ++ b.
Proof.
  destruct (lstrip_by_split p s) as (a & Ha & Ea).
  destruct (lstrip_by_split p (rev (lstrip_by p s))) as (b & Hb & Eb).
  exists a, (rev b). rewrite forallb_rev. repeat split; auto.
  unfold strip_by. rewrite <- rev_app_distr, <- Eb, rev_involutive. exact Ea.
Qed.

(** Runs of the set around a text do not change what trimming leaves. *)
Lemma strip_by_pad (p : char -> bool) (a x b : str) :
  forallb p a = true -> forallb p b = true ->
  strip_by p (a ++ x ++ b) = strip_by p x.
Proof.
  intros Ha Hb. unfold strip_by.
  rewrite lstrip_by_app, Ha, lstrip_by_app.
  destruct (forallb p x) eqn:Hx.
  - rewrite (lstrip_by_all p b Hb), (lstrip_by_all p x Hx). reflexivity.
  - rewrite rev_app_distr, lstrip_by_app, forallb_rev, Hb. reflexivity.
Qed.

Lemma strip_by_idem (p : char -> bool) (s : str) :
  strip_by p (strip_by p s) = strip_by p s.
Proof.
  destruct (strip_by_split p s) as (a & b & Ha & Hb & E).
  rewrite E at 2. rewrite strip_by_pad by assumption. reflexivity.
Qed.

(** ** White space under the normaliser *)

Lemma is_space_enumerated (c : char) : is_space c = true -> In c space_chars.
Proof.
  unfold is_space, between, space_chars. simpl In.
  rewrite !orb_true_iff, !andb_true_iff, !N.leb_le, !N.eqb_eq. lia.
Qed.

Lemma strip_accents_lower_flat (s : str) :
  strip_accents_lower s = strip (flat_map fold_char s).
Proof.
  unfold strip_accents_lower, normalize_NFD, lower, fold_char. f_equal.
  induction s as [|c s IH]; simpl; [reflexivity|].
  rewrite filter_app, flat_map_app, IH. reflexivity.
Qed.

Lemma fold_char_space (c : char) :
  is_space c = true -> forallb is_space (fold_char c) = true.
Proof.
  intros H. apply is_space_enumerated in H.
  assert (Hall : forallb (fun c => forallb is_space (fold_char c)) space_chars = true)
    by (vm_compute; reflexivity).
  rewrite forallb_forall in Hall. apply Hall, H.
Qed.

Lemma fold_spaces (a : str) :
  forallb is_space a = true -> forallb is_space (flat_map fold_char a) = true.
Proof.
  induction a as [|c a IH]; simpl; [reflexivity|].
  intros H. apply andb_true_iff in H as [Hc Ha].
  rewrite forallb_app, (fold_char_space c Hc), (IH Ha). reflexivity.
Qed.

(** Trimming first does not change the normalised form. *)
Lemma strip_accents_lower_strip (s : str) :
  strip_accents_lower (strip s) = strip_accents_lower s.
Proof.
  rewrite !strip_accents_lower_flat.
  destruct (strip_by_split is_space s) as (a & b & Ha & Hb & E).
  fold (strip s) in E. rewrite E at 2.
  rewrite !flat_map_app. unfold strip at 1 3.
  rewrite strip_by_pad by (apply fold_spaces; assumption).
  reflexivity.
Qed.
(* ================================================================== *)
(** * The academic year, said without the engine *)
(* ================================================================== *)

Lemma year_at_some (s y t : str) :
  year_at s = Some (y, t) <-> is_year y /\ s = y ++ t.
Proof.
  split.
  - destruct s as [|a [|b [|c [|d t']]]]; try discriminate. cbn [year_at].
    destruct (N.eqb a 50) eqn:Ea; [|discriminate].
    destruct (N.eqb b 48) eqn:Eb; [|discriminate].
    destruct (is_digit c) eqn:Ec; [|discriminate].
    destruct (is_digit d) eqn:Ed; [|discriminate].
    cbn [andb]. intros H. injection H as <- <-.
    apply N.eqb_eq in Ea, Eb. subst a b.
    split; [exists c, d; auto | reflexivity].
  - intros ((c & d & -> & Hc & Hd) & ->).
    change (py "20") with [50; 48]%N. cbn [app year_at].
    rewrite Hc, Hd. reflexivity.
Qed.

Lemma year_not_space (y t : str) : is_year y -> lstrip_by is_space (y ++ t) = y ++ t.
Proof. intros (c & d & -> & _). reflexivity. Qed.

Lemma dash_not_space (dash : char) :
  dash = HYPHEN \/ dash = EN_DASH -> is_space dash = false /\ is_dash dash = true.
Proof. intros [->| ->]; split; vm_compute; reflexivity. Qed.

Lemma is_dash_true (dash : char) :
  is_dash dash = true -> dash = HYPHEN \/ dash = EN_DASH.
Proof.
  unfold is_dash. intros H. apply orb_true_iff in H as [H|H];
    apply N.eqb_eq in H; auto.
Qed.

(** The function and the relation say the same. *)
Lemma range_at_some (s y1 y2 : str) :
  range_at s = Some (y1, y2) <-> starts_with_range s y1 y2.
Proof.
  split.
  - unfold range_at.
    destruct (year_at s) as [[z1 t]|] eqn:E1; [|discriminate].
    apply year_at_some in E1 as (Hz1 & ->).
    destruct (lstrip_by_split is_space t) as (ws1 & Hws1 & Et).
    destruct (lstrip_by is_space t) as [|dash t'] eqn:E2; [discriminate|].
    destruct (is_dash dash) eqn:Ed; [|discriminate].
    destruct (lstrip_by_split is_space t') as (ws2 & Hws2 & Et').
    destruct (year_at (lstrip_by is_space t')) as [[z2 post]|] eqn:E3;
      [|discriminate].
    apply year_at_some in E3 as (Hz2 & E3).
    intros H. injection H as <- <-.
    exists ws1, dash, ws2, post. rewrite Et at 1. rewrite Et' at 1. rewrite E3.
    repeat split; auto. apply is_dash_true, Ed.
  - intros (ws1 & dash & ws2 & post & -> & Hy1 & Hy2 & Hws1 & Hws2 & Hd).
    destruct (dash_not_space dash Hd) as (Hns & Hdash).
    unfold range_at.
    rewrite (proj2 (year_at_some _ y1 (ws1 ++ [dash] ++ ws2 ++ y2 ++ post)))
      by auto.
    rewrite lstrip_by_app, Hws1. cbn [app lstrip_by]. rewrite Hns, Hdash.
    rewrite lstrip_by_app, Hws2, year_not_space by exact Hy2.
    rewrite (proj2 (year_at_some _ y2 post)) by auto. reflexivity.
Qed.

Lemma first_range_some (txt y1 y2 : str) :
  first_range txt = Some (y1, y2) <->
  exists pre suf,
    txt = pre ++ suf /\ starts_with_range suf y1 y2
    /\ forall pre' suf' z1 z2,
         txt = pre' ++ suf' -> length pre' < length pre ->
         ~ starts_with_range suf' z1 z2.
Proof.
  revert y1 y2. induction txt as [|c txt IH]; intros y1 y2.
  - cbn [first_range]. change (range_at []) with (@None (str * str)). split.
    + discriminate.
    + intros (pre & suf & E & H & _). symmetry in E.
      apply app_eq_nil in E as (_ & ->). apply range_at_some in H. discriminate H.
  - cbn [first_range]. destruct (range_at (c :: txt)) as [[z1 z2]|] eqn:E.
    + split.
      * intros H. injection H as <- <-. exists [], (c :: txt).
        split; [reflexivity|]. split; [apply range_at_some, E|].
        intros pre' suf' w1 w2 _ Hl. simpl in Hl. lia.
      * intros (pre & suf & Et & H & Hleft).
        destruct pre as [|c' pre].
        -- simpl in Et. subst suf. apply range_at_some in H. congruence.
        -- exfalso. apply (Hleft [] (c :: txt) z1 z2); [reflexivity | simpl; lia|].
           apply range_at_some, E.
    + rewrite IH. split.
      * intros (pre & suf & -> & H & Hleft). exists (c :: pre), suf.
        split; [reflexivity|]. split; [exact H|].
        intros pre' suf' w1 w2 Et Hl Hr. destruct pre' as [|c'' pre'].
        -- simpl in Et. subst suf'. apply range_at_some in Hr. congruence.
        -- rewrite <- !app_comm_cons in Et. injection Et as _ Et.
           apply (Hleft pre' suf' w1 w2 Et); [simpl in Hl; lia | exact Hr].
      * intros (pre & suf & Et & H & Hleft). destruct pre as [|c' pre].
        -- simpl in Et. subst suf. apply range_at_some in H. congruence.
        -- rewrite <- app_comm_cons in Et. injection Et as _ ->.
           exists pre, suf. split; [reflexivity|]. split; [exact H|].
           intros pre' suf' w1 w2 Et Hl.
           apply (Hleft (c :: pre') suf' w1 w2);
             [rewrite Et; reflexivity | simpl; lia].
Qed.

(** The leftmost match of the pattern is the first range of the text, and
    its two groups are the two years. *)
Lemma attempt_years_range (before : option char) (s : str) :
  match attempt pat_years before s with
  | m :: _ => exists y1 y2, range_at s = Some (y1, y2)
                            /\ fmt_years m = y1 ++ [EN_DASH] ++ y2
  | [] => range_at s = None
  end.
Proof.
  destruct (attempt pat_years before s) as [|m l] eqn:E.
  - destruct (range_at s) as [[y1 y2]|] eqn:Er; [|reflexivity]. exfalso.
    apply range_at_some in Er
      as (ws1 & dash & ws2 & post & Hs & Hy1 & Hy2 & H1 & H2 & Hd).
    assert (Hin : In {| prev := last (map Some y2) None; rest := post;
                        caps := [(2, y2); (1, y1)] |}
                     (attempt pat_years before s)).
    { apply in_attempt_years. exists y1, ws1, dash, ws2, y2. simpl. auto 10. }
    rewrite E in Hin. destruct Hin.
  - assert (Hin : In m (attempt pat_years before s)) by (rewrite E; left; reflexivity).
    apply in_attempt_years in Hin
      as (y1 & ws1 & dash & ws2 & y2 & Hs & Hy1 & Hy2 & H1 & H2 & Hd & Hc & _).
    exists y1, y2. split.
    + apply range_at_some. exists ws1, dash, ws2, (rest m). auto 10.
    + unfold fmt_years. rewrite Hc. reflexivity.
Qed.

Lemma search_go_years (before : option char) (s : str) :
  option_map fmt_years (search_go pat_years before s)
  = match first_range s with
    | Some (y1, y2) => Some (y1 ++ [EN_DASH] ++ y2)
    | None => None
    end.
Proof.
  revert before. induction s as [|c s IH]; intros before.
  - cbn [search_go first_range].
    pose proof (attempt_years_range before []) as H.
    destruct (attempt pat_years before []) as [|m l].
    + rewrite H. reflexivity.
    + destruct H as (y1 & y2 & -> & Hf). cbn [option_map]. rewrite Hf. reflexivity.
  - cbn [search_go first_range].
    pose proof (attempt_years_range before (c :: s)) as H.
    destruct (attempt pat_years before (c :: s)) as [|m l].
    + rewrite H. apply IH.
    + destruct H as (y1 & y2 & -> & Hf). cbn [option_map]. rewrite Hf. reflexivity.
Qed.

Lemma year_range_is_year_text (c : cell) : year_range c = year_text c.
Proof.
  destruct c as [|v|repr]; try reflexivity.
  unfold year_range, year_text, search. apply search_go_years.
Qed.

Lemma hits_ext {A} (f g : cell -> option A) (cells : list cell) :
  (forall c, f c = g c) -> hits f cells = hits g cells.
Proof.
  intros H. unfold hits. apply flat_map_ext. intros c. rewrite H. reflexivity.
Qed.

(** C7.  The first [str] cell of the window, in row-major order, whose
    trimmed text holds two years "20dd" around a hyphen or an en-dash ends
    the scan, and the result is the two years of the leftmost such range
    of that cell with an en-dash between them; when no cell holds a range
    the result is the trimmed text of the last cell containing "mokslo
    metai" (case folded), or the empty text. *)
Theorem C7_academic_year (df : RawGrid) :
  try_extract_academic_year df
  = Ok (match hits year_text (window df) with
        | y :: _ => y
        | [] => last (hits school_year_phrase (window df)) (py "")
        end)
  /\ (forall txt y1 y2,
        first_range txt = Some (y1, y2) <->
        exists pre suf,
          txt = pre ++ suf /\ starts_with_range suf y1 y2
          /\ forall pre' suf' z1 z2,
               txt = pre' ++ suf' -> length pre' < length pre ->
               ~ starts_with_range suf' z1 z2)
  /\ (forall c, year_text c <> None <->
                exists v, c = Text v /\ holds_year_range (strip v))
  /\ try_extract_academic_year sheet_two_year_ranges = Ok (py "2024–2025")
  /\ try_extract_academic_year sheet_years_in_text = Ok (py "2023–2024").
Proof.
  split; [|split; [|split; [|split]]].
  - rewrite try_extract_academic_year_first.
    rewrite (hits_ext year_range year_text) by apply year_range_is_year_text.
    reflexivity.
  - apply first_range_some.
  - intros c. rewrite <- year_range_is_year_text.
    destruct c as [|v|repr]; simpl.
    + split; [congruence | intros (v & E & _); discriminate E].
    + split.
      * intros H. exists v. split; [reflexivity|].
        apply search_years_iff.
        destruct (search pat_years (strip v)); [discriminate|].
        simpl in H. congruence.
      * intros (v' & E & H). injection E as <-.
        apply search_years_iff in H.
        destruct (search pat_years (strip v)); [simpl; discriminate | congruence].
    + split; [congruence | intros (v & E & _); discriminate E].
  - vm_compute. reflexivity.
  - vm_compute. reflexivity.
Qed.
(* ================================================================== *)
(** * The archive *)
(* ================================================================== *)

Lemma row_item_get (cols : list str) (row : list cell) (col : str) :
  In col cols -> row_item cols row col = Ok (row_get cols row col NaN).
Proof.
  intros H. unfold row_item, row_get.
  destruct (index_of_In col cols H) as [i ->]. reflexivity.
Qed.

Lemma subjects_of_fold (cols : list str) (row : list cell) :
  subjects_of cols row = Ok (subjects_dict cols row).
Proof.
  unfold subjects_of, subjects_dict.
  rewrite for_in_fold with (f := fun col subjects => subject_round cols row subjects col).
  - reflexivity.
  - intros col subjects Hin. unfold subject_round.
    destruct (label_in col [EIL_NR; PAVARDE_VARDAS]); [reflexivity|].
    rewrite row_item_get by exact Hin. simpl.
    destruct (cleaned_value _); reflexivity.
Qed.

Lemma fold_left_filter_snoc {A B} (q : A -> bool) (e : A -> B) (l : list A)
  (init : list B) :
  fold_left (fun acc a => if q a then acc ++ [e a] else acc) l init
  = init ++ map e (filter q l).
Proof.
  revert init. induction l as [|a l IH]; intros init; simpl.
  - symmetry. apply app_nil_r.
  - rewrite IH. destruct (q a); simpl; [|reflexivity].
    rewrite <- app_assoc. reflexivity.
Qed.

(** After the summary rows are dropped, no row left has the summary phrase
    for a name, trimmed or not. *)
Lemma drop_summary_rows_rows (t0 t : Table) :
  drop_summary_rows t0 = Ok t ->
  columns t = columns t0
  /\ forall row, In row (rows t) ->
       In row (rows t0)
       /\ str_eqb (strip_accents_lower (display_name (columns t) row))
                  (strip_accents_lower SUMMARY) = false.
Proof.
  unfold drop_summary_rows, filter_by.
  destruct (index_of PAVARDE_VARDAS (columns t0)) as [i|] eqn:Hi; [|discriminate].
  intros E. injection E as <-. simpl. split; [reflexivity|].
  intros row Hrow. apply filter_In in Hrow as [Hin Hkeep].
  split; [exact Hin|].
  unfold display_name, row_get. rewrite Hi.
  rewrite strip_accents_lower_strip.
  apply negb_true_iff in Hkeep. exact Hkeep.
Qed.

(** ** File names *)

Lemma flat_map_flat_map {A B C} (f : A -> list B) (g : B -> list C) (l : list A) :
  flat_map g (flat_map f l) = flat_map (fun a => flat_map g (f a)) l.
Proof.
  induction l as [|a l IH]; simpl; [reflexivity|].
  rewrite flat_map_app, IH. reflexivity.
Qed.

Lemma safe_name_chars (s : str) : safe_name s = flat_map safe_char s.
Proof.
  unfold safe_name, replace. rewrite !flat_map_flat_map.
  apply flat_map_ext. intros c. unfold safe_char.
  destruct (N.eqb_spec c 47) as [->|H1]; [vm_compute; reflexivity|].
  destruct (N.eqb_spec c 92) as [->|H2]; [vm_compute; reflexivity|].
  destruct (N.eqb_spec c 58) as [->|H3]; [vm_compute; reflexivity|].
  destruct (N.eqb_spec c 42) as [->|H4]; [vm_compute; reflexivity|].
  destruct (N.eqb_spec c 63) as [->|H5]; [vm_compute; reflexivity|].
  destruct (N.eqb_spec c 34) as [->|H6]; [vm_compute; reflexivity|].
  destruct (N.eqb_spec c 60) as [->|H7]; [vm_compute; reflexivity|].
  destruct (N.eqb_spec c 62) as [->|H8]; [vm_compute; reflexivity|].
  destruct (N.eqb_spec c 124) as [->|H9]; [vm_compute; reflexivity|].
  apply N.eqb_neq in H1, H2, H3, H4, H5, H6, H7, H8, H9.
  change (ch "/") with 47%N. change (ch "\") with 92%N.
  change (ch ":") with 58%N. change (ch "*") with 42%N.
  change (ch "?") with 63%N. change (ch "<") with 60%N.
  change (ch ">") with 62%N. change (ch "|") with 124%N.
  change (py "/\:*|") with [47; 92; 58; 42; 124]%N.
  unfold char_in. simpl.
  repeat (rewrite ?H1, ?H2, ?H3, ?H4, ?H5, ?H6, ?H7, ?H8, ?H9; simpl;
          rewrite ?app_nil_r).
  reflexivity.
Qed.

Lemma safe_char_safe (c c' : char) :
  In c' (safe_char c) -> char_in UNSAFE c' = false.
Proof.
  unfold safe_char.
  change (ch "?") with 63%N. change (ch "<") with 60%N. change (ch ">") with 62%N.
  change (py "/\:*|") with [47; 92; 58; 42; 124]%N.
  change (py "(") with [40%N]. change (py ")") with [41%N].
  change (py "-") with [45%N].
  unfold char_in, UNSAFE. simpl existsb.
  destruct (N.eqb_spec c 63); simpl; [intros []|].
  destruct (N.eqb_spec c 34); simpl; [intros []|].
  destruct (N.eqb_spec c 60); simpl; [intros [<-|[]]; vm_compute; reflexivity|].
  destruct (N.eqb_spec c 62); simpl; [intros [<-|[]]; vm_compute; reflexivity|].
  destruct (N.eqb_spec c 47); simpl; [intros [<-|[]]; vm_compute; reflexivity|].
  destruct (N.eqb_spec c 92); simpl; [intros [<-|[]]; vm_compute; reflexivity|].
  destruct (N.eqb_spec c 58); simpl; [intros [<-|[]]; vm_compute; reflexivity|].
  destruct (N.eqb_spec c 42); simpl; [intros [<-|[]]; vm_compute; reflexivity|].
  destruct (N.eqb_spec c 124); simpl; [intros [<-|[]]; vm_compute; reflexivity|].
  intros [<-|[]].
  repeat match goal with
         | H : c <> _ |- _ => apply N.eqb_neq in H; rewrite H; clear H
         end.
  reflexivity.
Qed.


Lemma for_in_ext {A S R} (body body' : A -> S -> result (step S R))
  (l : list A) (s : S) :
  (forall a s', In a l -> body a s' = body' a s') ->
  for_in l body s = for_in l body' s.
Proof.
  revert s. induction l as [|a l IH]; intros s H; simpl; [reflexivity|].
  rewrite H by (left; reflexivity).
  destruct (body' a s) as [[s'|r]|e]; try reflexivity.
  apply IH. intros a' s'' Hin. apply H. right. exact Hin.
Qed.

Lemma for_in_app {A S R} (body : A -> S -> result (step S R)) (l1 l2 : list A)
  (s : S) :
  for_in (l1 ++ l2) body s
  = match for_in l1 body s with
    | Ok (Continue s') => for_in l2 body s'
    | other => other
    end.
Proof.
  revert s. induction l1 as [|a l1 IH]; intros s; simpl.
  - destruct (for_in l2 body s) as [[s'|r]|e]; reflexivity.
  - destruct (body a s) as [[s'|r]|e]; try reflexivity. apply IH.
Qed.

Lemma for_in_continues {A S R} (body : A -> S -> result (step S R)) (l : list A)
  (s : S) :
  (forall a s', In a l -> exists s'', body a s' = Ok (Continue s'')) ->
  exists s', for_in l body s = Ok (Continue s').
Proof.
  revert s. induction l as [|a l IH]; intros s H; simpl; [eauto|].
  destruct (H a s) as (s'' & ->); [left; reflexivity|].
  apply IH. intros a' s' Hin. apply H. right. exact Hin.
Qed.

(** The loop over the rows, round by round. *)
Lemma generate_rounds (FONT_NAME : str)
  (doc_build : str -> list flowable -> result bytes)
  (t0 t : Table) (school klase akadem_metai : str) :
  drop_summary_rows t0 = Ok t ->
  generate FONT_NAME doc_build t school klase akadem_metai
  = (out <- for_in (rows t)
              (archive_round FONT_NAME doc_build (columns t) school klase
                             akadem_metai) [] ;;
     match out with Continue zf => Ok zf | Return zf => Ok zf end).
Proof.
  intros Hdrop. apply drop_summary_rows_rows in Hdrop as [_ Hrows].
  unfold generate. f_equal. apply for_in_ext.
  intros row zf Hin. destruct (Hrows row Hin) as [_ Hsum].
  fold (display_name (columns t) row). unfold archive_round, named.
  destruct (is_empty (display_name (columns t) row)); [reflexivity|].
  destruct (str_eqb (lower (display_name (columns t) row)) (py "nan"));
    [reflexivity|].
  simpl. rewrite Hsum, subjects_of_fold. reflexivity.
Qed.

Lemma generate_entries (FONT_NAME : str)
  (doc_build : str -> list flowable -> result bytes)
  (pages : str -> list flowable -> bytes)
  (t0 t : Table) (school klase akadem_metai : str) :
  renders doc_build pages ->
  drop_summary_rows t0 = Ok t ->
  generate FONT_NAME doc_build t school klase akadem_metai
  = Ok (map (entry FONT_NAME pages (columns t) school klase akadem_metai)
            (filter (named (columns t)) (rows t))).
Proof.
  intros Hrender Hdrop.
  rewrite (generate_rounds FONT_NAME doc_build t0 t _ _ _ Hdrop).
  rewrite for_in_fold
    with (f := fun row zf =>
                 if named (columns t) row
                 then zf ++ [entry FONT_NAME pages (columns t) school klase
                                   akadem_metai row]
                 else zf).
  - simpl bind. rewrite fold_left_filter_snoc. reflexivity.
  - intros row zf _. unfold archive_round.
    destruct (named (columns t) row); [|reflexivity].
    rewrite Hrender. reflexivity.
Qed.

(** The first document that cannot be rendered ends the loop. *)
Lemma generate_raises (FONT_NAME : str)
  (doc_build : str -> list flowable -> result bytes)
  (t0 t : Table) (school klase akadem_metai : str)
  (pre post : list (list cell)) (row : list cell) (e : exn) :
  drop_summary_rows t0 = Ok t ->
  rows t = pre ++ row :: post ->
  (forall r, In r pre -> named (columns t) r = true ->
     exists pdf_bytes,
       doc_build FONT_NAME (story_of (columns t) school klase akadem_metai r)
       = Ok pdf_bytes) ->
  named (columns t) row = true ->
  doc_build FONT_NAME (story_of (columns t) school klase akadem_metai row) = Raise e ->
  generate FONT_NAME doc_build t school klase akadem_metai = Raise e.
Proof.
  intros Hdrop Hrows Hpre Hnamed Hraise.
  rewrite (generate_rounds FONT_NAME doc_build t0 t _ _ _ Hdrop).
  rewrite Hrows, for_in_app.
  destruct (for_in_continues
              (archive_round FONT_NAME doc_build (columns t) school klase akadem_metai)
              pre []) as (zf & ->).
  - intros r zf Hin. unfold archive_round.
    destruct (named (columns t) r) eqn:Hn; [|eauto].
    destruct (Hpre r Hin Hn) as (pdf_bytes & ->). simpl. eauto.
  - cbn [for_in]. unfold archive_round at 1. rewrite Hnamed, Hraise. reflexivity.
Qed.

Lemma student_table_dropped (df0 : RawGrid) (t : Table) (meta : Meta) :
  student_table df0 = Ok (t, meta) -> exists t0, drop_summary_rows t0 = Ok t.
Proof.
  unfold student_table.
  destruct (parse_excel_to_df df0) as [[t1 m]|]; [|discriminate]. simpl.
  destruct (drop_level_columns t1) as [t2|]; [|discriminate]. simpl.
  destruct (drop_summary_rows t2) as [t3|] eqn:E; [|discriminate]. simpl.
  intros H. injection H as <- _. exists t2. exact E.
Qed.



(* ================================================================== *)
(** * Achievement levels *)
(* ================================================================== *)

Ltac ranges :=
  unfold is_word, is_space, is_digit, between in *;
  rewrite ?orb_true_iff, ?andb_true_iff, ?N.leb_le, ?N.eqb_eq in *;
  lia.

(** Lower-casing keeps word characters word characters, and the rest the
    rest. *)
Lemma tolower_word (c : char) : is_word (tolower c) = is_word c.
Proof.
  unfold tolower.
  destruct (between 65 90 c || between 192 214 c || between 216 222 c) eqn:H1.
  { transitivity true; [|symmetry]; ranges. }
  destruct (lower_is_next c) eqn:H2.
  { unfold lower_is_next in H2.
    transitivity true; [|symmetry]; ranges. }
  destruct (N.eqb_spec c 304) as [->|]; [reflexivity|].
  destruct (N.eqb_spec c 376) as [->|]; [reflexivity|].
  destruct (N.eqb_spec c 8490) as [->|]; reflexivity.
Qed.

Lemma same_letter_word (p c : char) :
  forallb is_word (tolower p :: ignorecase_fixes (tolower p)) = true ->
  same_letter p c -> is_word c = true.
Proof.
  unfold same_letter, lit_match, folded. intros Hw H.
  rewrite <- tolower_word.
  rewrite forallb_forall in Hw. apply Hw.
  apply orb_true_iff in H as [H|H].
  - apply N.eqb_eq in H. left. congruence.
  - right. unfold char_in in H. apply existsb_exists in H as (x & Hx & E).
    apply N.eqb_eq in E. subst. exact Hx.
Qed.

Lemma level_head_words (name head : str) :
  In name LEVEL_NAMES -> Forall2 same_letter name head ->
  exists head' c, head = head' ++ [c] /\ is_word c = true.
Proof.
  intros Hname F.
  assert (Hw : forallb (fun p => forallb is_word
                                   (tolower p :: ignorecase_fixes (tolower p)))
                       name = true).
  { unfold LEVEL_NAMES in Hname. simpl in Hname.
    destruct Hname as [<-|[<-|[<-|[<-|[]]]]]; vm_compute; reflexivity. }
  assert (Hne : name <> []).
  { unfold LEVEL_NAMES in Hname. simpl in Hname.
    destruct Hname as [<-|[<-|[<-|[<-|[]]]]]; vm_compute; discriminate. }
  destruct (exists_last Hne) as (name' & p & ->).
  apply Forall2_app_inv_l in F as (head' & tl & F1 & F2 & ->).
  inversion F2 as [|? c ? ? Hpc F3]; subst. inversion F3; subst.
  exists head', c. split; [reflexivity|].
  rewrite forallb_app in Hw. apply andb_true_iff in Hw as [_ Hw].
  simpl in Hw. rewrite andb_true_r in Hw.
  apply (same_letter_word p c); [exact Hw | exact Hpc].
Qed.

Lemma last_snoc_some (head : str) (c : char) (d : option char) :
  last (map Some (head ++ [c])) d = Some c.
Proof. rewrite map_app, last_app_default. reflexivity. Qed.

Lemma word_end_wordy (tail : str) : word_end tail <-> wordy (hd_error tail) = false.
Proof. destruct tail; simpl; split; auto. Qed.

Lemma in_level_names (ci : bool) (name : str) (st st' : mstate) :
  (In name LEVEL_NAMES /\ In st' (run ci (lit name) st)) ->
  In st' (run ci (Alt (lit (py "slenkstinis"))
                   (Alt (lit (py "patenkinamas"))
                   (Alt (lit (py "pagrindinis"))
                        (lit (py "aukštesnysis"))))) st).
Proof.
  intros [Hname H]. unfold LEVEL_NAMES in Hname. simpl in Hname.
  rewrite !in_run_alt.
  destruct Hname as [<-|[<-|[<-|[<-|[]]]]]; auto.
Qed.

Lemma level_names_in (ci : bool) (st st' : mstate) :
  In st' (run ci (Alt (lit (py "slenkstinis"))
                   (Alt (lit (py "patenkinamas"))
                   (Alt (lit (py "pagrindinis"))
                        (lit (py "aukštesnysis"))))) st) ->
  exists name, In name LEVEL_NAMES /\ In st' (run ci (lit name) st).
Proof.
  rewrite !in_run_alt. unfold LEVEL_NAMES.
  intros [H|[H|[H|H]]]; eexists; (split; [|exact H]); simpl; auto.
Qed.

(** The pattern of the level names finds something exactly in the texts
    that start with a level name as a whole word. *)
Lemma search_level_iff (sv : str) :
  search ACH_LVL_VAL_RE sv <> None <-> level_word sv.
Proof.
  unfold ACH_LVL_VAL_RE. rewrite search_anchored. unfold match_, attempt.
  cbn [ignorecase body].
  set (st0 := {| prev := None; rest := sv; caps := [] |}).
  split.
  - intros H.
    destruct (run true _ st0) as [|m l] eqn:E; [simpl in H; congruence|].
    assert (Hin : In m (run true
                          (Cat Bol
                             (Cat (Group 1
                                     (Alt (lit (py "slenkstinis"))
                                        (Alt (lit (py "patenkinamas"))
                                           (Alt (lit (py "pagrindinis"))
                                              (lit (py "aukštesnysis"))))))
                                  WordB)) st0))
      by (rewrite E; left; reflexivity).
    clear E H.
    apply in_run_cat in Hin as (st1 & H1 & Hin).
    apply in_run_bol in H1 as [_ ->].
    apply in_run_cat in Hin as (st2 & H2 & Hin).
    apply in_run_group in H2 as (st2' & H2 & E2).
    apply level_names_in in H2 as (name & Hname & H2).
    apply in_run_lit in H2 as (head & Hr & F & E2').
    apply in_run_wordb in Hin as [Hx _].
    exists name, head, (rest st2'). repeat split; auto.
    destruct (level_head_words name head Hname F) as (head' & c & -> & Hc).
    apply word_end_wordy.
    rewrite E2 in Hx. unfold capture in Hx. simpl in Hx.
    rewrite E2' in Hx. simpl prev in Hx. simpl rest in Hx.
    rewrite last_snoc_some in Hx. simpl in Hx. rewrite Hc in Hx.
    simpl in Hx. apply negb_true_iff in Hx. exact Hx.
  - intros (name & head & tail & Hname & -> & F & Hend).
    apply hd_error_of_In with (x := capture 1 st0 (jump st0 head tail)).
    apply in_run_cat. exists st0. split; [apply in_run_bol; auto|].
    apply in_run_cat. exists (capture 1 st0 (jump st0 head tail)). split.
    + apply in_run_group. exists (jump st0 head tail). split; [|reflexivity].
      apply in_level_names with (name := name). split; [exact Hname|].
      apply in_run_lit. exists head. auto.
    + apply in_run_wordb. split; [|reflexivity].
      destruct (level_head_words name head Hname F) as (head' & c & -> & Hc).
      simpl. rewrite last_snoc_some. simpl. rewrite Hc.
      apply word_end_wordy in Hend. rewrite Hend. reflexivity.
Qed.

(** When the filter keeps a value out. *)
Lemma cleaned_value_none (v : cell) : cleaned_value v = None <-> excluded v.
Proof.
  unfold cleaned_value, excluded.
  destruct (isna v); [split; auto|].
  destruct (is_empty (strip (str_ v))) eqn:He; simpl.
  { apply is_empty_nil in He. split; auto. }
  assert (Hne : strip (str_ v) <> [])
    by (intros E; apply is_empty_nil in E; congruence).
  destruct (str_eqb (lower (strip (str_ v))) (py "nan")) eqn:Hn.
  { apply str_eqb_eq in Hn. split; auto. }
  apply str_eqb_neq in Hn.
  pose proof (search_level_iff (strip (str_ v))) as Hl.
  destruct (search ACH_LVL_VAL_RE (strip (str_ v))) as [m|].
  { split; auto. intros _. do 3 right. left. apply Hl. discriminate. }
  assert (Hnl : ~ level_word (strip (str_ v)))
    by (intros H; apply Hl in H; congruence).
  destruct (is_empty (clean_value_remove_tags (strip (str_ v)))) eqn:Hc.
  - apply is_empty_nil in Hc. split; auto 6.
  - split; [discriminate|].
    intros [H|[H|[H|[H|H]]]]; try discriminate; try contradiction.
    apply is_empty_nil in H. congruence.
Qed.

Lemma cleaned_value_some (v : cell) (sv : str) :
  cleaned_value v = Some sv -> sv = clean_value_remove_tags (strip (str_ v)).
Proof.
  unfold cleaned_value.
  destruct (isna v); [discriminate|].
  destruct (is_empty (strip (str_ v)) || _); [discriminate|].
  destruct (search ACH_LVL_VAL_RE _); [discriminate|].
  destruct (is_empty (clean_value_remove_tags _)); [discriminate|].
  intros H. injection H as <-. reflexivity.
Qed.
(* ================================================================== *)
(** * The subjects of a pupil *)
(* ================================================================== *)

Lemma dict_set_fresh (d : list (str * str)) (k v : str) :
  ~ In k (map fst d) -> dict_set d k v = d ++ [(k, v)].
Proof.
  induction d as [|[k' v'] d IH]; simpl; intros H; [reflexivity|].
  destruct (str_eqb k' k) eqn:E.
  - apply str_eqb_eq in E. tauto.
  - rewrite IH by tauto. reflexivity.
Qed.

Lemma row_get_at (pre post : list str) (col : str) (rpre rpost : list cell)
  (v : cell) :
  ~ In col pre -> length rpre = length pre ->
  row_get (pre ++ col :: post) (rpre ++ v :: rpost) col NaN = v.
Proof.
  intros Hfresh Hlen. unfold row_get.
  rewrite index_of_app_fresh by exact Hfresh.
  rewrite <- Hlen, nth_middle. reflexivity.
Qed.

Lemma kept_subjects_cons (col : str) (v : cell) (cols : list str) (row : list cell) :
  kept_subjects (col :: cols) (v :: row)
  = kept_subjects [col] [v] ++ kept_subjects cols row.
Proof.
  unfold kept_subjects. cbn [combine flat_map]. rewrite app_nil_r. reflexivity.
Qed.

Lemma subject_round_at (pre post : list str) (rpre rpost : list cell) (col : str)
  (v : cell) (acc : list (str * str)) :
  ~ In col pre -> length rpre = length pre -> ~ In col (map fst acc) ->
  subject_round (pre ++ col :: post) (rpre ++ v :: rpost) acc col
  = acc ++ kept_subjects [col] [v].
Proof.
  intros Hfresh Hlen Hacc. unfold subject_round, kept_subjects.
  cbn [combine flat_map fst snd]. rewrite app_nil_r.
  destruct (label_in col [EIL_NR; PAVARDE_VARDAS]).
  - symmetry. apply app_nil_r.
  - rewrite row_get_at by assumption.
    destruct (cleaned_value v) as [sv|].
    + apply dict_set_fresh, Hacc.
    + symmetry. apply app_nil_r.
Qed.

Lemma kept_subjects_keys (col : str) (v : cell) (k : str) :
  In k (map fst (kept_subjects [col] [v])) -> k = col.
Proof.
  unfold kept_subjects. cbn [combine flat_map fst snd]. rewrite app_nil_r.
  destruct (label_in col [EIL_NR; PAVARDE_VARDAS]); [intros []|].
  destruct (cleaned_value v); simpl; [intros [<-|[]]; reflexivity | intros []].
Qed.

Lemma subjects_loop (post pre : list str) (rpost rpre : list cell)
  (acc : list (str * str)) :
  NoDup (pre ++ post) -> length rpre = length pre -> length rpost = length post ->
  (forall k, In k (map fst acc) -> In k pre) ->
  fold_left (subject_round (pre ++ post) (rpre ++ rpost)) post acc
  = acc ++ kept_subjects post rpost.
Proof.
  revert pre rpost rpre acc.
  induction post as [|col post IH]; intros pre rpost rpre acc Hnd Hpre Hpost Hacc.
  - simpl. symmetry. apply app_nil_r.
  - destruct rpost as [|v rpost]; [discriminate Hpost|].
    simpl in Hpost. injection Hpost as Hpost.
    assert (Hfresh : ~ In col pre).
    { apply NoDup_remove_2 in Hnd. intros H. apply Hnd.
      apply in_or_app. left. exact H. }
    assert (Hround : subject_round (pre ++ col :: post) (rpre ++ v :: rpost) acc col
                     = acc ++ kept_subjects [col] [v]).
    { apply subject_round_at; auto. }
    simpl fold_left.
    rewrite Hround, (kept_subjects_cons col v post rpost), app_assoc.
    replace (pre ++ col :: post) with ((pre ++ [col]) ++ post)
      by (rewrite <- app_assoc; reflexivity).
    replace (rpre ++ v :: rpost) with ((rpre ++ [v]) ++ rpost)
      by (rewrite <- app_assoc; reflexivity).
    apply IH.
    + rewrite <- app_assoc. exact Hnd.
    + rewrite !length_app, Hpre. reflexivity.
    + exact Hpost.
    + intros k Hk. apply in_or_app.
      rewrite map_app, in_app_iff in Hk. destruct Hk as [Hk|Hk].
      * left. auto.
      * right. left. symmetry. apply (kept_subjects_keys col v), Hk.
Qed.

Lemma subjects_dict_kept (cols : list str) (row : list cell) :
  NoDup cols -> length row = length cols ->
  subjects_dict cols row = kept_subjects cols row.
Proof.
  intros Hnd Hlen. unfold subjects_dict.
  apply (subjects_loop cols [] row [] []); auto.
Qed.

Lemma combine_functional (cols : list str) (row : list cell) (c : str) (v v' : cell) :
  NoDup cols -> In (c, v) (combine cols row) -> In (c, v') (combine cols row) ->
  v = v'.
Proof.
  revert row. induction cols as [|c0 cols IH]; intros [|v0 row] Hnd H H';
    simpl in *; try contradiction.
  inversion Hnd as [|? ? Hnotin Hnd']; subst.
  destruct H as [E|H], H' as [E'|H'].
  - congruence.
  - injection E as -> ->. apply in_combine_l in H'. contradiction.
  - injection E' as -> ->. apply in_combine_l in H. contradiction.
  - apply (IH row); assumption.
Qed.

(** C3 as the claim words it fails: a value that merely begins with the
    letters of a level name is kept; the pattern asks for the name to end
    at a word boundary. *)
Lemma C3_counterexample :
  starts_with_level_name (py "Pagrindinisx") = true
  /\ cleaned_value (Text (py "Pagrindinisx")) = Some (py "Pagrindinisx")
  /\ subjects_of [EIL_NR; PAVARDE_VARDAS; py "Lygis"]
                 [Obj (py "1"); Text (py "Jonaitis Jonas"); Text (py "Pagrindinisx")]
     = Ok [(py "Lygis", py "Pagrindinisx")].
Proof. repeat split; vm_compute; reflexivity. Qed.

(** C3, amended.  For a row of a table with distinct labels, the subjects
    of the pupil are, in the order of the columns, the subject columns
    whose value passes the filter, each with its cleaned value.  A value is
    kept out exactly when it is missing, or its trimmed text is empty, or
    is "nan" in any case, or starts with one of the four level names
    standing as a whole word (the name is followed by the end of the text
    or by a non-word character), or is cleaned to the empty text.  So a
    column holding a level name in a row is not among that row's
    subjects. *)
Theorem C3_subjects (cols : list str) (row : list cell)
  (Hcols : NoDup cols) (Hrow : length row = length cols) :
  subjects_of cols row = Ok (kept_subjects cols row)
  /\ (forall v, cleaned_value v = None <-> excluded v)
  /\ (forall v sv, cleaned_value v = Some sv ->
                   sv = clean_value_remove_tags (strip (str_ v)))
  /\ (forall col v, In (col, v) (combine cols row) ->
                    level_word (strip (str_ v)) ->
                    ~ In col (map fst (kept_subjects cols row))).
Proof.
  split; [|split; [|split]].
  - rewrite subjects_of_fold, subjects_dict_kept by assumption. reflexivity.
  - apply cleaned_value_none.
  - apply cleaned_value_some.
  - intros col v Hin Hlevel Hkept.
    apply in_map_iff in Hkept as ([col' sv] & E & Hkept). simpl in E. subst col'.
    unfold kept_subjects in Hkept. apply in_flat_map in Hkept as ([c v'] & Hin' & H).
    cbn [fst snd] in H.
    destruct (label_in c [EIL_NR; PAVARDE_VARDAS]); [destruct H|].
    destruct (cleaned_value v') as [sv'|] eqn:Hv; [|destruct H].
    destruct H as [E|[]]. injection E as -> ->.
    assert (v = v') by (apply (combine_functional cols row col); assumption).
    subst v'.
    assert (Hnone : cleaned_value v = None).
    { apply cleaned_value_none. do 3 right. left. exact Hlevel. }
    congruence.
Qed.

Lemma C3_witness :
  subjects_of sample_labels sample_row = Ok [(py "Matematika", py "8")].
Proof.
  assert (Hnd : NoDup sample_labels).
  { unfold sample_labels.
    repeat (constructor; [simpl; intros H;
                          repeat (destruct H as [H|H]; [vm_compute in H; discriminate H|]);
                          exact H|]).
    constructor. }
  rewrite (proj1 (C3_subjects sample_labels sample_row Hnd eq_refl)).
  vm_compute. reflexivity.
Defined.
(* ================================================================== *)
(** * The cleaner leaves no tag *)
(* ================================================================== *)

Lemma tag_pair_words (a b : char) :
  tag_pair a b = true -> is_word a = true /\ is_word b = true.
Proof.
  unfold tag_pair. intros H.
  apply orb_true_iff in H as [H|H]; apply andb_true_iff in H as [Ha Hb];
    split; eapply same_letter_word; try eassumption; vm_compute; reflexivity.
Qed.

Lemma tag_pair_exclusive (a : char) :
  lit_match true (ch "P") a = true -> lit_match true (ch "I") a = false.
Proof.
  unfold lit_match, folded.
  change (tolower (ch "P")) with 112%N. change (tolower (ch "I")) with 105%N.
  change (ignorecase_fixes 112%N) with (@nil char).
  change (ignorecase_fixes 105%N) with [305%N].
  unfold char_in. simpl.
  rewrite !orb_false_r. intros H. apply N.eqb_eq in H. rewrite H. reflexivity.
Qed.

Lemma attempt_tag (before : option char) (s : str) :
  attempt TAG_PR_IN_RE before s
  = if tag_at before s
    then [ {| prev := hd_error (skipn 1 s); rest := skipn 2 s; caps := [] |} ]
    else [].
Proof.
  unfold attempt, TAG_PR_IN_RE. cbn [ignorecase body].
  change (lit (py "PR")) with (Cat (Lit (ch "P")) (Lit (ch "R"))).
  change (lit (py "IN")) with (Cat (Lit (ch "I")) (Lit (ch "N"))).
  unfold tag_at.
  destruct s as [|a [|b t]].
  - cbn. destruct (wordy before); reflexivity.
  - cbn -[lit_match ch]. destruct (wordy before), (is_word a); cbn -[lit_match ch];
      destruct (lit_match true (ch "P") a), (lit_match true (ch "I") a); reflexivity.
  - unfold tag_pair.
    assert (Hw : forall p c, In p [ch "P"; ch "R"; ch "I"; ch "N"] ->
                             lit_match true p c = true -> is_word c = true).
    { intros p c Hp H. apply (same_letter_word p c); [|exact H].
      simpl in Hp. destruct Hp as [<-|[<-|[<-|[<-|[]]]]]; vm_compute; reflexivity. }
    destruct (is_word a) eqn:Ha, (is_word b) eqn:Hb;
      destruct (lit_match true (ch "P") a) eqn:HP;
      destruct (lit_match true (ch "I") a) eqn:HI;
      destruct (lit_match true (ch "R") b) eqn:HR;
      destruct (lit_match true (ch "N") b) eqn:HN;
      try (rewrite (tag_pair_exclusive a HP) in HI; discriminate HI);
      try (rewrite (Hw (ch "P") a (or_introl eq_refl) HP) in Ha; discriminate Ha);
      try (rewrite (Hw (ch "I") a (or_intror (or_intror (or_introl eq_refl))) HI) in Ha;
           discriminate Ha);
      try (rewrite (Hw (ch "R") b (or_intror (or_introl eq_refl)) HR) in Hb;
           discriminate Hb);
      try (rewrite (Hw (ch "N") b
                       (or_intror (or_intror (or_intror (or_introl eq_refl)))) HN) in Hb;
           discriminate Hb);
      (destruct before as [x|]; [destruct (is_word x) eqn:Hx|]);
      (destruct t as [|c t]; [|destruct (is_word c) eqn:Hc]);
      repeat (cbn -[lit_match ch];
              rewrite ?HP, ?HI, ?HR, ?HN, ?Ha, ?Hb, ?Hx, ?Hc);
      reflexivity.
Qed.

Lemma search_tag (before : option char) (s : str) :
  search_go TAG_PR_IN_RE before s = None <-> has_tag before s = false.
Proof.
  revert before. induction s as [|c s IH]; intros before; simpl;
    rewrite attempt_tag.
  - destruct (tag_at before []); simpl; split; congruence.
  - destruct (tag_at before (c :: s)); simpl.
    + split; discriminate.
    + apply IH.
Qed.

Lemma tag_at_wordy (b b' : option char) (s : str) :
  wordy b = wordy b' -> tag_at b s = tag_at b' s.
Proof. unfold tag_at. intros ->. reflexivity. Qed.

Lemma has_tag_wordy (b b' : option char) (s : str) :
  wordy b = wordy b' -> has_tag b s = has_tag b' s.
Proof.
  intros H. destruct s; simpl; rewrite (tag_at_wordy b b') by exact H; reflexivity.
Qed.

Lemma tag_at_nonword_head (b : option char) (c : char) (t : str) :
  is_word c = false -> tag_at b (c :: t) = false.
Proof.
  intros Hc. unfold tag_at. destruct t as [|d t]; [apply andb_false_r|].
  destruct (tag_pair c d) eqn:E.
  - apply tag_pair_words in E as [E _]. congruence.
  - simpl. apply andb_false_r.
Qed.

Lemma tag_at_after_word (b : option char) (s : str) :
  wordy b = true -> tag_at b s = false.
Proof. unfold tag_at. intros ->. reflexivity. Qed.

(** ** Substitution, step by step *)

Lemma sub_go_skip (p : pattern) (repl : str) (x y : str) (b : option char) :
  x <> [] ->
  sub_go p repl b (length x) (x ++ y) = sub_go p repl (last (map Some x) b) 0 y.
Proof.
  revert b. induction x as [|c x IH]; intros b Hx; [contradiction|].
  destruct x as [|d x].
  - reflexivity.
  - change (sub_go p repl b (length (c :: d :: x)) ((c :: d :: x) ++ y))
      with (sub_go p repl (Some c) (length (d :: x)) ((d :: x) ++ y)).
    rewrite IH by discriminate.
    simpl map. rewrite !last_cons_default. reflexivity.
Qed.

Lemma sub_tag_here (b : option char) (s : str) :
  tag_at b s = true ->
  exists a x t, s = a :: x :: t
                /\ sub_go TAG_PR_IN_RE (py "") b 0 s
                   = sub_go TAG_PR_IN_RE (py "") (Some x) 0 t.
Proof.
  intros H. pose proof (attempt_tag b s) as Ha. rewrite H in Ha.
  destruct s as [|a [|x t]];
    try (unfold tag_at in H; rewrite andb_false_r in H; discriminate H).
  exists a, x, t. split; [reflexivity|].
  cbn [sub_go]. rewrite Ha. cbn [rest skipn length].
  replace (S (S (length t)) - length t) with 2 by lia.
  reflexivity.
Qed.

Lemma sub_tag_copy (b : option char) (c : char) (t : str) :
  tag_at b (c :: t) = false ->
  sub_go TAG_PR_IN_RE (py "") b 0 (c :: t)
  = c :: sub_go TAG_PR_IN_RE (py "") (Some c) 0 t.
Proof.
  intros H. cbn [sub_go]. rewrite attempt_tag, H. reflexivity.
Qed.

Lemma sub_tag_nil (b : option char) : sub_go TAG_PR_IN_RE (py "") b 0 [] = [].
Proof. cbn [sub_go]. rewrite attempt_tag. unfold tag_at. rewrite andb_false_r. reflexivity. Qed.

(** After a word character the scan copies the next character, and the
    head of what it leaves is as wordy as the head of what it read. *)
Lemma sub_tag_head (b : option char) (s : str) :
  tag_at b s = false ->
  hd_error (sub_go TAG_PR_IN_RE (py "") b 0 s) = hd_error s.
Proof.
  destruct s as [|c t]; intros H.
  - rewrite sub_tag_nil. reflexivity.
  - rewrite sub_tag_copy by exact H. reflexivity.
Qed.

(** Deleting the tags leaves no tag. *)
Lemma sub_tag_no_tag (n : nat) (s : str) (b b' : option char) :
  length s <= n -> wordy b' = wordy b ->
  has_tag b' (sub_go TAG_PR_IN_RE (py "") b 0 s) = false.
Proof.
  revert s b b'. induction n as [|n IH]; intros s b b' Hlen Hw.
  - destruct s; [|simpl in Hlen; lia]. rewrite sub_tag_nil.
    simpl. unfold tag_at. rewrite andb_false_r. reflexivity.
  - destruct s as [|c t].
    { rewrite sub_tag_nil. simpl. unfold tag_at. rewrite andb_false_r. reflexivity. }
    destruct (tag_at b (c :: t)) eqn:Hat.
    + destruct (sub_tag_here b (c :: t) Hat) as (a & x & t' & E & ->).
      injection E as <- ->.
      assert (Hx : is_word x = true /\ wordy (hd_error t') = false /\ wordy b = false).
      { unfold tag_at in Hat. apply andb_true_iff in Hat as [Hb Hat].
        apply andb_true_iff in Hat as [Hp Hn].
        apply tag_pair_words in Hp as [_ Hx].
        apply negb_true_iff in Hb, Hn. auto. }
      destruct Hx as (Hx & Ht' & Hb).
      assert (IHx : has_tag (Some x) (sub_go TAG_PR_IN_RE (py "") (Some x) 0 t') = false)
        by (apply IH; [simpl in Hlen; lia | reflexivity]).
      assert (Hhd : hd_error (sub_go TAG_PR_IN_RE (py "") (Some x) 0 t') = hd_error t')
        by (apply sub_tag_head, tag_at_after_word; exact Hx).
      destruct (sub_go TAG_PR_IN_RE (py "") (Some x) 0 t') as [|d out] eqn:Eo.
      * simpl. unfold tag_at. rewrite andb_false_r. reflexivity.
      * simpl in IHx |- *. apply orb_false_iff in IHx as [_ IHx]. rewrite IHx.
        rewrite tag_at_nonword_head; [reflexivity|].
        rewrite <- Hhd in Ht'. exact Ht'.
    + rewrite sub_tag_copy by exact Hat.
      assert (IHt : has_tag (Some c) (sub_go TAG_PR_IN_RE (py "") (Some c) 0 t) = false)
        by (apply IH; [simpl in Hlen; lia | reflexivity]).
      simpl. rewrite IHt, orb_false_r.
      destruct (is_word c) eqn:Hc; [|apply tag_at_nonword_head, Hc].
      rewrite (tag_at_wordy b' b) by exact Hw.
      (* the two characters after [c] are copied as they are *)
      destruct t as [|y t1]; [rewrite sub_tag_nil; exact Hat|].
      rewrite sub_tag_copy by (apply tag_at_after_word; exact Hc).
      destruct (is_word y) eqn:Hy.
      * unfold tag_at in Hat |- *.
        rewrite sub_tag_head by (apply tag_at_after_word; exact Hy).
        exact Hat.
      * unfold tag_at.
        destruct (tag_pair c y) eqn:E; [|simpl; apply andb_false_r].
        apply tag_pair_words in E as [_ E]. congruence.
Qed.

(** ** Collapsing white space *)

Lemma space_not_word (c : char) : is_space c = true -> is_word c = false.
Proof.
  intros H. apply is_space_enumerated in H.
  assert (Hall : forallb (fun c => negb (is_word c)) space_chars = true)
    by (vm_compute; reflexivity).
  rewrite forallb_forall in Hall. apply negb_true_iff, Hall, H.
Qed.

(** The greedy loop first offers the longest run. *)
Lemma star_loop_longest (ok : char -> bool) (fuel : nat) (st : mstate) :
  length (rest st) <= fuel ->
  exists m l, star_loop (step_char ok) fuel st = m :: l
              /\ rest m = lstrip_by ok (rest st).
Proof.
  revert st. induction fuel as [|fuel IH]; intros st Hlen.
  - exists st, []. split; [reflexivity|].
    destruct (rest st); [reflexivity | simpl in Hlen; lia].
  - change (star_loop (step_char ok) (S fuel) st)
      with (flat_map (fun st1 =>
                        if Nat.ltb (length (rest st1)) (length (rest st))
                        then star_loop (step_char ok) fuel st1 else [])
                     (step_char ok st) ++ [st]).
    unfold step_char. destruct (rest st) as [|c t] eqn:Er.
    + exists st, []. simpl. rewrite Er. auto.
    + simpl lstrip_by. destruct (ok c) eqn:Hok.
      * cbn [flat_map rest length].
        rewrite (proj2 (Nat.ltb_lt (length t) (S (length t)))) by lia.
        rewrite app_nil_r.
        destruct (IH {| prev := Some c; rest := t; caps := caps st |})
          as (m & l & E & Hm); [simpl in *; lia|].
        unfold step_char in E. rewrite E. simpl in Hm.
        exists m, (l ++ [st]). auto.
      * exists st, []. simpl. auto.
Qed.

Lemma attempt_spaces (before : option char) (s : str) :
  match attempt SPACES_RE before s with
  | [] => two_spaces s = false
  | m :: _ => two_spaces s = true /\ rest m = lstrip_by is_space s
  end.
Proof.
  unfold attempt, SPACES_RE, s_. cbn [ignorecase body].
  destruct s as [|a [|b t]].
  - reflexivity.
  - cbn. destruct (is_space a); reflexivity.
  - cbn -[star_loop]. unfold step_char. cbn -[star_loop].
    destruct (is_space a); cbn -[star_loop]; [|reflexivity].
    destruct (is_space b); cbn -[star_loop]; [|reflexivity].
    rewrite !app_nil_r.
    destruct (star_loop_longest is_space (length t)
                {| prev := Some b; rest := t; caps := [] |})
      as (m & l & E & Hm); [simpl; lia|].
    unfold step_char in E. rewrite E. auto.
Qed.

(** A text that starts with two white-space characters: the run and what
    follows it. *)
Lemma two_spaces_split (s : str) :
  two_spaces s = true ->
  exists c x, x <> [] /\ forallb is_space (c :: x) = true
              /\ s = c :: x ++ lstrip_by is_space s.
Proof.
  destruct s as [|c [|d t]]; try discriminate. simpl two_spaces.
  intros H. apply andb_true_iff in H as [Hc Hd].
  destruct (lstrip_by_split is_space t) as (a & Ha & Et).
  exists c, (d :: a). split; [discriminate|]. split.
  - simpl. rewrite Hc, Hd, Ha. reflexivity.
  - simpl. rewrite Hc, Hd. rewrite <- Et. reflexivity.
Qed.

(** What [sub] does at a run of two or more white-space characters: one
    space is written and the scan goes on after the run. *)
Lemma sub_spaces_run (b : option char) (s : str) :
  two_spaces s = true ->
  exists b', sub_go SPACES_RE (py " ") b 0 s
             = 32%N :: sub_go SPACES_RE (py " ") b' 0 (lstrip_by is_space s).
Proof.
  intros H2. pose proof (attempt_spaces b s) as Ha.
  destruct (attempt SPACES_RE b s) as [|m l] eqn:E; [congruence|].
  destruct Ha as [_ Hm].
  destruct (two_spaces_split s H2) as (c & x & Hx & _ & Es).
  set (r := lstrip_by is_space s) in *.
  exists (last (map Some x) (Some c)).
  rewrite Es at 1. cbn [sub_go]. rewrite <- Es, E, Hm.
  assert (Hw : length s - length r = S (length x)).
  { rewrite Es at 1. simpl length. rewrite length_app. lia. }
  rewrite Hw. change (py " ") with [32%N]. simpl app.
  rewrite (sub_go_skip SPACES_RE [32%N] x r (Some c)) by exact Hx.
  reflexivity.
Qed.

Lemma sub_spaces_copy (b : option char) (c : char) (t : str) :
  two_spaces (c :: t) = false ->
  sub_go SPACES_RE (py " ") b 0 (c :: t)
  = c :: sub_go SPACES_RE (py " ") (Some c) 0 t.
Proof.
  intros H. pose proof (attempt_spaces b (c :: t)) as Ha.
  cbn [sub_go]. destruct (attempt SPACES_RE b (c :: t)) as [|m l].
  - reflexivity.
  - destruct Ha as [Ha _]. congruence.
Qed.

Lemma sub_spaces_nil (b : option char) : sub_go SPACES_RE (py " ") b 0 [] = [].
Proof.
  pose proof (attempt_spaces b []) as Ha.
  cbn [sub_go]. destruct (attempt SPACES_RE b []) as [|m l]; [reflexivity|].
  destruct Ha as [Ha _]. discriminate Ha.
Qed.

Lemma sub_spaces_head (b : option char) (s : str) :
  wordy (hd_error (sub_go SPACES_RE (py " ") b 0 s)) = wordy (hd_error s).
Proof.
  destruct s as [|c t]; [rewrite sub_spaces_nil; reflexivity|].
  destruct (two_spaces (c :: t)) eqn:H2.
  - destruct (sub_spaces_run b (c :: t) H2) as (b' & ->).
    simpl. destruct t as [|d t]; [discriminate H2|].
    simpl in H2. apply andb_true_iff in H2 as [Hc _].
    symmetry. apply space_not_word, Hc.
  - rewrite sub_spaces_copy by exact H2. reflexivity.
Qed.

Lemma has_tag_suffix (x y : str) (b : option char) :
  has_tag b (x ++ y) = false -> has_tag (last (map Some x) b) y = false.
Proof.
  revert b. induction x as [|c x IH]; intros b H; [exact H|].
  simpl map. rewrite last_cons_default. apply IH.
  simpl in H. apply orb_false_iff in H as [_ H]. exact H.
Qed.

Lemma last_spaces_not_wordy (x : str) (b : option char) :
  x <> [] -> forallb is_space x = true -> wordy (last (map Some x) b) = false.
Proof.
  intros Hx Hall. destruct (exists_last Hx) as (x' & c & ->).
  rewrite map_app, last_app_default. simpl.
  rewrite forallb_app in Hall. apply andb_true_iff in Hall as [_ Hc].
  simpl in Hc. rewrite andb_true_r in Hc. apply space_not_word, Hc.
Qed.

(** Collapsing white space brings in no tag. *)
Lemma sub_spaces_no_tag (n : nat) (s : str) (b b' b0 : option char) :
  length s <= n -> wordy b' = wordy b -> has_tag b s = false ->
  has_tag b' (sub_go SPACES_RE (py " ") b0 0 s) = false.
Proof.
  revert s b b' b0. induction n as [|n IH]; intros s b b' b0 Hlen Hw Hs.
  - destruct s; [|simpl in Hlen; lia]. rewrite sub_spaces_nil.
    simpl. unfold tag_at. rewrite andb_false_r. reflexivity.
  - destruct s as [|c t].
    { rewrite sub_spaces_nil. simpl. unfold tag_at. rewrite andb_false_r.
      reflexivity. }
    destruct (two_spaces (c :: t)) eqn:H2.
    + destruct (sub_spaces_run b0 (c :: t) H2) as (b1 & ->).
      destruct (two_spaces_split (c :: t) H2) as (c0 & x & Hx & Hsp & Es).
      set (r := lstrip_by is_space (c :: t)) in *.
      assert (Hr : has_tag (last (map Some (c0 :: x)) b) r = false).
      { apply has_tag_suffix. simpl app. rewrite <- Es. exact Hs. }
      assert (Hlr : length r <= n).
      { assert (length (c :: t) = S (length x + length r))
          by (rewrite Es at 1; simpl; rewrite length_app; reflexivity).
        simpl in *. lia. }
      simpl. rewrite tag_at_nonword_head by reflexivity. simpl.
      apply (IH r (last (map Some (c0 :: x)) b)); auto.
      rewrite last_spaces_not_wordy by (auto; discriminate). reflexivity.
    + rewrite sub_spaces_copy by exact H2.
      simpl in Hs. apply orb_false_iff in Hs as [Hat Ht].
      simpl. rewrite (IH t (Some c) (Some c)); auto; [|simpl in Hlen; lia].
      rewrite orb_false_r.
      destruct (is_word c) eqn:Hc; [|apply tag_at_nonword_head, Hc].
      rewrite (tag_at_wordy b' b) by exact Hw.
      destruct t as [|y t1]; [rewrite sub_spaces_nil; exact Hat|].
      destruct (is_word y) eqn:Hy.
      * assert (H2y : two_spaces (y :: t1) = false).
        { simpl. destruct t1; [reflexivity|].
          destruct (is_space y) eqn:Hsy; [|reflexivity].
          apply space_not_word in Hsy. congruence. }
        rewrite sub_spaces_copy by exact H2y.
        unfold tag_at in Hat |- *. rewrite sub_spaces_head. exact Hat.
      * pose proof (sub_spaces_head (Some c) (y :: t1)) as Hh.
        destruct (sub_go SPACES_RE (py " ") (Some c) 0 (y :: t1)) as [|y' out].
        { unfold tag_at. apply andb_false_r. }
        simpl in Hh. rewrite Hy in Hh.
        unfold tag_at. destruct (tag_pair c y') eqn:E; [|simpl; apply andb_false_r].
        apply tag_pair_words in E as [_ E]. congruence.
Qed.

(** ** Trimming *)

Lemma has_tag_drop_suffix (m b : str) (bf : option char) :
  forallb (fun c => negb (is_word c)) b = true ->
  has_tag bf (m ++ b) = false -> has_tag bf m = false.
Proof.
  intros Hb. revert bf. induction m as [|c m IH]; intros bf H.
  - simpl. unfold tag_at. rewrite andb_false_r. reflexivity.
  - simpl in H |- *. apply orb_false_iff in H as [Hat H].
    rewrite (IH _ H), orb_false_r.
    assert (Hhd : wordy (hd_error b) = false).
    { destruct b as [|d b]; [reflexivity|]. simpl in Hb |- *.
      apply andb_true_iff in Hb as [Hd _]. apply negb_true_iff, Hd. }
    destruct m as [|d [|e m]]; cbn [app] in Hat; unfold tag_at in Hat |- *.
    + apply andb_false_r.
    + rewrite Hhd in Hat. exact Hat.
    + exact Hat.
Qed.

Lemma has_tag_strip_by (p : char -> bool) (s : str) :
  (forall c, p c = true -> is_word c = false) ->
  has_tag None s = false -> has_tag None (strip_by p s) = false.
Proof.
  intros Hp Hs.
  assert (Hall : forall a, forallb p a = true ->
                           forallb (fun c => negb (is_word c)) a = true).
  { intros a Ha. rewrite forallb_forall in Ha |- *.
    intros c Hc. apply negb_true_iff, Hp, Ha, Hc. }
  destruct (strip_by_split p s) as (a & b & Ha & Hb & E).
  rewrite E in Hs. apply has_tag_suffix in Hs.
  apply has_tag_drop_suffix in Hs; [|apply Hall, Hb].
  rewrite (has_tag_wordy None (last (map Some a) None)); [exact Hs|].
  destruct a as [|c a]; [reflexivity|].
  destruct (exists_last (l := c :: a) ltac:(discriminate)) as (a' & d & Ea).
  rewrite Ea, map_app, last_app_default. simpl.
  rewrite Ea, forallb_app in Ha. apply andb_true_iff in Ha as [_ Hd].
  simpl in Hd. rewrite andb_true_r in Hd. symmetry. apply Hp, Hd.
Qed.

Lemma separator_not_word (c : char) :
  char_in (py " ()[]{}-/|,;.") c = true -> is_word c = false.
Proof.
  intros H. unfold char_in in H. apply existsb_exists in H as (x & Hx & E).
  apply N.eqb_eq in E. subst x.
  assert (Hall : forallb (fun c => negb (is_word c)) (py " ()[]{}-/|,;.") = true)
    by (vm_compute; reflexivity).
  rewrite forallb_forall in Hall. apply negb_true_iff, Hall, Hx.
Qed.

(** The second half of C5 holds: what the cleaner returns holds no tag
    standing as a token of its own. *)
Lemma clean_value_has_no_tag (val : str) :
  search TAG_PR_IN_RE (clean_value_remove_tags val) = None.
Proof.
  unfold search. apply search_tag. unfold clean_value_remove_tags.
  destruct (is_empty (strip val)) eqn:He.
  - apply is_empty_nil in He. rewrite He. reflexivity.
  - unfold strip at 1. apply has_tag_strip_by; [apply space_not_word|].
    unfold sub. eapply sub_spaces_no_tag; [apply Nat.le_refl | reflexivity|].
    unfold strip_chars. apply has_tag_strip_by; [apply separator_not_word|].
    eapply sub_spaces_no_tag; [apply Nat.le_refl | reflexivity|].
    eapply sub_tag_no_tag; [apply Nat.le_refl | reflexivity].
Qed.
(* ================================================================== *)
(** * The statements at work on the sample inputs *)
(* ================================================================== *)

Lemma C1_witness :
  find_header_rows sheet_title_then_header = Ok (Some (1, 2))
  /\ main (py "Helvetica") blank_page (pressed sheet_with_metadata)
     = Failed header_not_found.
Proof.
  split.
  - apply (proj1 (C1_header_location (py "Helvetica") blank_page
                                     sheet_title_then_header)).
    split; [vm_compute; lia|].
    split; [vm_compute; reflexivity|].
    split; [|reflexivity].
    intros i Hi. assert (E : i = 0) by lia. subst i. vm_compute. reflexivity.
  - assert (Hno : forall i, i < Nat.min 40 (shape0 sheet_with_metadata) ->
                            header_at sheet_with_metadata i = false).
    { intros i Hi. assert (E : i = 0) by (vm_compute in Hi; lia). subst i.
      vm_compute. reflexivity. }
    destruct (proj2 (C1_header_location (py "Helvetica") blank_page
                                        sheet_with_metadata) Hno)
      as (e & _ & He & _ & Hmain).
    rewrite (Hmain (pressed sheet_with_metadata) eq_refl).
    f_equal. apply He. vm_compute. lia.
Defined.

Lemma C9_witness :
  is_final_class (Text (py " iv B ")) = true
  /\ is_final_class (Text (py "12 klasė")) = true.
Proof.
  split.
  - apply (proj1 C9_is_final_class).
    exists (ch "i"), (ch "v"), (py " "), (py "B").
    split; [vm_compute; reflexivity|].
    split; [right; reflexivity|].
    split; [right; reflexivity|].
    split; [vm_compute; reflexivity|].
    right. exists (ch "B"). split; vm_compute; reflexivity.
  - apply (proj1 (proj2 C9_is_final_class)).
    exists [], (py " klasė").
    split; [vm_compute; reflexivity|].
    split; vm_compute; reflexivity.
Defined.
(* ================================================================== *)
(** * Normal forms: file names, names without accents, cleaned values *)
(* ================================================================== *)

(** ** File names *)

Lemma safe_char_fixed (c : char) :
  char_in UNSAFE c = false -> safe_char c = [c].
Proof.
  unfold UNSAFE, char_in, safe_char. cbn [existsb].
  rewrite !orb_false_iff. intros (H1 & H2 & H3 & H4 & H5 & H6 & H7 & H8 & H9 & _).
  change (ch "?") with 63%N. change (ch "<") with 60%N. change (ch ">") with 62%N.
  change (py "/\:*|") with [47; 92; 58; 42; 124]%N.
  unfold char_in. cbn [existsb].
  rewrite H1, H2, H3, H4, H5, H6, H7, H8, H9. reflexivity.
Qed.

Lemma safe_char_short (c : char) : length (safe_char c) <= 1.
Proof.
  unfold safe_char.
  destruct (N.eqb c (ch "?") || N.eqb c 34%N); [simpl; lia|].
  destruct (N.eqb c (ch "<")); [vm_compute; lia|].
  destruct (N.eqb c (ch ">")); [vm_compute; lia|].
  destruct (char_in (py "/\:*|") c); [vm_compute; lia|].
  simpl. lia.
Qed.

(** X20.  The file name of a pupil: making a name safe twice is making it
    safe once, a name without any of the nine characters is left as it is,
    and the safe name is never longer than the name. *)
Theorem safe_name_normal_form (name : str) :
  safe_name (safe_name name) = safe_name name
  /\ (forallb (fun c => negb (char_in UNSAFE c)) name = true -> safe_name name = name)
  /\ length (safe_name name) <= length name.
Proof.
  assert (Hid : forall s, (forall c, In c s -> char_in UNSAFE c = false) ->
                          safe_name s = s).
  { intros s Hs. rewrite safe_name_chars.
    induction s as [|c s IH]; [reflexivity|].
    cbn [flat_map]. rewrite (safe_char_fixed c) by (apply Hs; left; reflexivity).
    cbn [app]. f_equal. apply IH. intros c' Hc'. apply Hs. right. exact Hc'. }
  split; [|split].
  - apply Hid. intros c Hc. rewrite safe_name_chars in Hc.
    apply in_flat_map in Hc as (c0 & _ & Hc). eapply safe_char_safe. exact Hc.
  - intros H. apply Hid. intros c Hc. rewrite forallb_forall in H.
    apply negb_true_iff. apply H. exact Hc.
  - rewrite safe_name_chars. induction name as [|c s IH]; [simpl; lia|].
    cbn [flat_map]. rewrite length_app. pose proof (safe_char_short c). simpl. lia.
Qed.

(** ** Names without accents *)

Lemma checked_all (P : char -> bool) :
  checked P = true -> forall c, tabulated c = true -> P c = true.
Proof.
  unfold checked, tabulated, between. intros H c Hc.
  apply andb_true_iff in H as [H H5]. apply andb_true_iff in H as [H H4].
  apply andb_true_iff in H as [H H3]. apply andb_true_iff in H as [H1 H2].
  rewrite forallb_forall in H1, H2.
  apply orb_true_iff in Hc as [Hc|Hc]; [|apply N.eqb_eq in Hc; subst; exact H5].
  apply orb_true_iff in Hc as [Hc|Hc]; [|apply N.eqb_eq in Hc; subst; exact H4].
  apply orb_true_iff in Hc as [Hc|Hc]; [|apply N.eqb_eq in Hc; subst; exact H3].
  apply orb_true_iff in Hc as [Hc|Hc].
  - apply N.leb_le in Hc. apply H1. apply in_map_iff.
    exists (N.to_nat c). split; [apply N2Nat.id|]. apply in_seq. lia.
  - apply andb_true_iff in Hc as [Ha Hb]. apply N.leb_le in Ha, Hb.
    replace c with (768 + N.of_nat (N.to_nat c - 768))%N by lia.
    apply H2. apply in_seq. lia.
Qed.

Lemma outside_tables (c : char) :
  tabulated c = false ->
  (383 < c)%N /\ is_Mn c = false /\ c <> 8192%N /\ c <> 8193%N /\ c <> 8490%N.
Proof.
  unfold tabulated, is_Mn. intros H.
  apply orb_false_iff in H as [H H5]. apply orb_false_iff in H as [H H4].
  apply orb_false_iff in H as [H H3]. apply orb_false_iff in H as [H1 H2].
  apply N.leb_gt in H1. apply N.eqb_neq in H3, H4, H5. auto.
Qed.

Lemma assoc_outside (c : char) (t : list (char * list char)) :
  forallb (fun kv => tabulated (fst kv)) t = true -> tabulated c = false ->
  assoc c t = None.
Proof.
  intros H Hc. induction t as [|[k v] t IH]; [reflexivity|].
  cbn [forallb fst] in H. apply andb_true_iff in H as [Hk Ht].
  cbn [assoc]. destruct (N.eqb_spec k c) as [->|_]; [congruence|]. apply IH, Ht.
Qed.

Lemma tolower_outside (c : char) : tabulated c = false -> tolower c = c.
Proof.
  intros Hc. destruct (outside_tables c Hc) as (H1 & _ & _ & _ & H5).
  unfold tolower, lower_is_next, between.
  repeat match goal with
         | |- context [N.leb c ?k] =>
             replace (N.leb c k) with false by (symmetry; apply N.leb_gt; lia)
         end.
  rewrite !andb_false_r. cbn [orb andb].
  destruct (N.eqb_spec c 304); [lia|].
  destruct (N.eqb_spec c 376); [lia|].
  destruct (N.eqb_spec c 8490); [congruence|]. reflexivity.
Qed.

Lemma plain_outside (c : char) : tabulated c = false -> plain c = true.
Proof.
  intros Hc. destruct (outside_tables c Hc) as (H1 & Hm & _).
  unfold plain.
  assert (Hd : decompose c = [c]).
  { unfold decompose. rewrite (assoc_outside c decompositions); [reflexivity| |exact Hc].
    vm_compute. reflexivity. }
  assert (Hl : lower_full c = [c]).
  { unfold lower_full. destruct (N.eqb_spec c 304); [lia|].
    rewrite tolower_outside by exact Hc. reflexivity. }
  rewrite Hd, Hl, Hm. cbn [negb andb]. rewrite str_eqb_refl. reflexivity.
Qed.

Lemma fold_char_outside (c : char) : tabulated c = false -> fold_char c = [c].
Proof.
  intros Hc. pose proof (plain_outside c Hc) as Hp.
  unfold plain in Hp. apply andb_true_iff in Hp as [Hp Hl].
  apply andb_true_iff in Hp as [Hm Hd].
  apply str_eqb_eq in Hl, Hd. unfold fold_char. rewrite Hd.
  cbn [filter]. rewrite Hm. cbn [flat_map]. rewrite Hl. reflexivity.
Qed.

Lemma fold_char_plain (c d : char) : In d (fold_char c) -> plain d = true.
Proof.
  destruct (tabulated c) eqn:Hc.
  - assert (H : forallb plain (fold_char c) = true).
    { revert c Hc. apply (checked_all (fun c => forallb plain (fold_char c))).
      vm_compute. reflexivity. }
    rewrite forallb_forall in H. apply H.
  - rewrite (fold_char_outside c Hc). intros [<-|[]]. apply plain_outside, Hc.
Qed.

Lemma plain_fold_char (d : char) : plain d = true -> fold_char d = [d].
Proof.
  unfold plain. intros Hp. apply andb_true_iff in Hp as [Hp Hl].
  apply andb_true_iff in Hp as [Hm Hd].
  apply str_eqb_eq in Hl, Hd. unfold fold_char. rewrite Hd.
  cbn [filter]. rewrite Hm. cbn [flat_map]. rewrite Hl. reflexivity.
Qed.

Lemma flat_map_plain (s : str) :
  forallb plain s = true -> flat_map fold_char s = s.
Proof.
  induction s as [|c s IH]; [reflexivity|].
  cbn [forallb flat_map]. intros H. apply andb_true_iff in H as [Hc Hs].
  rewrite (plain_fold_char c Hc), (IH Hs). reflexivity.
Qed.

Lemma strip_accents_lower_plain (s : str) :
  forallb plain (strip_accents_lower s) = true.
Proof.
  rewrite strip_accents_lower_flat.
  destruct (strip_by_split is_space (flat_map fold_char s)) as (a & b & _ & _ & E).
  assert (H : forallb plain (flat_map fold_char s) = true).
  { apply forallb_forall. intros d Hd. apply in_flat_map in Hd as (c & _ & Hd).
    eapply fold_char_plain. exact Hd. }
  rewrite E in H. rewrite !forallb_app in H.
  apply andb_true_iff in H as [_ H]. apply andb_true_iff in H as [H _].
  exact H.
Qed.

Lemma fold_char_lower (c : char) : flat_map fold_char (lower_full c) = fold_char c.
Proof.
  destruct (tabulated c) eqn:Hc.
  - apply str_eqb_eq. revert c Hc.
    apply (checked_all (fun c => str_eqb (flat_map fold_char (lower_full c))
                                         (fold_char c))).
    vm_compute. reflexivity.
  - pose proof (plain_outside c Hc) as Hp.
    unfold plain in Hp. apply andb_true_iff in Hp as [_ Hl].
    apply str_eqb_eq in Hl. rewrite Hl. cbn [flat_map]. apply app_nil_r.
Qed.

Lemma strip_accents_lower_lower (s : str) :
  strip_accents_lower (lower s) = strip_accents_lower s.
Proof.
  rewrite !strip_accents_lower_flat. f_equal. unfold lower.
  rewrite flat_map_flat_map. apply flat_map_ext. exact fold_char_lower.
Qed.

(** X10.  Normalising a name twice is normalising it once: the result is
    trimmed, and neither the decomposition, nor the removal of combining
    marks, nor [lower] changes it.  White space around the name and the
    letter case of the name make no difference to the result. *)
Theorem strip_accents_lower_idempotent (s : str) :
  strip_accents_lower (strip_accents_lower s) = strip_accents_lower s
  /\ strip (strip_accents_lower s) = strip_accents_lower s
  /\ normalize_NFD (strip_accents_lower s) = strip_accents_lower s
  /\ filter (fun ch => negb (is_Mn ch)) (strip_accents_lower s) = strip_accents_lower s
  /\ lower (strip_accents_lower s) = strip_accents_lower s
  /\ strip_accents_lower (strip s) = strip_accents_lower s
  /\ strip_accents_lower (lower s) = strip_accents_lower s.
Proof.
  pose proof (strip_accents_lower_plain s) as Hp.
  assert (Hstrip : strip (strip_accents_lower s) = strip_accents_lower s).
  { rewrite strip_accents_lower_flat. apply strip_by_idem. }
  split; [|split; [exact Hstrip|]].
  - rewrite (strip_accents_lower_flat (strip_accents_lower s)).
    rewrite (flat_map_plain _ Hp). exact Hstrip.
  - split; [|split; [|split; [|split;
      [apply strip_accents_lower_strip | apply strip_accents_lower_lower]]]];
      revert Hp; generalize (strip_accents_lower s) as r; intros r Hp.
    + unfold normalize_NFD. induction r as [|c r IH]; [reflexivity|].
      cbn [forallb] in Hp. apply andb_true_iff in Hp as [Hc Hr].
      cbn [flat_map]. rewrite (IH Hr).
      unfold plain in Hc. apply andb_true_iff in Hc as [Hc _].
      apply andb_true_iff in Hc as [_ Hd]. apply str_eqb_eq in Hd.
      rewrite Hd. reflexivity.
    + induction r as [|c r IH]; [reflexivity|].
      cbn [forallb] in Hp. apply andb_true_iff in Hp as [Hc Hr].
      cbn [filter]. rewrite (IH Hr).
      unfold plain in Hc. apply andb_true_iff in Hc as [Hc _].
      apply andb_true_iff in Hc as [Hm _]. rewrite Hm. reflexivity.
    + unfold lower. induction r as [|c r IH]; [reflexivity|].
      cbn [forallb] in Hp. apply andb_true_iff in Hp as [Hc Hr].
      cbn [flat_map]. rewrite (IH Hr).
      unfold plain in Hc. apply andb_true_iff in Hc as [_ Hl].
      apply str_eqb_eq in Hl. rewrite Hl. reflexivity.
Qed.

(** ** Cleaned values *)

Lemma search_spaces (b : option char) (s : str) :
  search_go SPACES_RE b s = None <-> has_run s = false.
Proof.
  revert b. induction s as [|c t IH]; intros b.
  - cbn [search_go has_run]. pose proof (attempt_spaces b []) as Ha.
    destruct (attempt SPACES_RE b []); [split; reflexivity|].
    destruct Ha as [Ha _]. discriminate Ha.
  - cbn [search_go has_run]. pose proof (attempt_spaces b (c :: t)) as Ha.
    destruct (attempt SPACES_RE b (c :: t)).
    + rewrite Ha. cbn [orb]. apply IH.
    + destruct Ha as [Ha _]. rewrite Ha. cbn [orb]. split; discriminate.
Qed.

Lemma lstrip_by_head (p : char -> bool) (s : str) :
  match lstrip_by p s with c :: _ => p c = false | [] => True end.
Proof.
  induction s as [|c t IH]; [exact I|]. cbn [lstrip_by].
  destruct (p c) eqn:E; [exact IH | exact E].
Qed.

Lemma two_spaces_head (s : str) : space_head s = false -> two_spaces s = false.
Proof.
  destruct s as [|a [|b t]]; cbn; intros H; try reflexivity. rewrite H. reflexivity.
Qed.

Lemma sub_spaces_space_head (b : option char) (s : str) :
  space_head (sub_go SPACES_RE (py " ") b 0 s) = space_head s.
Proof.
  destruct s as [|c t]; [rewrite sub_spaces_nil; reflexivity|].
  destruct (two_spaces (c :: t)) eqn:H2.
  - destruct (sub_spaces_run b (c :: t) H2) as (b' & ->).
    destruct t as [|d t]; [discriminate H2|].
    cbn in H2. apply andb_true_iff in H2 as [Hc _]. cbn. rewrite Hc. reflexivity.
  - rewrite sub_spaces_copy by exact H2. reflexivity.
Qed.

Lemma sub_spaces_no_run (n : nat) (s : str) (b : option char) :
  length s <= n -> has_run (sub_go SPACES_RE (py " ") b 0 s) = false.
Proof.
  revert s b. induction n as [|n IH]; intros s b Hlen.
  - destruct s; [|simpl in Hlen; lia]. rewrite sub_spaces_nil. reflexivity.
  - destruct s as [|c t]; [rewrite sub_spaces_nil; reflexivity|].
    destruct (two_spaces (c :: t)) eqn:H2.
    + destruct (sub_spaces_run b (c :: t) H2) as (b1 & ->).
      destruct (two_spaces_split (c :: t) H2) as (c0 & x & Hx & Hsp & Es).
      set (r := lstrip_by is_space (c :: t)) in *.
      assert (Hlr : length r <= n).
      { assert (length (c :: t) = S (length x + length r))
          by (rewrite Es at 1; simpl; rewrite length_app; reflexivity).
        simpl in *. lia. }
      assert (Hh : space_head r = false).
      { pose proof (lstrip_by_head is_space (c :: t)) as Hh. fold r in Hh.
        destruct r; [reflexivity | exact Hh]. }
      cbn [has_run]. rewrite (IH r b1 Hlr), orb_false_r.
      pose proof (sub_spaces_space_head b1 r) as Hs. rewrite Hh in Hs.
      destruct (sub_go SPACES_RE (py " ") b1 0 r); [reflexivity|].
      cbn in Hs |- *. rewrite Hs. apply andb_false_r.
    + rewrite sub_spaces_copy by exact H2.
      cbn [has_run]. rewrite (IH t (Some c)) by (simpl in Hlen; lia).
      rewrite orb_false_r.
      pose proof (sub_spaces_space_head (Some c) t) as Hs.
      destruct (sub_go SPACES_RE (py " ") (Some c) 0 t) as [|d out];
        [reflexivity|].
      cbn in Hs |- *. rewrite Hs.
      destruct t as [|y t1]; [cbn; apply andb_false_r|]. exact H2.
Qed.

Lemma has_run_app (x y : str) :
  has_run (x ++ y) = false -> has_run x = false /\ has_run y = false.
Proof.
  induction x as [|c x IH]; intros H; [split; [reflexivity | exact H]|].
  cbn [app has_run] in H |- *. apply orb_false_iff in H as [H2 H].
  destruct (IH H) as [Hx Hy]. split; [|exact Hy].
  rewrite Hx, orb_false_r.
  destruct x as [|d x]; [reflexivity|]. exact H2.
Qed.

Lemma has_run_strip_by (p : char -> bool) (s : str) :
  has_run s = false -> has_run (strip_by p s) = false.
Proof.
  intros H. destruct (strip_by_split p s) as (a & b & _ & _ & E).
  rewrite E in H. apply has_run_app in H as [_ H].
  apply has_run_app in H as [H _]. exact H.
Qed.

Lemma sub_tag_id (s : str) (b : option char) :
  has_tag b s = false -> sub_go TAG_PR_IN_RE (py "") b 0 s = s.
Proof.
  revert b. induction s as [|c t IH]; intros b H; [apply sub_tag_nil|].
  cbn [has_tag] in H. apply orb_false_iff in H as [Hat Ht].
  rewrite sub_tag_copy by exact Hat. rewrite (IH _ Ht). reflexivity.
Qed.

Lemma sub_spaces_id (s : str) (b : option char) :
  has_run s = false -> sub_go SPACES_RE (py " ") b 0 s = s.
Proof.
  revert b. induction s as [|c t IH]; intros b H; [apply sub_spaces_nil|].
  cbn [has_run] in H. apply orb_false_iff in H as [H2 Ht].
  rewrite sub_spaces_copy by exact H2. rewrite (IH _ Ht). reflexivity.
Qed.

Lemma clean_value_no_run (val : str) :
  has_run (clean_value_remove_tags val) = false.
Proof.
  unfold clean_value_remove_tags.
  destruct (is_empty (strip val)) eqn:He.
  - apply is_empty_nil in He. rewrite He. reflexivity.
  - unfold strip at 1. apply has_run_strip_by. unfold sub.
    eapply sub_spaces_no_run. apply Nat.le_refl.
Qed.

Lemma clean_value_trimmed (val : str) :
  strip (clean_value_remove_tags val) = clean_value_remove_tags val.
Proof.
  unfold clean_value_remove_tags.
  destruct (is_empty (strip val)) eqn:He; apply strip_by_idem.
Qed.

(** What the cleaner does to a text that is trimmed and holds neither a
    tag nor a run of white space: it trims the separators, nothing else. *)
Lemma clean_value_of_clean (r : str) :
  strip r = r -> has_tag None r = false -> has_run r = false ->
  clean_value_remove_tags r = strip (strip_chars (py " ()[]{}-/|,;.") r).
Proof.
  intros Hs Ht Hr. unfold clean_value_remove_tags. rewrite Hs.
  destruct r as [|c r']; [reflexivity|]. cbn [is_empty].
  set (r := c :: r') in *.
  unfold sub. rewrite (sub_tag_id r None Ht), (sub_spaces_id r None Hr).
  rewrite (sub_spaces_id (strip_chars (py " ()[]{}-/|,;.") r) None); [reflexivity|].
  apply has_run_strip_by, Hr.
Qed.

Lemma strip_by_length (p : char -> bool) (s : str) :
  length (strip_by p s) <= length s.
Proof.
  destruct (strip_by_split p s) as (a & b & _ & _ & E).
  rewrite E at 2. rewrite !length_app. lia.
Qed.

Lemma strip_by_same_length (p : char -> bool) (s : str) :
  length (strip_by p s) = length s -> strip_by p s = s.
Proof.
  destruct (strip_by_split p s) as (a & b & _ & _ & E). intros H.
  rewrite E in H at 2. rewrite !length_app in H.
  destruct a; [|simpl in H; lia]. destruct b; [|simpl in H; lia].
  rewrite app_nil_r in E. symmetry. exact E.
Qed.

Lemma sub_tag_length (n : nat) (s : str) (b : option char) :
  length s <= n -> length (sub_go TAG_PR_IN_RE (py "") b 0 s) <= length s.
Proof.
  revert s b. induction n as [|n IH]; intros s b Hlen.
  - destruct s; [|simpl in Hlen; lia]. rewrite sub_tag_nil. simpl. lia.
  - destruct s as [|c t]; [rewrite sub_tag_nil; simpl; lia|].
    destruct (tag_at b (c :: t)) eqn:Hat.
    + destruct (sub_tag_here b (c :: t) Hat) as (a & x & t' & E & ->).
      injection E as <- ->. simpl in Hlen |- *.
      pose proof (IH t' (Some x) ltac:(lia)). lia.
    + rewrite sub_tag_copy by exact Hat. simpl in Hlen |- *.
      pose proof (IH t (Some c) ltac:(lia)). lia.
Qed.

Lemma sub_spaces_length (n : nat) (s : str) (b : option char) :
  length s <= n -> length (sub_go SPACES_RE (py " ") b 0 s) <= length s.
Proof.
  revert s b. induction n as [|n IH]; intros s b Hlen.
  - destruct s; [|simpl in Hlen; lia]. rewrite sub_spaces_nil. simpl. lia.
  - destruct s as [|c t]; [rewrite sub_spaces_nil; simpl; lia|].
    destruct (two_spaces (c :: t)) eqn:H2.
    + destruct (sub_spaces_run b (c :: t) H2) as (b1 & ->).
      destruct (two_spaces_split (c :: t) H2) as (c0 & x & Hx & Hsp & Es).
      set (r := lstrip_by is_space (c :: t)) in *.
      assert (Hl : length (c :: t) = S (length x + length r))
        by (rewrite Es at 1; simpl; rewrite length_app; reflexivity).
      pose proof (IH r b1 ltac:(simpl in *; lia)).
      rewrite Hl. simpl. lia.
    + rewrite sub_spaces_copy by exact H2. simpl in Hlen |- *.
      pose proof (IH t (Some c) ltac:(lia)). lia.
Qed.

Lemma clean_value_length (val : str) :
  length (clean_value_remove_tags val) <= length val.
Proof.
  unfold clean_value_remove_tags.
  pose proof (strip_by_length is_space val) as H0. fold (strip val) in H0.
  destruct (is_empty (strip val)); [exact H0|].
  unfold strip at 1, strip_chars, sub.
  set (s1 := sub_go TAG_PR_IN_RE (py "") None 0 (strip val)).
  set (s2 := sub_go SPACES_RE (py " ") None 0 s1).
  set (s3 := strip_by (char_in (py " ()[]{}-/|,;.")) s2).
  set (s4 := sub_go SPACES_RE (py " ") None 0 s3).
  pose proof (sub_tag_length _ (strip val) None (Nat.le_refl _)) as H1. fold s1 in H1.
  pose proof (sub_spaces_length _ s1 None (Nat.le_refl _)) as H2. fold s2 in H2.
  pose proof (strip_by_length (char_in (py " ()[]{}-/|,;.")) s2) as H3. fold s3 in H3.
  pose proof (sub_spaces_length _ s3 None (Nat.le_refl _)) as H4. fold s4 in H4.
  pose proof (strip_by_length is_space s4) as H5. lia.
Qed.

(** X11.  What the cleaner returns is trimmed, holds no tag standing as a
    token of its own and no run of two white-space characters, and is
    never longer than the value; a value of white space only comes back
    empty. *)
Theorem clean_value_normal_form (val : str) :
  search TAG_PR_IN_RE (clean_value_remove_tags val) = None
  /\ search SPACES_RE (clean_value_remove_tags val) = None
  /\ strip (clean_value_remove_tags val) = clean_value_remove_tags val
  /\ length (clean_value_remove_tags val) <= length val
  /\ (forallb is_space val = true -> clean_value_remove_tags val = []).
Proof.
  split; [apply clean_value_has_no_tag|]. split; [|split; [|split]].
  - apply search_spaces, clean_value_no_run.
  - apply clean_value_trimmed.
  - apply clean_value_length.
  - intros H. unfold clean_value_remove_tags, strip, strip_by.
    rewrite (lstrip_by_all is_space val H). reflexivity.
Qed.

(** X12.  A value that is already clean is returned as it is: trimmed, no
    separator at either end, no tag and no run of white space inside. *)
Theorem clean_value_fixed (val : str) :
  strip val = val -> strip_chars (py " ()[]{}-/|,;.") val = val ->
  search TAG_PR_IN_RE val = None -> search SPACES_RE val = None ->
  clean_value_remove_tags val = val.
Proof.
  intros Hs Hc Ht Hr. apply search_tag in Ht. apply search_spaces in Hr.
  rewrite (clean_value_of_clean val Hs Ht Hr), Hc. exact Hs.
Qed.

Lemma clean_value_fixed_witness :
  clean_value_remove_tags (py "įsk. 9") = py "įsk. 9".
Proof.
  apply clean_value_fixed; vm_compute; reflexivity.
Defined.

(** X13.  When a second pass changes nothing: cleaning the cleaned value
    gives it back exactly when it neither begins nor ends with one of the
    separator characters. *)
Theorem clean_value_twice (val : str) :
  clean_value_remove_tags (clean_value_remove_tags val) = clean_value_remove_tags val
  <-> strip_chars (py " ()[]{}-/|,;.") (clean_value_remove_tags val)
      = clean_value_remove_tags val.
Proof.
  pose proof (clean_value_has_no_tag val) as Ht. apply search_tag in Ht.
  pose proof (clean_value_no_run val) as Hr.
  pose proof (clean_value_trimmed val) as Hs.
  set (r := clean_value_remove_tags val) in *.
  rewrite (clean_value_of_clean r Hs Ht Hr).
  split; intros H.
  - apply strip_by_same_length.
    pose proof (strip_by_length is_space (strip_chars (py " ()[]{}-/|,;.") r)) as H1.
    pose proof (strip_by_length (char_in (py " ()[]{}-/|,;.")) r) as H2.
    unfold strip in H. rewrite H in H1. unfold strip_chars in *. lia.
  - rewrite H. exact Hs.
Qed.
(* ================================================================== *)
(** * The font and the document *)
(* ================================================================== *)

Lemma try_fonts_spec (path_exists : str -> bool) (registerFont : str -> option str)
  (cands : list str) (ws : list str) :
  let r := try_fonts path_exists registerFont cands ws in
  (existsb (usable path_exists registerFont) cands = true
   /\ fst r = py "DejaVuSerifFixed"
   /\ exists more, snd r = ws ++ more /\ Forall failure_notice more
                   /\ length more < length cands)
  \/ (existsb (usable path_exists registerFont) cands = false
      /\ fst r = py "Helvetica"
      /\ exists more, snd r = ws ++ more ++ [FONT_MISSING]
                      /\ Forall failure_notice more
                      /\ length more <= length cands).
Proof.
  revert ws. induction cands as [|p more IH]; intros ws; cbn zeta.
  - right. split; [reflexivity|]. split; [reflexivity|].
    exists []. split; [reflexivity|]. split; [constructor | simpl; lia].
  - cbn [try_fonts existsb]. unfold usable at 1 3.
    destruct (truthy p && path_exists p) eqn:Ep; cbn [andb orb].
    + destruct (registerFont p) as [e|] eqn:Er; cbn [orb].
      * set (w := py "Šrifto registruoti nepavyko iš '" ++ p ++ py "': " ++ e).
        assert (Hw : failure_notice w) by (exists p, e; reflexivity).
        destruct (IH (ws ++ [w])) as [(Hu & Hf & m & Hs & Hm & Hl)
                                     |(Hu & Hf & m & Hs & Hm & Hl)];
          cbn zeta in *; [left | right]; (split; [exact Hu|]);
          (split; [exact Hf|]); exists (w :: m);
          (split; [rewrite Hs, <- app_assoc; reflexivity|]);
          (split; [constructor; assumption | simpl; lia]).
      * left. split; [reflexivity|]. split; [reflexivity|].
        exists []. split; [rewrite app_nil_r; reflexivity|].
        split; [constructor | simpl; lia].
    + destruct (IH ws) as [(Hu & Hf & m & Hs & Hm & Hl)
                          |(Hu & Hf & m & Hs & Hm & Hl)];
        cbn zeta in *; [left | right]; (split; [exact Hu|]);
        (split; [exact Hf|]); exists m; (split; [exact Hs|]);
        (split; [exact Hm | simpl; lia]).
Qed.

Lemma failure_notice_other (w : str) : failure_notice w -> w <> FONT_MISSING.
Proof.
  intros (p & e & ->) H.
  assert (Hh : hd_error (py "Šrifto registruoti nepavyko iš '" ++ p ++ py "': " ++ e)
               = Some 352%N) by (vm_compute; reflexivity).
  rewrite H in Hh. vm_compute in Hh. discriminate Hh.
Qed.

(** X1.  The font: [register_fixed_font] never fails.  It answers with the
    registered font exactly when one of the two candidate paths is non-empty,
    exists and registers.  Otherwise it answers "Helvetica" and its last
    warning says that the font is missing; that warning is never shown when
    the font was registered.  At most three warnings are shown, and none
    when the first candidate registers. *)
Theorem register_fixed_font_fallback (LOCAL_FONT_PATH : str)
  (path_exists : str -> bool) (registerFont : str -> option str) :
  let r := register_fixed_font LOCAL_FONT_PATH path_exists registerFont in
  let found := existsb (usable path_exists registerFont)
                       [USER_FIXED_FONT_PATH; LOCAL_FONT_PATH] in
  fst r = (if found then py "DejaVuSerifFixed" else py "Helvetica")
  /\ (if found then ~ In FONT_MISSING (snd r)
      else last (snd r) [] = FONT_MISSING)
  /\ length (snd r) <= 3
  /\ (usable path_exists registerFont USER_FIXED_FONT_PATH = true -> snd r = []).
Proof.
  cbn zeta. unfold register_fixed_font.
  pose proof (try_fonts_spec path_exists registerFont
                [USER_FIXED_FONT_PATH; LOCAL_FONT_PATH] []) as H.
  cbn zeta in H.
  set (r := try_fonts path_exists registerFont
              [USER_FIXED_FONT_PATH; LOCAL_FONT_PATH] []) in *.
  assert (Hfirst : usable path_exists registerFont USER_FIXED_FONT_PATH = true ->
                   snd r = []).
  { subst r. unfold usable. cbn [try_fonts]. intros Hu.
    apply andb_true_iff in Hu as [-> Hu].
    destruct (registerFont USER_FIXED_FONT_PATH); [discriminate|]. reflexivity. }
  destruct H as [(Hu & Hf & m & Hs & Hm & Hl)|(Hu & Hf & m & Hs & Hm & Hl)];
    rewrite Hu; cbn [app] in Hs.
  - split; [exact Hf|]. split; [|split; [rewrite Hs; simpl in Hl; lia | exact Hfirst]].
    rewrite Hs. intros Hin. rewrite Forall_forall in Hm.
    apply (failure_notice_other _ (Hm _ Hin)). reflexivity.
  - split; [exact Hf|]. split; [|split; [|exact Hfirst]].
    + rewrite Hs. rewrite last_app_default. reflexivity.
    + rewrite Hs, length_app. simpl in Hl |- *. lia.
Qed.

(** ** The story *)

Lemma or_empty (a : str) : or_ a (py "") = a.
Proof. destruct a; reflexivity. Qed.

(** X14.  The story of a document starts with the title and ends with the
    closing sentence, which speaks of graduation exactly when the class
    label is a final class (never when the label is empty); it holds one
    grade table, and one line for each of the school, the class and the
    school year that is not empty. *)
Theorem story_shape (student_name klase akademiniai_metai school : str)
  (subjects_dict : list (str * str)) :
  let st := story student_name klase akademiniai_metai school subjects_dict in
  hd_error st = Some TITLE
  /\ last st TITLE = (if is_final_class (Text klase) then GRADUATED else MOVED_UP)
  /\ (klase = [] -> last st TITLE = MOVED_UP)
  /\ filter is_table st = [TableOf (data_tbl subjects_dict)]
  /\ length st = 6 + length (filter truthy [school; klase; akademiniai_metai]).
Proof.
  cbn zeta. unfold story. rewrite or_empty.
  assert (Hlast : forall pre,
             last (pre ++ [Paragraph (py "Mokinys: <b>" ++ student_name ++ py "</b>")
                                     "NormalLT";
                           Spacer 1 10; TableOf (data_tbl subjects_dict); Spacer 1 10;
                           if is_final_class (Text klase)
                           then Paragraph (py "Baigė vidurinio ugdymo programą.")
                                          "NormalLT"
                           else Paragraph
                                  (py "Direktoriaus įsakymu perkeltas/a į aukštesnę klasę.")
                                  "NormalLT"]) TITLE
             = if is_final_class (Text klase) then GRADUATED else MOVED_UP).
  { intros pre. rewrite last_app_default. cbn [last]. reflexivity. }
  split; [reflexivity|]. split; [|split; [|split]].
  - rewrite !app_assoc. apply Hlast.
  - intros ->. rewrite !app_assoc, Hlast. vm_compute. reflexivity.
  - destruct school, klase, akademiniai_metai;
      destruct (is_final_class _); reflexivity.
  - destruct school, klase, akademiniai_metai; reflexivity.
Qed.

Lemma data_tbl_map (d : list (str * str)) :
  data_tbl d
  = [py "Dalykas"; py "Įvertinimas"]
      :: map (fun kv => [fst kv; clean_value_remove_tags (strip (snd kv))])
             (filter (fun kv => shown (snd kv)) d).
Proof.
  unfold data_tbl.
  change ([py "Dalykas"; py "Įvertinimas"]
            :: map (fun kv => [fst kv; clean_value_remove_tags (strip (snd kv))])
                   (filter (fun kv => shown (snd kv)) d))
    with ([[py "Dalykas"; py "Įvertinimas"]]
            ++ map (fun kv => [fst kv; clean_value_remove_tags (strip (snd kv))])
                   (filter (fun kv => shown (snd kv)) d)).
  generalize [[py "Dalykas"; py "Įvertinimas"]] as acc.
  induction d as [|kv d IH]; intros acc; [rewrite app_nil_r; reflexivity|].
  cbn [fold_left filter]. unfold shown at 1.
  destruct (cleaned_value (Text (snd kv))) as [sval|] eqn:E.
  - rewrite IH. cbn [map]. apply cleaned_value_some in E. cbn [str_] in E.
    rewrite <- E, <- app_assoc. reflexivity.
  - apply IH.
Qed.

(** ** The grade table *)

Lemma cleaned_value_nonempty (v : cell) (sv : str) :
  cleaned_value v = Some sv -> sv <> [].
Proof.
  unfold cleaned_value. destruct (isna v); [discriminate|].
  destruct (is_empty (strip (str_ v)) || str_eqb (lower (strip (str_ v))) (py "nan"));
    [discriminate|].
  destruct (search ACH_LVL_VAL_RE (strip (str_ v))); [discriminate|].
  destruct (clean_value_remove_tags (strip (str_ v))); [discriminate|].
  cbn [is_empty]. intros H. injection H as <-. discriminate.
Qed.

(** X15.  The grade table of a document: the headings, then at most one row
    for each subject, in the order of the dict; every grade shown is what
    the cleaner makes of the value, and it is not empty, is trimmed, and
    holds neither a tag nor a run of white space. *)
Theorem grade_table_rows (subjects_dict : list (str * str)) :
  data_tbl subjects_dict
  = HEADINGS
      :: map (fun kv => [fst kv; clean_value_remove_tags (strip (snd kv))])
             (filter (fun kv => shown (snd kv)) subjects_dict)
  /\ length (data_tbl subjects_dict) <= 1 + length subjects_dict
  /\ forall kv, In kv subjects_dict -> shown (snd kv) = true ->
       let sval := clean_value_remove_tags (strip (snd kv)) in
       sval <> [] /\ strip sval = sval
       /\ search TAG_PR_IN_RE sval = None /\ search SPACES_RE sval = None.
Proof.
  split; [apply data_tbl_map|]. split.
  - rewrite data_tbl_map. cbn [length]. rewrite length_map.
    pose proof (filter_length_le (fun kv => shown (snd kv)) subjects_dict). lia.
  - intros kv _ Hs. cbn zeta. unfold shown in Hs.
    destruct (cleaned_value (Text (snd kv))) as [sv|] eqn:E; [|discriminate].
    pose proof (cleaned_value_nonempty _ _ E) as Hne.
    apply cleaned_value_some in E. cbn [str_] in E. rewrite <- E.
    split; [exact Hne|]. rewrite E.
    split; [apply clean_value_trimmed|].
    split; [apply clean_value_has_no_tag|].
    apply search_spaces, clean_value_no_run.
Qed.

Lemma printed_twice (v : cell) (s : str) :
  printed v = Some s ->
  s = clean_value_remove_tags (clean_value_remove_tags (strip (str_ v))).
Proof.
  unfold printed. destruct (cleaned_value v) as [sv|] eqn:E; [|discriminate].
  intros H. apply cleaned_value_some in H, E. cbn [str_] in H.
  rewrite H, E, clean_value_trimmed. reflexivity.
Qed.

Lemma data_tbl_kept (cols : list str) (row : list cell) :
  data_tbl (kept_subjects cols row)
  = HEADINGS
      :: flat_map (fun cv : str * cell =>
                     if label_in (fst cv) [EIL_NR; PAVARDE_VARDAS] then []
                     else match printed (snd cv) with
                          | Some s => [[fst cv; s]]
                          | None => []
                          end)
                  (combine cols row).
Proof.
  rewrite data_tbl_map. f_equal. unfold kept_subjects.
  induction (combine cols row) as [|cv l IH]; [reflexivity|].
  cbn [flat_map]. rewrite filter_app, map_app, IH. f_equal.
  destruct (label_in (fst cv) [EIL_NR; PAVARDE_VARDAS]); [reflexivity|].
  unfold printed. destruct (cleaned_value (snd cv)) as [sv|]; [|reflexivity].
  cbn [filter snd]. unfold shown.
  destruct (cleaned_value (Text sv)) as [s|] eqn:E; [|reflexivity].
  cbn [map fst snd]. apply cleaned_value_some in E. cbn [str_] in E.
  rewrite <- E. reflexivity.
Qed.

(** X16.  From the row of a pupil to the grade table of the document: the
    table lists, in the order of the columns, the subject columns whose
    value passes the tests of the loop in [main] and, cleaned, passes the
    tests of [make_student_pdf] once more; the grade shown is the text of
    the cell cleaned twice. *)
Theorem document_table (cols : list str) (row : list cell)
  (Hcols : NoDup cols) (Hrow : length row = length cols) :
  exists subjects,
    subjects_of cols row = Ok subjects
    /\ data_tbl subjects
       = HEADINGS
           :: flat_map (fun cv : str * cell =>
                          if label_in (fst cv) [EIL_NR; PAVARDE_VARDAS] then []
                          else match printed (snd cv) with
                               | Some s => [[fst cv; s]]
                               | None => []
                               end)
                       (combine cols row)
    /\ forall v s, printed v = Some s ->
         cleaned_value v <> None
         /\ s = clean_value_remove_tags (clean_value_remove_tags (strip (str_ v))).
Proof.
  exists (kept_subjects cols row). split; [|split].
  - rewrite subjects_of_fold, subjects_dict_kept by assumption. reflexivity.
  - apply data_tbl_kept.
  - intros v s H. split; [|apply printed_twice, H].
    unfold printed in H. destruct (cleaned_value v); [discriminate | discriminate H].
Qed.

Lemma document_table_witness :
  exists subjects,
    subjects_of sample_labels sample_row = Ok subjects
    /\ data_tbl subjects = [HEADINGS; [py "Matematika"; py "8"]].
Proof.
  destruct (document_table sample_labels sample_row) as (d & Hd & Ht & _).
  - repeat constructor; vm_compute; intuition discriminate.
  - reflexivity.
  - exists d. split; [exact Hd|]. rewrite Ht. vm_compute. reflexivity.
Defined.
(* ================================================================== *)
(** * From the sheet to the table, and what can go wrong *)
(* ================================================================== *)

Lemma header_two_columns (df0 : RawGrid) (h s : nat) :
  find_header_rows df0 = Ok (Some (h, s)) ->
  2 <= shape1 df0 /\ h < shape0 df0 /\ s = h + 1.
Proof.
  intros H. apply find_header_rows_some in H as (Hh & Hat & _ & ->).
  split; [|split; [lia | reflexivity]].
  unfold header_at in Hat. destruct (iat df0 h 0); [|discriminate].
  destruct (Nat.ltb 1 (shape1 df0)) eqn:E; [apply Nat.ltb_lt in E; lia|].
  apply andb_true_iff in Hat as [_ Hat]. vm_compute in Hat. discriminate Hat.
Qed.

Lemma name_columns_labels (df0 : RawGrid) (s : nat) :
  s < shape0 df0 \/ shape1 df0 <= 2 ->
  name_columns df0 s = Ok (sheet_labels df0 s).
Proof.
  intros [H|H]; [apply name_columns_inside, H|].
  unfold name_columns, sheet_labels.
  replace (shape1 df0 - 2) with 0 by lia. reflexivity.
Qed.

Lemma sheet_labels_length (df0 : RawGrid) (s : nat) :
  2 <= shape1 df0 -> length (sheet_labels df0 s) = shape1 df0.
Proof.
  intros H. unfold sheet_labels. rewrite length_app, length_map, length_seq.
  simpl. lia.
Qed.

Lemma find_data_start_spec (df0 : RawGrid) (todo start : nat) :
  0 < shape1 df0 -> todo = shape0 df0 - start ->
  find_data_start df0 todo start = Ok (first_numbered df0 start).
Proof.
  intros Hc. revert start. induction todo as [|todo IH]; intros start Ht.
  - unfold first_numbered. rewrite <- Ht. cbn [find_data_start seq find].
    f_equal. lia.
  - cbn [find_data_start]. rewrite iat_ok by lia. cbn [bind].
    unfold first_numbered. rewrite <- Ht. cbn [seq find].
    fold (numbered df0 start).
    destruct (numbered df0 start) eqn:En; [reflexivity|].
    rewrite (IH (S start)) by lia. unfold first_numbered.
    replace (shape0 df0 - S start) with todo by lia.
    destruct (find _ _); [reflexivity|]. f_equal. lia.
Qed.

Lemma first_numbered_spec (df0 : RawGrid) (start : nat) :
  let d := first_numbered df0 start in
  start <= d /\ d <= Nat.max start (shape0 df0)
  /\ (d < shape0 df0 -> numbered df0 d = true)
  /\ forall r, start <= r < d -> numbered df0 r = false.
Proof.
  cbn zeta. unfold first_numbered.
  destruct (find _ _) as [r|] eqn:E.
  - apply find_seq_least in E as (Hr & Hn & Hl).
    split; [lia|]. split; [lia|]. split; [auto|]. exact Hl.
  - pose proof (proj1 (find_seq_none _ _ _) E) as Hn.
    split; [lia|]. split; [lia|]. split; [lia|].
    intros r Hr. apply Hn. lia.
Qed.

Lemma slice_named_labels (df0 : RawGrid) (d s : nat) :
  2 <= shape1 df0 ->
  slice_named df0 d (sheet_labels df0 s)
  = Ok {| columns := sheet_labels df0 s;
          rows := map (fun r => map (at_ df0 r) (range (shape1 df0)))
                      (seq d (shape0 df0 - d)) |}.
Proof.
  intros H. unfold slice_named. rewrite sheet_labels_length by exact H.
  rewrite Nat.min_id, Nat.eqb_refl. reflexivity.
Qed.

Lemma filter_of_map {A B} (p : B -> bool) (f : A -> B) (l : list A) :
  filter p (map f l) = map f (filter (fun a => p (f a)) l).
Proof.
  induction l as [|a l IH]; [reflexivity|]. cbn [map filter].
  destruct (p (f a)); cbn [map]; rewrite IH; reflexivity.
Qed.

Lemma filter_absorb {A} (p q : A -> bool) (l : list A) :
  (forall a, q a = true -> p a = true) -> filter q (filter p l) = filter q l.
Proof.
  intros H. induction l as [|a l IH]; [reflexivity|]. cbn [filter].
  destruct (p a) eqn:Ep; cbn [filter].
  - rewrite IH. reflexivity.
  - destruct (q a) eqn:Eq; [|exact IH]. rewrite (H a Eq) in Ep. discriminate.
Qed.

Lemma nth_map_range {B} (g : nat -> B) (n i : nat) (d : B) :
  i < n -> nth i (map g (range n)) d = g i.
Proof.
  intros H. unfold range.
  rewrite (nth_indep _ d (g 0)) by (rewrite length_map, length_seq; exact H).
  rewrite map_nth, seq_nth by exact H. reflexivity.
Qed.

Lemma existsb_of_map {A B} (p : B -> bool) (f : A -> B) (l : list A) :
  existsb p (map f l) = existsb (fun a => p (f a)) l.
Proof.
  induction l as [|a l IH]; [reflexivity|]. cbn [map existsb]. rewrite IH.
  reflexivity.
Qed.

Lemma existsb_same {A} (p q : A -> bool) (l : list A) :
  (forall a, p a = q a) -> existsb p l = existsb q l.
Proof.
  intros H. induction l as [|a l IH]; [reflexivity|]. cbn [existsb].
  rewrite H, IH. reflexivity.
Qed.

Lemma seq_two (n : nat) : 2 <= n -> seq 0 n = 0 :: 1 :: seq 2 (n - 2).
Proof.
  intros H. destruct n as [|[|n]]; [lia | lia|]. cbn [seq].
  rewrite Nat.sub_0_r || (simpl; rewrite Nat.sub_0_r). reflexivity.
Qed.

Lemma index_of_nth (labels : list str) (j : nat) :
  NoDup labels -> j < length labels -> index_of (nth j labels []) labels = Some j.
Proof.
  revert j. induction labels as [|l labels IH]; intros j Hn Hj; [simpl in Hj; lia|].
  inversion Hn as [|? ? Hl Hn']; subst. destruct j as [|j]; cbn [nth index_of].
  - rewrite str_eqb_refl. reflexivity.
  - simpl in Hj. destruct (str_eqb l (nth j labels [])) eqn:E.
    + apply str_eqb_eq in E. exfalso. apply Hl. rewrite E. apply nth_In. lia.
    + rewrite IH by (auto; lia). reflexivity.
Qed.

Lemma indices_nth (labels : list str) (js : list nat) :
  NoDup labels -> (forall j, In j js -> j < length labels) ->
  indices (map (fun j => nth j labels []) js) labels = Ok js.
Proof.
  intros Hn. induction js as [|j js IH]; intros Hj; [reflexivity|].
  cbn [map indices]. rewrite index_of_nth by (auto; apply Hj; left; reflexivity).
  rewrite IH by (intros j' Hj'; apply Hj; right; exact Hj'). reflexivity.
Qed.

(** A label that names one column only names a column, and the test of the
    pruning loop is the test of that column. *)
Lemma filter_label_distinct (col : str) (labels : list str) :
  NoDup labels -> length (filter (str_eqb col) labels) <= 1.
Proof.
  induction 1 as [|l labels Hl Hn IH]; [simpl; lia|]. cbn [filter].
  destruct (str_eqb col l) eqn:E; [|exact IH].
  apply str_eqb_eq in E. subst l.
  destruct (filter (str_eqb col) labels) as [|x xs] eqn:Ef; [simpl; lia|].
  exfalso. apply Hl.
  assert (Hx : In x (filter (str_eqb col) labels)) by (rewrite Ef; left; reflexivity).
  apply filter_In in Hx as [Hx Hc]. apply str_eqb_eq in Hc. subst x. exact Hx.
Qed.

Lemma any_value_distinct (data : Table) (col : str) :
  NoDup (columns data) ->
  any_value data col = (vals <- column data col ;; Ok (existsb notna vals)).
Proof.
  intros Hn. unfold any_value.
  pose proof (filter_label_distinct col (columns data) Hn) as Hl.
  destruct (Nat.ltb_spec 1 (length (filter (str_eqb col) (columns data))));
    [lia | reflexivity].
Qed.

Lemma keep_loop (data : Table) (post pre : list str) :
  NoDup (columns data) ->
  (forall c, In c post -> In c (columns data)) ->
  NoDup ([EIL_NR; PAVARDE_VARDAS] ++ pre ++ post) ->
  for_in post
    (fun col (keep_cols : list str) =>
       if label_in col keep_cols then Ok (Continue keep_cols)
       else
         some <- any_value data col ;;
         if (some : bool)
         then Ok (Continue (R := list str) (keep_cols ++ [col]))
         else Ok (Continue keep_cols))
    ([EIL_NR; PAVARDE_VARDAS] ++ filter (column_has_value data) pre)
  = Ok (Continue ([EIL_NR; PAVARDE_VARDAS]
                    ++ filter (column_has_value data) (pre ++ post))).
Proof.
  intros Hd. revert pre. induction post as [|col post IH]; intros pre Hin Hn.
  - rewrite app_nil_r. reflexivity.
  - cbn [for_in].
    assert (Hfresh : label_in col ([EIL_NR; PAVARDE_VARDAS]
                                     ++ filter (column_has_value data) pre) = false).
    { destruct (label_in col _) eqn:E; [|reflexivity]. exfalso.
      apply label_in_In in E.
      rewrite app_assoc in Hn. apply NoDup_remove_2 in Hn. apply Hn.
      rewrite app_nil_r || idtac.
      apply in_app_iff. left. apply in_app_iff in E as [E|E].
      - apply in_app_iff. left. exact E.
      - apply in_app_iff. right. apply filter_In in E as [E _]. exact E. }
    rewrite Hfresh.
    destruct (index_of_In col (columns data)) as (i & Hi);
      [apply Hin; left; reflexivity|].
    assert (Hcv : column_has_value data col
                  = existsb notna (map (fun row => nth i row NaN) (rows data))).
    { unfold column_has_value, column. rewrite Hi. reflexivity. }
    rewrite (any_value_distinct data col Hd).
    unfold column at 1. rewrite Hi. cbn [bind]. rewrite <- Hcv.
    replace (pre ++ col :: post) with ((pre ++ [col]) ++ post)
      by (rewrite <- app_assoc; reflexivity).
    rewrite <- (IH (pre ++ [col])).
    + rewrite filter_app. cbn [filter].
      destruct (column_has_value data col).
      * rewrite app_assoc. reflexivity.
      * rewrite app_nil_r. reflexivity.
    + intros c Hc. apply Hin. right. exact Hc.
    + rewrite <- app_assoc. exact Hn.
Qed.

Lemma keep_columns_filter (data : Table) (more : list str) :
  columns data = EIL_NR :: PAVARDE_VARDAS :: more -> NoDup (columns data) ->
  keep_columns data
  = Ok (EIL_NR :: PAVARDE_VARDAS :: filter (column_has_value data) more).
Proof.
  intros Hc Hn. unfold keep_columns. rewrite Hc. cbn [for_in].
  replace (label_in EIL_NR [EIL_NR; PAVARDE_VARDAS]) with true
    by (vm_compute; reflexivity).
  replace (label_in PAVARDE_VARDAS [EIL_NR; PAVARDE_VARDAS]) with true
    by (vm_compute; reflexivity).
  pose proof (keep_loop data more []) as H. cbn [filter app] in H.
  rewrite H; [reflexivity|exact Hn| |rewrite <- Hc; exact Hn].
  intros c Hin. rewrite Hc. right. right. exact Hin.
Qed.

Lemma parse_excel_to_df_table (df0 : RawGrid) (h s : nat) :
  find_header_rows df0 = Ok (Some (h, s)) ->
  s < shape0 df0 \/ shape1 df0 = 2 ->
  NoDup (sheet_labels df0 s) ->
  exists mk y,
    try_extract_school_and_class df0 = Ok mk
    /\ try_extract_academic_year df0 = Ok y
    /\ parse_excel_to_df df0
       = Ok (parsed_table df0 s,
             {| mokykla := fst mk; klase := snd mk; akadem_metai := y |}).
Proof.
  intros Hh Hs Hn.
  destruct (header_two_columns df0 h s Hh) as (Hc & Hhr & ->).
  eexists. eexists.
  split; [apply try_extract_school_and_class_last|].
  split; [apply try_extract_academic_year_first|].
  unfold parse_excel_to_df.
  rewrite try_extract_school_and_class_last, try_extract_academic_year_first, Hh.
  cbn [bind].
  rewrite name_columns_labels by lia. cbn [bind].
  rewrite (find_data_start_spec df0 _ (h + 1 + 1)) by (lia || reflexivity).
  cbn [bind].
  set (d := first_numbered df0 (h + 1 + 1)).
  rewrite slice_named_labels by exact Hc. cbn [bind].
  set (labels := sheet_labels df0 (h + 1)) in *.
  set (f := fun r => map (at_ df0 r) (range (shape1 df0))).
  assert (Hf1 : forall r j, j < shape1 df0 -> nth j (f r) NaN = at_ df0 r j).
  { intros r j Hj. unfold f. apply nth_map_range, Hj. }
  (* the two row filters *)
  unfold filter_by, dropna_all, filter_rows. cbn [columns rows].
  assert (Hl : labels = EIL_NR :: PAVARDE_VARDAS
                          :: map (subject_label df0 (h + 1)) (seq 2 (shape1 df0 - 2)))
    by reflexivity.
  rewrite Hl at 1. rewrite index_of_name. cbn [bind columns rows].
  rewrite !filter_of_map.
  rewrite filter_absorb.
  2:{ intros r Hr. rewrite Hf1 in Hr by lia.
      apply negb_true_iff. destruct (forallb isna (f r)) eqn:E; [|reflexivity].
      rewrite forallb_forall in E.
      assert (Hin : In (at_ df0 r 1) (f r)).
      { unfold f. apply in_map. apply in_seq. lia. }
      apply E in Hin. unfold notna in Hr. rewrite Hin in Hr. discriminate Hr. }
  rewrite (filter_ext _ (fun r => notna (at_ df0 r 1)))
    by (intros r; rewrite Hf1 by lia; reflexivity).
  fold (pupil_rows df0 d).
  set (rs := pupil_rows df0 d).
  set (data := {| columns := labels; rows := map f rs |}).
  (* the columns that stay *)
  rewrite (keep_columns_filter data
             (map (subject_label df0 (h + 1)) (seq 2 (shape1 df0 - 2))))
    by (assumption || reflexivity).
  cbn [bind].
  assert (Hlen : length labels = shape1 df0)
    by (apply sheet_labels_length, Hc).
  assert (Hnth : forall j, In j (seq 2 (shape1 df0 - 2)) ->
                           subject_label df0 (h + 1) j = nth j labels []).
  { intros j Hj. apply in_seq in Hj. rewrite Hl.
    destruct j as [|[|j]]; [lia | lia|]. cbn [nth].
    rewrite (nth_indep _ [] (subject_label df0 (h + 1) 0))
      by (rewrite length_map, length_seq; lia).
    rewrite map_nth, seq_nth by lia. reflexivity. }
  assert (Hhv : forall j, In j (seq 2 (shape1 df0 - 2)) ->
                  column_has_value data (subject_label df0 (h + 1) j)
                  = has_value df0 rs j).
  { intros j Hj. rewrite (Hnth j Hj). apply in_seq in Hj.
    unfold column_has_value, column, data. cbn [columns rows].
    rewrite index_of_nth; [|exact Hn|rewrite Hlen; lia].
    rewrite map_map, existsb_of_map. unfold has_value.
    apply existsb_same. intros r. rewrite Hf1 by lia. reflexivity. }
  assert (Hkept : EIL_NR :: PAVARDE_VARDAS
                    :: filter (column_has_value data)
                         (map (subject_label df0 (h + 1)) (seq 2 (shape1 df0 - 2)))
                  = map (fun j => nth j labels []) (kept_columns df0 rs)).
  { unfold kept_columns, range. rewrite (seq_two (shape1 df0)) by exact Hc.
    cbn [filter Nat.ltb Nat.leb orb map].
    change (nth 0 labels []) with EIL_NR.
    change (nth 1 labels []) with PAVARDE_VARDAS. f_equal. f_equal.
    rewrite filter_of_map.
    rewrite (filter_ext_in _ (fun j => Nat.leb j 1 || has_value df0 rs j)).
    - apply map_ext_in. intros j Hj. apply filter_In in Hj as [Hj _].
      apply Hnth, Hj.
    - intros j Hj. rewrite (Hhv j Hj). apply in_seq in Hj.
      replace (Nat.leb j 1) with false by (symmetry; apply Nat.leb_gt; lia).
      reflexivity. }
  rewrite Hkept.
  unfold select, data. cbn [columns rows].
  rewrite indices_nth.
  - cbn [bind]. unfold parsed_table. fold d. fold rs. fold labels.
    rewrite map_map. f_equal. f_equal. f_equal.
    apply map_ext. intros r. apply map_ext_in. intros j Hj.
    apply Hf1. unfold kept_columns in Hj. apply filter_In in Hj as [Hj _].
    apply in_seq in Hj. lia.
  - exact Hn.
  - intros j Hj. unfold kept_columns in Hj. apply filter_In in Hj as [Hj _].
    apply in_seq in Hj. lia.
Qed.

Lemma indices_sub (labels cols : list str) :
  (forall l, In l labels -> In l cols) ->
  exists ixs, indices labels cols = Ok ixs
              /\ forall row, map (fun i => nth i row NaN) ixs
                             = map (fun c => row_get cols row c NaN) labels.
Proof.
  induction labels as [|l labels IH]; intros Hin.
  - exists []. split; reflexivity.
  - destruct IH as (ixs & Hi & Hr); [intros l' Hl'; apply Hin; right; exact Hl'|].
    destruct (index_of_In l cols) as (i & Ei); [apply Hin; left; reflexivity|].
    exists (i :: ixs). split.
    + cbn [indices]. rewrite Ei, Hi. reflexivity.
    + intros row. cbn [map]. rewrite Hr. unfold row_get at 2. rewrite Ei.
      reflexivity.
Qed.

Lemma level_filter_fixed (more : list str) :
  filter (fun c => negb (level_label c)) (EIL_NR :: PAVARDE_VARDAS :: more)
  = EIL_NR :: PAVARDE_VARDAS :: filter (fun c => negb (level_label c)) more.
Proof.
  cbn [filter].
  replace (level_label EIL_NR) with false by (vm_compute; reflexivity).
  replace (level_label PAVARDE_VARDAS) with false by (vm_compute; reflexivity).
  reflexivity.
Qed.

Lemma student_table_final (df0 : RawGrid) (t : Table) (meta : Meta) :
  parse_excel_to_df df0 = Ok (t, meta) ->
  student_table df0 = Ok (final_table t, meta).
Proof.
  intros Hp. unfold student_table. rewrite Hp. cbn [bind fst snd].
  destruct (parse_names_present df0 t meta Hp) as [(more & Hc) _].
  unfold drop_level_columns.
  rewrite (filter_ext _ (fun c => negb (level_label c)))
    by (intros c; rewrite or_empty; unfold level_label;
        destruct (search ACH_LVL_COL_RE c); reflexivity).
  set (cols := filter (fun c => negb (level_label c)) (columns t)).
  destruct (indices_sub cols (columns t)) as (ixs & Hi & Hr).
  { intros l Hl. apply filter_In in Hl as [Hl _]. exact Hl. }
  unfold select. rewrite Hi. cbn [bind].
  unfold drop_summary_rows, filter_by. cbn [columns].
  assert (Hcols : cols = EIL_NR :: PAVARDE_VARDAS
                           :: filter (fun c => negb (level_label c)) more).
  { unfold cols. rewrite Hc. apply level_filter_fixed. }
  rewrite Hcols at 1. rewrite index_of_name. cbn [bind].
  unfold filter_rows. cbn [columns rows]. rewrite filter_of_map.
  unfold final_table. fold cols. f_equal. f_equal. f_equal.
  rewrite (filter_ext _ (fun row => negb (summary_row (columns t) row))).
  - apply map_ext. exact Hr.
  - intros row. rewrite Hr. rewrite Hcols. cbn [map nth]. reflexivity.
Qed.

Lemma generate_total (FONT_NAME : str)
  (doc_build : str -> list flowable -> result bytes)
  (pages : str -> list flowable -> bytes)
  (df0 : RawGrid) (t : Table) (meta : Meta) (school klase akadem_metai : str) :
  renders doc_build pages ->
  student_table df0 = Ok (t, meta) ->
  generate FONT_NAME doc_build t school klase akadem_metai
  = Ok (map (entry FONT_NAME pages (columns t) school klase akadem_metai)
            (filter (named (columns t)) (rows t))).
Proof.
  intros Hr H. destruct (student_table_dropped df0 t meta H) as (t0 & H0).
  apply (generate_entries FONT_NAME doc_build pages t0 t); assumption.
Qed.

Lemma main_of_table (FONT_NAME : str) (doc_build : str -> list flowable -> result bytes)
  (i : Inputs) (df0 : RawGrid) (t : Table) (meta : Meta) :
  excel_file i = Some df0 -> student_table df0 = Ok (t, meta) ->
  main FONT_NAME doc_build i
  = if button i
    then if empty t then NoStudents t
         else match generate FONT_NAME doc_build t
                             (or_ (override_school i) (mokykla meta))
                             (or_ (override_class i) (klase meta))
                             (or_ (akadem_metai_input i) (akadem_metai meta)) with
              | Raise e => Failed e
              | Ok zip => Download t zip
              end
    else Preview t.
Proof.
  intros Hf Ht. unfold main. rewrite Hf, Ht. reflexivity.
Qed.

Lemma main_of_failure (FONT_NAME : str) (doc_build : str -> list flowable -> result bytes)
  (i : Inputs) (df0 : RawGrid) (e : exn) :
  excel_file i = Some df0 -> parse_excel_to_df df0 = Raise e ->
  main FONT_NAME doc_build i = Failed e.
Proof.
  intros Hf Hp. unfold main, student_table. rewrite Hf, Hp. reflexivity.
Qed.

Lemma find_header_rows_raises (df0 : RawGrid) (e : exn) :
  find_header_rows df0 = Raise e <->
  e = IndexError /\ shape1 df0 = 0 /\ 0 < shape0 df0.
Proof.
  split.
  - intros H. destruct (Nat.eq_dec (shape1 df0) 0) as [H0|H0].
    + destruct (find_header_rows_no_column df0 H0) as [E|E]; [congruence|].
      split; [congruence|]. split; [exact H0|].
      destruct (shape0 df0) eqn:E0; [|lia].
      unfold find_header_rows in E. rewrite E0 in E. discriminate E.
    + rewrite find_header_rows_find in H by lia. discriminate H.
  - intros (-> & H0 & Hr). unfold find_header_rows, range.
    destruct (Nat.min 40 (shape0 df0)) eqn:E; [lia|].
    cbn [seq for_in]. rewrite iat_out by lia. reflexivity.
Qed.

Lemma parse_header_at_bottom (df0 : RawGrid) (h s : nat) :
  find_header_rows df0 = Ok (Some (h, s)) -> shape0 df0 <= s -> 2 < shape1 df0 ->
  parse_excel_to_df df0 = Raise IndexError.
Proof.
  intros Hh Hs Hc. unfold parse_excel_to_df.
  rewrite try_extract_school_and_class_last, try_extract_academic_year_first, Hh.
  cbn [bind]. unfold name_columns.
  destruct (shape1 df0 - 2) as [|k] eqn:E; [lia|].
  cbn [seq for_in]. rewrite iat_out by lia. reflexivity.
Qed.

Lemma parse_no_header (df0 : RawGrid) :
  find_header_rows df0 = Ok None -> parse_excel_to_df df0 = Raise header_not_found.
Proof.
  intros Hh. unfold parse_excel_to_df.
  rewrite try_extract_school_and_class_last, try_extract_academic_year_first, Hh.
  reflexivity.
Qed.

Lemma parse_header_raises (df0 : RawGrid) (e : exn) :
  find_header_rows df0 = Raise e -> parse_excel_to_df df0 = Raise e.
Proof.
  intros Hh. unfold parse_excel_to_df.
  rewrite try_extract_school_and_class_last, try_extract_academic_year_first, Hh.
  reflexivity.
Qed.

(** X5.  The table [parse_excel_to_df] returns, read off the sheet.  When
    the header is found, a row lies under it (or the sheet has two columns
    only) and the column names are distinct, the rows of the table are the
    rows of the sheet, from the first numbered row on, that have a name,
    in their order (dropping the rows without any value changes nothing);
    the columns are the two fixed ones and the subjects with a value in
    one of these rows.  Every row has one cell for each column, and every
    subject column has a value in some row. *)
Theorem parse_excel_to_df_of_sheet (df0 : RawGrid) (h s : nat)
  (Hheader : find_header_rows df0 = Ok (Some (h, s)))
  (Hbelow : s < shape0 df0 \/ shape1 df0 = 2)
  (Hlabels : NoDup (sheet_labels df0 s)) :
  let t := parsed_table df0 s in
  (exists meta, parse_excel_to_df df0 = Ok (t, meta))
  /\ (forall row, In row (rows t) -> length row = length (columns t))
  /\ (forall k, 2 <= k < length (columns t) ->
                existsb (fun row => notna (nth k row NaN)) (rows t) = true).
Proof.
  cbn zeta.
  destruct (parse_excel_to_df_table df0 h s Hheader Hbelow Hlabels)
    as (mk & y & _ & _ & Hp).
  destruct (header_two_columns df0 h s Hheader) as (Hc & _ & _).
  split; [eexists; exact Hp|]. split.
  - intros row Hin. unfold parsed_table in *. cbn [rows columns] in *.
    apply in_map_iff in Hin as (r & <- & _). rewrite !length_map. reflexivity.
  - intros k Hk. unfold parsed_table in *. cbn [rows columns] in *.
    rewrite length_map in Hk.
    set (rs := pupil_rows df0 (first_numbered df0 (s + 1))) in *.
    rewrite existsb_of_map.
    assert (Hj : In (nth k (kept_columns df0 rs) 0) (kept_columns df0 rs))
      by (apply nth_In; lia).
    assert (H2 : 2 <= nth k (kept_columns df0 rs) 0).
    { clear Hj. revert Hk. unfold kept_columns, range.
      rewrite (seq_two (shape1 df0)) by exact Hc.
      cbn [filter Nat.ltb Nat.leb orb]. intros Hk.
      destruct k as [|[|k]]; [lia | lia|]. cbn [nth].
      cbn [length] in Hk.
      assert (Hin : In (nth k (filter (fun j => Nat.leb j 1 || has_value df0 rs j)
                                      (seq 2 (shape1 df0 - 2))) 0)
                       (filter (fun j => Nat.leb j 1 || has_value df0 rs j)
                               (seq 2 (shape1 df0 - 2))))
        by (apply nth_In; lia).
      apply filter_In in Hin as [Hin _]. apply in_seq in Hin. lia. }
    set (j := nth k (kept_columns df0 rs) 0) in *.
    assert (Hv : has_value df0 rs j = true).
    { unfold kept_columns in Hj. apply filter_In in Hj as [_ Hj].
      apply orb_true_iff in Hj as [Hj|Hj]; [apply Nat.ltb_lt in Hj; lia | exact Hj]. }
    rewrite <- Hv. unfold has_value. apply existsb_same. intros r.
    rewrite (nth_indep _ NaN (at_ df0 r 0)) by (rewrite length_map; lia).
    rewrite map_nth. reflexivity.
Qed.

Lemma parse_excel_to_df_of_sheet_witness :
  exists meta,
    parse_excel_to_df sheet_summary_only_value = Ok (table_with_summary_row, meta).
Proof.
  destruct (parse_excel_to_df_of_sheet sheet_summary_only_value 0 1)
    as ((meta & H) & _).
  - reflexivity.
  - left. vm_compute. lia.
  - repeat constructor; vm_compute; intuition discriminate.
  - exists meta. exact H.
Defined.

(** X7.  The loop that looks for the first numbered row stops: on a sheet
    with a column it returns the first row, from the start on, whose first
    cell is there and reads as an integer, and the number of rows when
    there is none. *)
Theorem find_data_start_first_numbered (df0 : RawGrid) (start : nat)
  (Hcolumn : 0 < shape1 df0) (Hstart : start <= shape0 df0) :
  exists d,
    find_data_start df0 (shape0 df0 - start) start = Ok d
    /\ start <= d <= shape0 df0
    /\ (d < shape0 df0 -> numbered df0 d = true)
    /\ (forall r, start <= r < d -> numbered df0 r = false).
Proof.
  exists (first_numbered df0 start).
  split; [apply find_data_start_spec; [exact Hcolumn | reflexivity]|].
  destruct (first_numbered_spec df0 start) as (H1 & H2 & H3 & H4).
  split; [lia|]. split; assumption.
Qed.

Lemma find_data_start_first_numbered_witness :
  exists d,
    find_data_start sheet_without_numbers (shape0 sheet_without_numbers - 2) 2 = Ok d
    /\ d = 4.
Proof.
  destruct (find_data_start_first_numbered sheet_without_numbers 2)
    as (d & H & _); [vm_compute; lia | vm_compute; lia|].
  exists d. split; [exact H|].
  vm_compute in H. injection H as <-. reflexivity.
Defined.

(** X18.  From the sheet to the table of [main]: under the same conditions
    the two filters of [main] never fail.  They leave the columns whose
    label does not name an achievement level, the two fixed columns among
    them, and the rows whose name is not that of the summary row, both in
    their order. *)
Theorem student_table_of_sheet (df0 : RawGrid) (h s : nat)
  (Hheader : find_header_rows df0 = Ok (Some (h, s)))
  (Hbelow : s < shape0 df0 \/ shape1 df0 = 2)
  (Hlabels : NoDup (sheet_labels df0 s)) :
  let t := final_table (parsed_table df0 s) in
  (exists meta, student_table df0 = Ok (t, meta))
  /\ (exists more, columns t = EIL_NR :: PAVARDE_VARDAS :: more)
  /\ (forall c, In c (columns t) -> search ACH_LVL_COL_RE c = None)
  /\ length (rows t) <= length (rows (parsed_table df0 s)).
Proof.
  cbn zeta.
  destruct (parse_excel_to_df_table df0 h s Hheader Hbelow Hlabels)
    as (mk & y & _ & _ & Hp).
  split; [eexists; apply student_table_final; exact Hp|].
  destruct (parse_names_present _ _ _ Hp) as [(more & Hc) _].
  split; [|split].
  - unfold final_table. cbn [columns]. rewrite Hc, level_filter_fixed. eauto.
  - unfold final_table. cbn [columns]. intros c Hin.
    apply filter_In in Hin as [_ Hin]. unfold level_label in Hin.
    destruct (search ACH_LVL_COL_RE c); [discriminate | reflexivity].
  - unfold final_table. cbn [rows]. rewrite length_map. apply filter_length_le.
Qed.

Lemma student_table_of_sheet_witness :
  exists meta,
    student_table sheet_summary_only_value = Ok (table_summary_row_dropped, meta).
Proof.
  destruct (student_table_of_sheet sheet_summary_only_value 0 1)
    as ((meta & H) & _).
  - reflexivity.
  - left. vm_compute. lia.
  - repeat constructor; vm_compute; intuition discriminate.
  - exists meta. exact H.
Defined.

(** X6.  A sheet that ends with its header row.  With more than two
    columns the loop that names the columns reads under the last row and
    the run ends in [IndexError]; with two columns only there is nothing
    to name, the table is empty and pressing the button reports that no
    pupil was found. *)
Theorem header_on_last_row (FONT_NAME : str)
  (doc_build : str -> list flowable -> result bytes) (i : Inputs) (df0 : RawGrid)
  (h s : nat)
  (Hfile : excel_file i = Some df0)
  (Hheader : find_header_rows df0 = Ok (Some (h, s)))
  (Hlast : shape0 df0 = s) :
  (2 < shape1 df0 ->
     parse_excel_to_df df0 = Raise IndexError
     /\ main FONT_NAME doc_build i = Failed IndexError)
  /\ (shape1 df0 = 2 ->
        let t := {| columns := [EIL_NR; PAVARDE_VARDAS]; rows := [] |} in
        (exists meta, student_table df0 = Ok (t, meta))
        /\ main FONT_NAME doc_build i = if button i then NoStudents t else Preview t).
Proof.
  split.
  - intros Hc.
    assert (Hp : parse_excel_to_df df0 = Raise IndexError)
      by (apply (parse_header_at_bottom df0 h s); [exact Hheader | lia | exact Hc]).
    split; [exact Hp|]. apply main_of_failure with (df0 := df0); assumption.
  - intros Hc. cbn zeta.
    assert (Hn : NoDup (sheet_labels df0 s)).
    { unfold sheet_labels. rewrite Hc. cbn [Nat.sub seq map app].
      repeat constructor; vm_compute; intuition discriminate. }
    destruct (parse_excel_to_df_table df0 h s Hheader (or_intror Hc) Hn)
      as (mk & y & _ & _ & Hp).
    apply student_table_final in Hp.
    assert (Ht : final_table (parsed_table df0 s)
                 = {| columns := [EIL_NR; PAVARDE_VARDAS]; rows := [] |}).
    { unfold parsed_table.
      assert (Hr : pupil_rows df0 (first_numbered df0 (s + 1)) = []).
      { unfold pupil_rows.
        destruct (first_numbered_spec df0 (s + 1)) as (H1 & _).
        replace (shape0 df0 - first_numbered df0 (s + 1)) with 0 by lia.
        reflexivity. }
      rewrite Hr. unfold kept_columns, sheet_labels, range. rewrite Hc.
      vm_compute. reflexivity. }
    rewrite Ht in Hp. split; [eexists; exact Hp|].
    rewrite (main_of_table FONT_NAME doc_build i df0 _ _ Hfile Hp).
    reflexivity.
Qed.

Lemma header_on_last_row_witness :
  main (py "Helvetica") blank_page (pressed sheet_header_at_bottom) = Failed IndexError
  /\ main (py "Helvetica") blank_page (pressed sheet_header_only)
     = NoStudents {| columns := [EIL_NR; PAVARDE_VARDAS]; rows := [] |}.
Proof.
  split.
  - apply (header_on_last_row (py "Helvetica") blank_page
             (pressed sheet_header_at_bottom) sheet_header_at_bottom 1 2);
      [reflexivity | reflexivity | reflexivity | vm_compute; lia].
  - apply (header_on_last_row (py "Helvetica") blank_page
             (pressed sheet_header_only) sheet_header_only 0 1);
      reflexivity.
Defined.

(** X21.  What can go wrong.  With distinct column names, and a renderer
    that returns on every story, a run on an uploaded sheet ends in the
    handler in three cases only: no header row among the first 40 rows
    (the [ValueError] of the program); a sheet with rows and no column; a
    header in the last row of a sheet with more than two columns (both
    [IndexError]).  No label is ever missed, and the loop that fills the
    archive never fails. *)
Theorem main_failures (FONT_NAME : str)
  (doc_build : str -> list flowable -> result bytes)
  (pages : str -> list flowable -> bytes)
  (i : Inputs) (df0 : RawGrid) (e : exn)
  (Hfile : excel_file i = Some df0) (Hlabels : distinct_labels df0)
  (Hrender : renders doc_build pages) :
  main FONT_NAME doc_build i = Failed e <->
  (e = header_not_found /\ find_header_rows df0 = Ok None)
  \/ (e = IndexError /\ shape1 df0 = 0 /\ 0 < shape0 df0)
  \/ (e = IndexError
      /\ exists h, find_header_rows df0 = Ok (Some (h, h + 1))
                   /\ shape0 df0 = h + 1 /\ 2 < shape1 df0).
Proof.
  split.
  - intros Hm.
    destruct (find_header_rows df0) as [[[h s]|]|e'] eqn:Hh.
    + destruct (header_two_columns df0 h s Hh) as (Hc & Hr & ->).
      destruct (Nat.lt_ge_cases (h + 1) (shape0 df0)) as [Hlt|Hge].
      * exfalso.
        destruct (parse_excel_to_df_table df0 h (h + 1) Hh (or_introl Hlt)
                    (Hlabels h (h + 1) Hh)) as (mk & y & _ & _ & Hp).
        apply student_table_final in Hp.
        rewrite (main_of_table FONT_NAME doc_build i df0 _ _ Hfile Hp) in Hm.
        rewrite (generate_total FONT_NAME doc_build pages df0 _ _ _ _ _ Hrender Hp)
          in Hm.
        destruct (button i); [destruct (empty _)|]; discriminate Hm.
      * destruct (Nat.eq_dec (shape1 df0) 2) as [H2|H2].
        -- exfalso.
           destruct (parse_excel_to_df_table df0 h (h + 1) Hh (or_intror H2)
                       (Hlabels h (h + 1) Hh)) as (mk & y & _ & _ & Hp).
           apply student_table_final in Hp.
           rewrite (main_of_table FONT_NAME doc_build i df0 _ _ Hfile Hp) in Hm.
           rewrite (generate_total FONT_NAME doc_build pages df0 _ _ _ _ _ Hrender Hp)
             in Hm.
           destruct (button i); [destruct (empty _)|]; discriminate Hm.
        -- rewrite (main_of_failure FONT_NAME doc_build i df0 IndexError Hfile)
             in Hm
             by (apply (parse_header_at_bottom df0 h (h + 1)); [exact Hh | lia | lia]).
           injection Hm as <-. right. right. split; [reflexivity|].
           exists h. split; [reflexivity|]. split; lia.
    + rewrite (main_of_failure FONT_NAME doc_build i df0 header_not_found Hfile)
        in Hm by (apply parse_no_header, Hh).
      injection Hm as <-. left. split; reflexivity.
    + rewrite (main_of_failure FONT_NAME doc_build i df0 e' Hfile)
        in Hm by (apply parse_header_raises, Hh).
      injection Hm as <-. apply find_header_rows_raises in Hh as (-> & H0 & Hr).
      right. left. auto.
  - intros [(-> & Hh)|[(-> & H0 & Hr)|(-> & h & Hh & Hr & Hc)]];
      apply main_of_failure with (df0 := df0); try exact Hfile.
    + apply parse_no_header, Hh.
    + apply parse_header_raises, find_header_rows_raises. auto.
    + apply (parse_header_at_bottom df0 h (h + 1)); [exact Hh | lia | exact Hc].
Qed.

Lemma main_failures_witness :
  main (py "Helvetica") blank_page (pressed sheet_with_metadata)
  = Failed header_not_found.
Proof.
  apply (main_failures (py "Helvetica") blank_page no_bytes
           (pressed sheet_with_metadata) sheet_with_metadata header_not_found).
  - reflexivity.
  - intros h s H. vm_compute in H. discriminate H.
  - intros font_name story. reflexivity.
  - left. split; reflexivity.
Defined.

(** X4.  A sheet with fewer than two columns is always turned down: the
    second caption of the header has no cell to stand in. *)
Theorem narrow_sheet_rejected (FONT_NAME : str)
  (doc_build : str -> list flowable -> result bytes) (i : Inputs) (df0 : RawGrid)
  (Hfile : excel_file i = Some df0) (Hnarrow : shape1 df0 < 2) :
  exists e,
    parse_excel_to_df df0 = Raise e
    /\ main FONT_NAME doc_build i = Failed e
    /\ (e = header_not_found \/ e = IndexError)
    /\ (0 < shape1 df0 -> e = header_not_found).
Proof.
  destruct (find_header_rows df0) as [[[h s]|]|e'] eqn:Hh.
  - destruct (header_two_columns df0 h s Hh) as (Hc & _). lia.
  - exists header_not_found. pose proof (parse_no_header df0 Hh) as Hp.
    split; [exact Hp|].
    split; [apply main_of_failure with (df0 := df0); assumption|].
    split; [left; reflexivity | reflexivity].
  - exists e'. pose proof (parse_header_raises df0 e' Hh) as Hp.
    split; [exact Hp|].
    split; [apply main_of_failure with (df0 := df0); assumption|].
    apply find_header_rows_raises in Hh as (-> & H0 & _).
    split; [right; reflexivity | lia].
Qed.

Lemma narrow_sheet_rejected_witness :
  exists e, main (py "Helvetica") blank_page (pressed sheet_one_column) = Failed e
            /\ e = header_not_found.
Proof.
  destruct (narrow_sheet_rejected (py "Helvetica") blank_page
              (pressed sheet_one_column) sheet_one_column)
    as (e & _ & Hm & _ & He); [reflexivity | vm_compute; lia|].
  exists e. split; [exact Hm|]. apply He. vm_compute. lia.
Defined.

(** X8.  Rows above the first numbered row are never pupils.  When no row
    under the subjects row has a first cell that reads as an integer, the
    table has no row, whatever names the sheet holds, and pressing the
    button reports that no pupil was found instead of writing an
    archive. *)
Theorem no_numbered_row (FONT_NAME : str)
  (doc_build : str -> list flowable -> result bytes) (i : Inputs) (df0 : RawGrid)
  (h s : nat)
  (Hfile : excel_file i = Some df0)
  (Hheader : find_header_rows df0 = Ok (Some (h, s)))
  (Hbelow : s < shape0 df0)
  (Hlabels : NoDup (sheet_labels df0 s))
  (Hnone : forall r, s < r < shape0 df0 -> numbered df0 r = false) :
  exists t meta,
    student_table df0 = Ok (t, meta)
    /\ rows t = []
    /\ main FONT_NAME doc_build i = if button i then NoStudents t else Preview t.
Proof.
  destruct (parse_excel_to_df_table df0 h s Hheader (or_introl Hbelow) Hlabels)
    as (mk & y & _ & _ & Hp).
  apply student_table_final in Hp.
  assert (Hr : rows (final_table (parsed_table df0 s)) = []).
  { unfold final_table, parsed_table. cbn [rows columns].
    assert (Hd : first_numbered df0 (s + 1) = shape0 df0).
    { unfold first_numbered.
      destruct (find _ _) as [r|] eqn:E; [|lia].
      apply find_seq_least in E as (Hr & Hn & _).
      rewrite Hnone in Hn by lia. discriminate Hn. }
    unfold pupil_rows. rewrite Hd, Nat.sub_diag. reflexivity. }
  eexists. eexists. split; [exact Hp|]. split; [exact Hr|].
  rewrite (main_of_table FONT_NAME doc_build i df0 _ _ Hfile Hp).
  destruct (button i); [|reflexivity].
  unfold empty. rewrite Hr. reflexivity.
Qed.

Lemma no_numbered_row_witness :
  exists t,
    main (py "Helvetica") blank_page (pressed sheet_without_numbers) = NoStudents t.
Proof.
  destruct (no_numbered_row (py "Helvetica") blank_page
              (pressed sheet_without_numbers) sheet_without_numbers 0 1)
    as (t & meta & _ & _ & Hm).
  - reflexivity.
  - reflexivity.
  - vm_compute. lia.
  - repeat constructor; vm_compute; intuition discriminate.
  - intros r Hr. change (shape0 sheet_without_numbers) with 4 in Hr.
    destruct r as [|[|[|[|r]]]]; try lia; reflexivity.
  - exists t. exact Hm.
Defined.

(** ** The summary row *)

(** X19.  The loop of [main] never meets the summary row: in the table left
    by the filters no row has the name of the summary row, letter case,
    accents and white space around it aside, so the second test of the
    loop never skips a row. *)
Theorem summary_row_never_met (df0 : RawGrid) (t : Table) (meta : Meta)
  (Hlabels : distinct_labels df0)
  (Htable : student_table df0 = Ok (t, meta)) :
  forall row, In row (rows t) ->
    strip_accents_lower (display_name (columns t) row)
    <> strip_accents_lower SUMMARY.
Proof.
  destruct (student_table_dropped df0 t meta Htable) as (t0 & H0).
  apply drop_summary_rows_rows in H0 as [_ Hrows].
  intros row Hin. destruct (Hrows row Hin) as [_ H].
  apply str_eqb_neq. exact H.
Qed.

Lemma summary_row_never_met_witness :
  strip_accents_lower
    (display_name (columns table_summary_row_dropped)
       [Obj (py "1"); Text (py "Jonaitis Jonas"); Obj (py "8"); NaN])
  <> strip_accents_lower SUMMARY.
Proof.
  apply (summary_row_never_met sheet_summary_only_value table_summary_row_dropped
           no_meta).
  - intros h s H. vm_compute in H. injection H as <- <-.
    repeat constructor; vm_compute; intuition discriminate.
  - vm_compute. reflexivity.
  - left. reflexivity.
Defined.

(** ** The archive *)

Lemma filter_twice {A} (p q : A -> bool) (l : list A) :
  filter p (filter q l) = filter (fun x => q x && p x) l.
Proof.
  induction l as [|a l IH]; [reflexivity|]. cbn [filter].
  destruct (q a); cbn [filter andb]; [destruct (p a)|]; rewrite IH; reflexivity.
Qed.

Lemma kept_columns_fixed (df0 : RawGrid) (rs : list nat) :
  2 <= shape1 df0 ->
  exists more, kept_columns df0 rs = 0 :: 1 :: more.
Proof.
  intros Hc. unfold kept_columns, range. rewrite (seq_two (shape1 df0)) by exact Hc.
  cbn [filter Nat.ltb Nat.leb orb]. eauto.
Qed.

(** The rows of the final table, sheet row by sheet row. *)
Lemma final_table_rows (df0 : RawGrid) (s : nat) :
  2 <= shape1 df0 ->
  let t := final_table (parsed_table df0 s) in
  exists g : nat -> list cell,
    rows t = map g (filter (table_row df0)
                           (seq (first_numbered df0 (s + 1))
                                (shape0 df0 - first_numbered df0 (s + 1))))
    /\ forall r, display_name (columns t) (g r) = pupil_name df0 r.
Proof.
  intros Hc. cbn zeta.
  set (d := first_numbered df0 (s + 1)).
  set (rs := pupil_rows df0 d).
  destruct (kept_columns_fixed df0 rs Hc) as (more & Hk).
  assert (Hpc : columns (parsed_table df0 s)
                = EIL_NR :: PAVARDE_VARDAS
                    :: map (fun j => nth j (sheet_labels df0 s) []) more).
  { unfold parsed_table. cbn [columns]. fold d. fold rs. rewrite Hk. reflexivity. }
  assert (Hfc : columns (final_table (parsed_table df0 s))
                = EIL_NR :: PAVARDE_VARDAS
                    :: filter (fun c => negb (level_label c))
                         (map (fun j => nth j (sheet_labels df0 s) []) more)).
  { unfold final_table. cbn [columns]. rewrite Hpc. apply level_filter_fixed. }
  assert (Hname : forall r,
             row_get (columns (parsed_table df0 s))
                     (map (at_ df0 r) (kept_columns df0 rs)) PAVARDE_VARDAS NaN
             = at_ df0 r 1).
  { intros r. unfold row_get. rewrite Hpc, index_of_name, Hk. reflexivity. }
  exists (fun r => map (fun c => row_get (columns (parsed_table df0 s))
                                         (map (at_ df0 r) (kept_columns df0 rs)) c NaN)
                       (columns (final_table (parsed_table df0 s)))).
  split.
  - assert (Hpr : rows (parsed_table df0 s)
                  = map (fun r => map (at_ df0 r) (kept_columns df0 rs)) rs)
      by reflexivity.
    change (rows (final_table (parsed_table df0 s)))
      with (map (fun row =>
                   map (fun c => row_get (columns (parsed_table df0 s)) row c NaN)
                       (columns (final_table (parsed_table df0 s))))
                (filter (fun row =>
                           negb (summary_row (columns (parsed_table df0 s)) row))
                        (rows (parsed_table df0 s)))).
    rewrite Hpr, filter_of_map, map_map.
    unfold rs, pupil_rows. rewrite filter_twice.
    f_equal. apply filter_ext. intros r. unfold table_row, summary_row.
    fold rs. rewrite Hname. reflexivity.
  - intros r. unfold display_name, pupil_name. f_equal. f_equal.
    unfold row_get at 1. rewrite Hfc, index_of_name. cbn [map nth].
    apply Hname.
Qed.

(** X22.  The archive, read off the sheet.  With the button pressed, a
    header, a row under it, distinct column names and a renderer that
    returns on every story, the run ends with the no-pupils message when
    no row from the first numbered row on has a name other than that of
    the summary row; otherwise it ends with the archive, which holds, in
    the order of the sheet, one document for each such row whose trimmed
    name is neither empty nor "nan", filed under the safe form of that
    name with ".pdf". *)
Theorem archive_of_sheet (FONT_NAME : str)
  (doc_build : str -> list flowable -> result bytes)
  (pages : str -> list flowable -> bytes) (i : Inputs) (df0 : RawGrid)
  (h s : nat)
  (Hfile : excel_file i = Some df0) (Hbutton : button i = true)
  (Hheader : find_header_rows df0 = Ok (Some (h, s)))
  (Hbelow : s < shape0 df0)
  (Hlabels : NoDup (sheet_labels df0 s))
  (Hrender : renders doc_build pages) :
  let t := final_table (parsed_table df0 s) in
  let d := first_numbered df0 (s + 1) in
  let kept := filter (table_row df0) (seq d (shape0 df0 - d)) in
  match kept with
  | [] => main FONT_NAME doc_build i = NoStudents t
  | _ :: _ =>
      exists zip,
        main FONT_NAME doc_build i = Download t zip
        /\ map fst zip
           = map (fun r => safe_name (pupil_name df0 r) ++ py ".pdf")
                 (filter (gets_document df0) kept)
  end.
Proof.
  cbn zeta.
  destruct (parse_excel_to_df_table df0 h s Hheader (or_introl Hbelow) Hlabels)
    as (mk & y & _ & _ & Hp).
  pose proof (student_table_final _ _ _ Hp) as Ht.
  destruct (header_two_columns df0 h s Hheader) as (Hc & _ & _).
  destruct (final_table_rows df0 s Hc) as (g & Hrows & Hname). cbn zeta in *.
  rewrite (main_of_table FONT_NAME doc_build i df0 _ _ Hfile Ht), Hbutton.
  rewrite (generate_total FONT_NAME doc_build pages df0 _ _ _ _ _ Hrender Ht).
  destruct (parse_names_present _ _ _ Hp) as [(more0 & Hm) _].
  set (t := final_table (parsed_table df0 s)) in *.
  set (kept := filter (table_row df0) _) in *.
  assert (Hcols : exists more, columns t = EIL_NR :: PAVARDE_VARDAS :: more).
  { unfold t, final_table. cbn [columns]. rewrite Hm, level_filter_fixed. eauto. }
  destruct Hcols as (more & Hcols).
  unfold empty. rewrite Hrows, Hcols.
  destruct kept as [|r kept']; cbn [map]; [reflexivity|].
  eexists. split; [reflexivity|].
  rewrite <- Hcols.
  change (g r :: map g kept') with (map g (r :: kept')).
  rewrite filter_of_map, !map_map.
  rewrite (filter_ext (fun a => named (columns t) (g a)) (gets_document df0)).
  - apply map_ext. intros a. unfold entry. cbn [fst]. rewrite Hname. reflexivity.
  - intros a. unfold named, gets_document. rewrite Hname. reflexivity.
Qed.

Lemma archive_of_sheet_witness :
  exists zip,
    main (py "Helvetica") blank_page (pressed sheet_blank_name)
    = Download table_blank_name zip
    /\ map fst zip = [py "Jonaitis Jonas.pdf"].
Proof.
  pose proof (archive_of_sheet (py "Helvetica") blank_page no_bytes
                (pressed sheet_blank_name) sheet_blank_name 0 1) as H.
  cbn zeta in H.
  assert (Hk : filter (table_row sheet_blank_name)
                 (seq (first_numbered sheet_blank_name (1 + 1))
                      (shape0 sheet_blank_name - first_numbered sheet_blank_name (1 + 1)))
               = [2; 3]) by (vm_compute; reflexivity).
  rewrite Hk in H.
  destruct H as (zip & Hm & Hn).
  - reflexivity.
  - reflexivity.
  - reflexivity.
  - vm_compute. lia.
  - repeat constructor; vm_compute; intuition discriminate.
  - intros font_name story. reflexivity.
  - exists zip. split; [exact Hm|]. rewrite Hn. vm_compute. reflexivity.
Defined.

(** ** Columns of achievement levels *)

Lemma search_level_column_iff (c : str) :
  search ACH_LVL_COL_RE c <> None <-> names_level c.
Proof.
  split.
  - destruct (search ACH_LVL_COL_RE c) as [m|] eqn:E; [|congruence]. intros _.
    apply search_go_some in E as (pre & suf & -> & Hin).
    unfold attempt, ACH_LVL_COL_RE in Hin. cbn [ignorecase body] in Hin.
    apply in_run_cat in Hin as (st1 & H1 & Hin).
    apply in_run_lit in H1 as (a & Hr1 & Ha & E1).
    apply in_run_cat in Hin as (st2 & H2 & Hin).
    apply in_run_star_cls in H2 as (w & Hr2 & Hw & E2).
    apply in_run_cat in Hin as (st3 & H3 & Hin).
    apply in_run_star_cls in H3 as (sp & Hr3 & Hsp & E3).
    apply in_run_cat in Hin as (st4 & H4 & Hin).
    apply in_run_lit in H4 as (b & Hr4 & Hb & E4).
    exists pre, a, w, sp, b, (rest st4).
    cbn [rest] in Hr1. rewrite Hr1, Hr2, Hr3, Hr4.
    split; [reflexivity|]. auto.
  - intros (pre & a & w & sp & b & post & -> & Ha & Hw & Hsp & Hb).
    set (st := {| prev := last (map Some pre) None;
                  rest := a ++ w ++ sp ++ b ++ post; caps := [] |}).
    set (st1 := jump st a (w ++ sp ++ b ++ post)).
    set (st2 := jump st1 w (sp ++ b ++ post)).
    set (st3 := jump st2 sp (b ++ post)).
    set (st4 := jump st3 b post).
    apply search_go_found with (m := st4).
    unfold attempt, ACH_LVL_COL_RE. cbn [ignorecase body]. fold st.
    apply in_run_cat. exists st1. split.
    { apply in_run_lit. exists a. repeat split; auto. }
    apply in_run_cat. exists st2. split.
    { apply in_run_star_cls. exists w. repeat split; auto. }
    apply in_run_cat. exists st3. split.
    { apply in_run_star_cls. exists sp. repeat split; auto. }
    apply in_run_cat. exists st4. split.
    { apply in_run_lit. exists b. repeat split; auto. }
    apply in_run_star_cls. exists []. repeat split; auto.
Qed.

Lemma level_label_iff (c : str) : level_label c = true <-> names_level c.
Proof.
  rewrite <- search_level_column_iff. unfold level_label.
  destruct (search ACH_LVL_COL_RE c); split; congruence.
Qed.

(** X17.  The columns of achievement levels.  Cutting them out of a table
    with distinct labels never fails; a column goes exactly when its label
    holds "pasiek", any word characters, any white space and "lyg", in any
    letter case; the other columns stay in their order with their cells,
    and the two fixed columns are never taken for one. *)
Theorem drop_level_columns_spec (t : Table) (Hlabels : NoDup (columns t)) :
  exists t',
    drop_level_columns t = Ok t'
    /\ columns t' = filter (fun c => negb (level_label c)) (columns t)
    /\ (forall c, In c (columns t') <-> In c (columns t) /\ ~ names_level c)
    /\ rows t' = map (fun row => map (fun c => row_get (columns t) row c NaN)
                                     (columns t'))
                     (rows t)
    /\ ~ names_level EIL_NR /\ ~ names_level PAVARDE_VARDAS.
Proof.
  unfold drop_level_columns.
  rewrite (filter_ext _ (fun c => negb (level_label c)))
    by (intros c; rewrite or_empty; unfold level_label;
        destruct (search ACH_LVL_COL_RE c); reflexivity).
  set (cols := filter (fun c => negb (level_label c)) (columns t)).
  destruct (indices_sub cols (columns t)) as (ixs & Hi & Hr).
  { intros l Hl. apply filter_In in Hl as [Hl _]. exact Hl. }
  unfold select. rewrite Hi. cbn [bind]. eexists. split; [reflexivity|].
  cbn [columns rows]. split; [reflexivity|]. split; [|split; [|split]].
  - intros c. unfold cols. rewrite filter_In, negb_true_iff.
    rewrite <- level_label_iff. destruct (level_label c); intuition congruence.
  - apply map_ext. exact Hr.
  - rewrite <- level_label_iff. vm_compute. discriminate.
  - rewrite <- level_label_iff. vm_compute. discriminate.
Qed.

Lemma drop_level_columns_spec_witness :
  exists t',
    drop_level_columns sample_levels_table = Ok t'
    /\ columns t' = [EIL_NR; PAVARDE_VARDAS; py "Matematika"; py "Fizika"].
Proof.
  destruct (drop_level_columns_spec sample_levels_table) as (t' & H & Hc & _).
  - repeat constructor; vm_compute; intuition discriminate.
  - exists t'. split; [exact H|]. rewrite Hc. vm_compute. reflexivity.
Defined.
(* ================================================================== *)
(** * A document that cannot be rendered *)
(* ================================================================== *)

Lemma named_has_columns (cols : list str) (row : list cell) :
  named cols row = true -> cols <> [].
Proof.
  intros H ->. vm_compute in H. discriminate H.
Qed.

(** X23.  A document that cannot be rendered costs the whole archive.
    With the button pressed and distinct column names: when the renderer
    raises on the story of a row that has a name, and returned on those of
    the named rows before it, the run ends in the handler with that
    exception; the documents already written are not offered. *)
Theorem renderer_failure_ends_run (FONT_NAME : str)
  (doc_build : str -> list flowable -> result bytes)
  (i : Inputs) (df0 : RawGrid) (t : Table) (meta : Meta)
  (pre post : list (list cell)) (row : list cell) (e : exn)
  (Hfile : excel_file i = Some df0) (Hbutton : button i = true)
  (Hlabels : distinct_labels df0)
  (Htable : student_table df0 = Ok (t, meta))
  (Hrows : rows t = pre ++ row :: post)
  (Hpre : forall r, In r pre -> named (columns t) r = true ->
            exists pdf_bytes,
              doc_build FONT_NAME
                (story_of (columns t)
                          (or_ (override_school i) (mokykla meta))
                          (or_ (override_class i) (klase meta))
                          (or_ (akadem_metai_input i) (akadem_metai meta)) r)
              = Ok pdf_bytes)
  (Hnamed : named (columns t) row = true)
  (Hraise : doc_build FONT_NAME
              (story_of (columns t)
                        (or_ (override_school i) (mokykla meta))
                        (or_ (override_class i) (klase meta))
                        (or_ (akadem_metai_input i) (akadem_metai meta)) row)
            = Raise e) :
  main FONT_NAME doc_build i = Failed e.
Proof.
  destruct (student_table_dropped df0 t meta Htable) as (t0 & Hdrop).
  rewrite (main_of_table FONT_NAME doc_build i df0 t meta Hfile Htable), Hbutton.
  assert (He : empty t = false).
  { unfold empty. rewrite Hrows.
    pose proof (named_has_columns _ _ Hnamed) as Hc.
    destruct (columns t); [congruence|]. destruct pre; reflexivity. }
  rewrite He.
  rewrite (generate_raises FONT_NAME doc_build t0 t _ _ _ pre post row e Hdrop Hrows
             Hpre Hnamed Hraise).
  reflexivity.
Qed.

Lemma renderer_failure_ends_run_witness :
  student_table sheet_bracket_name = Ok (table_bracket_name, no_meta)
  /\ main (py "Helvetica") strict_page (pressed sheet_bracket_name)
     = Failed MARKUP_ERROR.
Proof.
  assert (Ht : student_table sheet_bracket_name = Ok (table_bracket_name, no_meta))
    by (vm_compute; reflexivity).
  split; [exact Ht|].
  apply (renderer_failure_ends_run (py "Helvetica") strict_page
           (pressed sheet_bracket_name) sheet_bracket_name table_bracket_name no_meta
           [[Obj (py "1"); Text (py "Petraitis Petras"); Obj (py "7")]] []
           [Obj (py "2"); Text (py "Jonaitis <Jonas"); Obj (py "8")] MARKUP_ERROR).
  - reflexivity.
  - reflexivity.
  - intros h s H. vm_compute in H. injection H as <- <-.
    repeat constructor; vm_compute; intuition discriminate.
  - exact Ht.
  - reflexivity.
  - intros r [<-|[]] _. exists []. vm_compute. reflexivity.
  - vm_compute. reflexivity.
  - vm_compute. reflexivity.
Defined.
(* ================================================================== *)
(** * A subject name that comes twice *)
(* ================================================================== *)

Lemma column_of_label (data : Table) (col : str) :
  In col (columns data) -> exists vals, column data col = Ok vals.
Proof.
  intros Hin. destruct (index_of_In col (columns data) Hin) as (i & Hi).
  unfold column. rewrite Hi. eauto.
Qed.

Lemma any_value_outcome (data : Table) (col : str) :
  In col (columns data) ->
  any_value data col = Raise (ValueError AMBIGUOUS)
  \/ (exists some, any_value data col = Ok some)
     /\ length (filter (str_eqb col) (columns data)) <= 1.
Proof.
  intros Hin. unfold any_value.
  destruct (Nat.ltb_spec 1 (length (filter (str_eqb col) (columns data))));
    [left; reflexivity|].
  right. split; [|lia].
  destruct (column_of_label data col Hin) as (vals & ->). simpl. eauto.
Qed.

Lemma keep_loop_repeated (data : Table) (c : str) (l keep_cols : list str) :
  1 < length (filter (str_eqb c) (columns data)) ->
  (forall col, In col l -> In col (columns data)) ->
  ~ In c keep_cols ->
  for_in l
    (fun col (keep_cols : list str) =>
       if label_in col keep_cols then Ok (Continue keep_cols)
       else
         some <- any_value data col ;;
         if (some : bool)
         then Ok (Continue (R := list str) (keep_cols ++ [col]))
         else Ok (Continue keep_cols))
    keep_cols
  = Raise (ValueError AMBIGUOUS)
  \/ ~ In c l.
Proof.
  intros Hc. revert keep_cols. induction l as [|col l IH]; intros keep_cols Hl Hk.
  - right. intros [].
  - cbn [for_in].
    assert (Hl' : forall col', In col' l -> In col' (columns data))
      by (intros col' H; apply Hl; right; exact H).
    destruct (label_in col keep_cols) eqn:E.
    + apply label_in_In in E.
      destruct (IH keep_cols Hl' Hk) as [H|Hn]; [left; exact H|].
      right. intros [H'|H']; [apply Hk; rewrite <- H'; exact E | apply Hn, H'].
    + destruct (any_value_outcome data col) as [->|((some & ->) & Hone)];
        [apply Hl; left; reflexivity | left; reflexivity|].
      assert (Hne : col <> c) by (intros ->; lia).
      cbn [bind].
      assert (Hstep : forall keep', ~ In c keep' ->
                for_in l
                  (fun col (keep_cols : list str) =>
                     if label_in col keep_cols then Ok (Continue keep_cols)
                     else
                       some <- any_value data col ;;
                       if (some : bool)
                       then Ok (Continue (R := list str) (keep_cols ++ [col]))
                       else Ok (Continue keep_cols))
                  keep'
                = Raise (ValueError AMBIGUOUS)
                \/ ~ In c (col :: l)).
      { intros keep' Hk'.
        destruct (IH keep' Hl' Hk') as [H|Hn]; [left; exact H|].
        right. intros [H'|H']; [contradiction | apply Hn, H']. }
      destruct some; apply Hstep; [|exact Hk].
      intros H. apply in_app_iff in H as [H|[H|[]]]; [apply Hk, H | contradiction].
Qed.

Lemma keep_columns_repeated (data : Table) (c : str) (more : list str) :
  columns data = EIL_NR :: PAVARDE_VARDAS :: more ->
  c <> EIL_NR -> c <> PAVARDE_VARDAS ->
  1 < length (filter (str_eqb c) (columns data)) ->
  keep_columns data = Raise (ValueError AMBIGUOUS).
Proof.
  intros Hcols H1 H2 Hc. unfold keep_columns.
  destruct (keep_loop_repeated data c (columns data) [EIL_NR; PAVARDE_VARDAS] Hc)
    as [->|Hn]; [auto | | reflexivity |].
  - intros [H|[H|[]]]; congruence.
  - exfalso. apply Hn.
    destruct (filter (str_eqb c) (columns data)) as [|x xs] eqn:E; [simpl in Hc; lia|].
    assert (Hx : In x (filter (str_eqb c) (columns data))) by (rewrite E; left; reflexivity).
    apply filter_In in Hx as [Hx Hcx]. apply str_eqb_eq in Hcx. subst x. exact Hx.
Qed.

Lemma filter_label_twice (c : str) (labels : list str) (j j' : nat) :
  j < j' -> j' < length labels ->
  nth j labels [] = c -> nth j' labels [] = c ->
  1 < length (filter (str_eqb c) labels).
Proof.
  revert j j'. induction labels as [|l labels IH]; intros j j' Hlt Hlen Hj Hj';
    [simpl in Hlen; lia|].
  destruct j' as [|j']; [lia|]. cbn [length] in Hlen. cbn [nth] in Hj'.
  destruct j as [|j]; cbn [nth] in Hj.
  - subst l. cbn [filter]. rewrite str_eqb_refl. cbn [length].
    assert (Hin : In c (filter (str_eqb c) labels)).
    { apply filter_In. split; [|apply str_eqb_refl].
      rewrite <- Hj'. apply nth_In. lia. }
    destruct (filter (str_eqb c) labels); [destruct Hin | simpl; lia].
  - assert (H := IH j j' ltac:(lia) ltac:(lia) Hj Hj').
    cbn [filter]. destruct (str_eqb c l); cbn [length]; lia.
Qed.

Lemma sheet_labels_nth (df0 : RawGrid) (s j : nat) :
  2 <= j < shape1 df0 -> nth j (sheet_labels df0 s) [] = subject_label df0 s j.
Proof.
  intros Hj. unfold sheet_labels.
  destruct j as [|[|j]]; [lia | lia|]. cbn [app nth].
  rewrite (nth_indep _ [] (subject_label df0 s 0))
    by (rewrite length_map, length_seq; lia).
  rewrite map_nth, seq_nth by lia. reflexivity.
Qed.

(** Up to the loop that prunes the columns nothing depends on the names
    being distinct; the loop raises on a subject name that comes twice. *)
Lemma parse_repeated_label (df0 : RawGrid) (h s j j' : nat) :
  find_header_rows df0 = Ok (Some (h, s)) ->
  s < shape0 df0 ->
  2 <= j < j' -> j' < shape1 df0 ->
  subject_label df0 s j = subject_label df0 s j' ->
  ~ In (subject_label df0 s j) [EIL_NR; PAVARDE_VARDAS] ->
  parse_excel_to_df df0 = Raise (ValueError AMBIGUOUS).
Proof.
  intros Hh Hs Hj Hj' Hsame Hfixed.
  destruct (header_two_columns df0 h s Hh) as (Hc & Hhr & ->).
  unfold parse_excel_to_df.
  rewrite try_extract_school_and_class_last, try_extract_academic_year_first, Hh.
  cbn [bind].
  rewrite name_columns_labels by lia. cbn [bind].
  rewrite (find_data_start_spec df0 _ (h + 1 + 1)) by (lia || reflexivity).
  cbn [bind].
  rewrite slice_named_labels by exact Hc. cbn [bind].
  unfold filter_by, dropna_all, filter_rows. cbn [columns rows].
  assert (Hl : sheet_labels df0 (h + 1)
               = EIL_NR :: PAVARDE_VARDAS
                   :: map (subject_label df0 (h + 1)) (seq 2 (shape1 df0 - 2)))
    by reflexivity.
  rewrite Hl at 1. rewrite index_of_name. cbn [bind].
  erewrite (keep_columns_repeated _ (subject_label df0 (h + 1) j)).
  - reflexivity.
  - cbn [columns]. exact Hl.
  - intros E. apply Hfixed. left. symmetry. exact E.
  - intros E. apply Hfixed. right. left. symmetry. exact E.
  - cbn [columns].
    apply (filter_label_twice _ _ j j'); try lia.
    + rewrite sheet_labels_length by exact Hc. lia.
    + apply sheet_labels_nth. lia.
    + rewrite Hsame. apply sheet_labels_nth. lia.
Qed.

Lemma labels_not_distinct (df0 : RawGrid) (s j j' : nat) :
  2 <= j < j' -> j' < shape1 df0 ->
  subject_label df0 s j = subject_label df0 s j' ->
  ~ NoDup (sheet_labels df0 s).
Proof.
  intros Hj Hj' Hsame Hn.
  assert (Hlen : length (sheet_labels df0 s) = shape1 df0)
    by (apply sheet_labels_length; lia).
  assert (E : j = j'); [|lia].
  apply (proj1 (NoDup_nth (sheet_labels df0 s) []) Hn); try lia.
  rewrite !sheet_labels_nth by lia. exact Hsame.
Qed.

(** C8.  The names of the subject columns are not made unique, and a sheet
    in which two subject columns carry the same name is not read at all.
    For a header with a row under it and subject names other than the two
    fixed ones: when columns [j] and [j'] get the same name, the naming
    loop hands out that name twice, so the names are not distinct; the
    loop that prunes the columns then asks for the truth value of a Series
    and raises, no table is built and the run ends in the handler. *)
Theorem C8_repeated_subject_name (FONT_NAME : str)
  (doc_build : str -> list flowable -> result bytes)
  (i : Inputs) (df0 : RawGrid) (h s j j' : nat)
  (Hfile : excel_file i = Some df0)
  (Hheader : find_header_rows df0 = Ok (Some (h, s)))
  (Hbelow : s < shape0 df0)
  (Hj : 2 <= j < j') (Hj' : j' < shape1 df0)
  (Hsame : subject_label df0 s j = subject_label df0 s j')
  (Hfixed : forall k, 2 <= k < shape1 df0 ->
                      ~ In (subject_label df0 s k) [EIL_NR; PAVARDE_VARDAS]) :
  name_columns df0 s = Ok (sheet_labels df0 s)
  /\ nth j (sheet_labels df0 s) [] = nth j' (sheet_labels df0 s) []
  /\ ~ NoDup (sheet_labels df0 s)
  /\ parse_excel_to_df df0 = Raise (ValueError AMBIGUOUS)
  /\ main FONT_NAME doc_build i = Failed (ValueError AMBIGUOUS).
Proof.
  assert (Hp : parse_excel_to_df df0 = Raise (ValueError AMBIGUOUS)).
  { apply (parse_repeated_label df0 h s j j'); try assumption. apply Hfixed. lia. }
  split; [apply name_columns_labels; left; exact Hbelow|].
  split; [rewrite !sheet_labels_nth by lia; exact Hsame|].
  split; [apply (labels_not_distinct df0 s j j'); assumption|].
  split; [exact Hp|].
  apply main_of_failure with (df0 := df0); assumption.
Qed.

Lemma C8_witness :
  name_columns sheet_repeated_subject 1
  = Ok [EIL_NR; PAVARDE_VARDAS; py "Matematika"; py "Matematika"]
  /\ ~ NoDup [EIL_NR; PAVARDE_VARDAS; py "Matematika"; py "Matematika"]
  /\ parse_excel_to_df sheet_repeated_subject = Raise (ValueError AMBIGUOUS)
  /\ main (py "Helvetica") blank_page (pressed sheet_repeated_subject)
     = Failed (ValueError AMBIGUOUS).
Proof.
  destruct (C8_repeated_subject_name (py "Helvetica") blank_page
              (pressed sheet_repeated_subject) sheet_repeated_subject 0 1 2 3)
    as (Hn & _ & Hd & Hp & Hm).
  - reflexivity.
  - vm_compute. reflexivity.
  - vm_compute. lia.
  - lia.
  - vm_compute. lia.
  - reflexivity.
  - intros k Hk. change (shape1 sheet_repeated_subject) with 4 in Hk.
    assert (Hk' : k = 2 \/ k = 3) by lia.
    destruct Hk' as [->| ->]; vm_compute; intuition discriminate.
  - repeat split; assumption.
Defined.
(* ================================================================== *)
(** * The classifier, exactly, and the metadata *)
(* ================================================================== *)

Lemma folded_outside (p c : char) :
  small p = true -> tabulated c = false -> folded p c = false.
Proof.
  unfold small, folded. intros Hs Hc. apply andb_true_iff in Hs as [H1 H2].
  apply orb_false_iff. split.
  - apply N.eqb_neq. intros ->. congruence.
  - unfold char_in. apply not_true_is_false. intros H.
    apply existsb_exists in H as (x & Hx & E). apply N.eqb_eq in E. subst x.
    rewrite forallb_forall in H2. apply H2 in Hx. congruence.
Qed.

Lemma char_in_outside (L : str) (c : char) :
  forallb tabulated L = true -> tabulated c = false -> char_in L c = false.
Proof.
  intros HL Hc. unfold char_in. apply not_true_is_false. intros H.
  apply existsb_exists in H as (x & Hx & E). apply N.eqb_eq in E. subst x.
  rewrite forallb_forall in HL. apply HL in Hx. congruence.
Qed.

(** A test that fails outside the tables and agrees with a list on them is
    membership in the list. *)
Lemma enumerated (f : char -> bool) (L : str) :
  (forall c, tabulated c = false -> f c = false) ->
  forallb tabulated L = true ->
  checked (fun c => Bool.eqb (f c) (char_in L c)) = true ->
  forall c, f c = char_in L c.
Proof.
  intros Hf HL Hall c. destruct (tabulated c) eqn:Hc.
  - apply eqb_prop. revert c Hc. apply checked_all. exact Hall.
  - rewrite Hf by exact Hc. rewrite char_in_outside by assumption. reflexivity.
Qed.

Lemma lit_match_enumerated (p : char) (L : str) :
  small p = true ->
  forallb tabulated L = true ->
  checked (fun c => Bool.eqb (lit_match true p c) (char_in L c)) = true ->
  forall c, lit_match true p c = char_in L c.
Proof.
  intros Hp. apply enumerated. intros c Hc.
  unfold lit_match. rewrite tolower_outside by exact Hc.
  apply folded_outside; assumption.
Qed.

Lemma like_I (c : char) : lit_match true (ch "I") c = char_in I_LIKE c.
Proof. apply lit_match_enumerated; vm_compute; reflexivity. Qed.

Lemma like_V (c : char) : lit_match true (ch "V") c = char_in V_LIKE c.
Proof. apply lit_match_enumerated; vm_compute; reflexivity. Qed.

Lemma like_one (c : char) : lit_match true (ch "1") c = N.eqb c (ch "1").
Proof.
  rewrite (lit_match_enumerated (ch "1") [ch "1"]) by (vm_compute; reflexivity).
  unfold char_in. cbn [existsb]. apply orb_false_r.
Qed.

Lemma like_two (c : char) : lit_match true (ch "2") c = N.eqb c (ch "2").
Proof.
  rewrite (lit_match_enumerated (ch "2") [ch "2"]) by (vm_compute; reflexivity).
  unfold char_in. cbn [existsb]. apply orb_false_r.
Qed.

Lemma class_set_enumerated (c : char) :
  set_match true CLASS_SET c = char_in CLASS_LETTERS c.
Proof.
  revert c. apply enumerated; [|vm_compute; reflexivity|vm_compute; reflexivity].
  intros c Hc. unfold set_match. rewrite tolower_outside by exact Hc.
  apply not_true_is_false. intros H.
  apply existsb_exists in H as (r & Hr & H).
  apply existsb_exists in H as (p & Hp & H).
  assert (Hs : forallb (fun r => forallb small (chars_between (fst r) (snd r)))
                       CLASS_SET = true) by (vm_compute; reflexivity).
  rewrite forallb_forall in Hs. apply Hs in Hr.
  rewrite forallb_forall in Hr. apply Hr in Hp.
  rewrite (folded_outside p c Hp Hc) in H. discriminate H.
Qed.

Lemma hd_error_in {A} (l : list A) : hd_error l <> None -> exists x, In x l.
Proof.
  destruct l as [|x l]; [intros H; exfalso; apply H; reflexivity|].
  intros _. exists x. left. reflexivity.
Qed.

Lemma stripped_ends (p : char -> bool) (s a x b : str) :
  strip_by p s = a ++ x ++ b -> forallb p a = true -> forallb p b = true ->
  a = [] /\ b = [].
Proof.
  intros E Ha Hb.
  pose proof (strip_by_idem p s) as Hi. rewrite E in Hi.
  rewrite (strip_by_pad p a x b Ha Hb) in Hi.
  pose proof (strip_by_length p x) as Hl.
  rewrite Hi, !length_app in Hl.
  destruct a; [|simpl in Hl; lia]. destruct b; [|simpl in Hl; lia]. auto.
Qed.

Lemma match_final_text (k : str) :
  match_ FINAL_CLASS_RE k <> None <->
  exists ws0 i v ws1 letter tail,
    k = ws0 ++ ([i; v] ++ ws1 ++ letter) ++ tail
    /\ forallb is_space ws0 = true
    /\ char_in I_LIKE i = true /\ char_in V_LIKE v = true
    /\ forallb is_space ws1 = true
    /\ (letter = [] \/ exists c, letter = [c] /\ char_in CLASS_LETTERS c = true)
    /\ exists ws2 nl, tail = ws2 ++ nl /\ forallb is_space ws2 = true
                      /\ (nl = [] \/ nl = [10%N]).
Proof.
  unfold match_. split.
  - intros H. apply hd_error_in in H as (m & Hin).
    unfold attempt, FINAL_CLASS_RE in Hin. cbn [ignorecase body] in Hin.
    fold CLASS_SET in Hin.
    apply in_run_cat in Hin as (st0 & H0 & Hin).
    apply in_run_bol in H0 as [_ ->].
    apply in_run_cat in Hin as (st1 & H1 & Hin).
    apply in_run_star_cls in H1 as (ws0 & Hr1 & Hws0 & E1).
    apply in_run_cat in Hin as (st2 & H2 & Hin).
    apply in_run_lit in H2 as (iv & Hr2 & Hiv & E2).
    apply in_run_cat in Hin as (st3 & H3 & Hin).
    apply in_run_star_cls in H3 as (ws1 & Hr3 & Hws1 & E3).
    apply in_run_cat in Hin as (st4 & H4 & Hin).
    apply in_run_cat in Hin as (st5 & H5 & Hin).
    apply in_run_star_cls in H5 as (ws2 & Hr5 & Hws2 & E5).
    apply in_run_eol in Hin as [Hnl ->].
    change (py "IV") with [73; 86]%N in Hiv.
    inversion Hiv as [|p1 i ? l1 Li F1]; subst. clear Hiv.
    inversion F1 as [|p2 v ? l2 Lv F2]; subst. clear F1.
    inversion F2. subst. clear F2.
    change 73%N with (ch "I") in Li. change 86%N with (ch "V") in Lv.
    rewrite like_I in Li. rewrite like_V in Lv.
    assert (Hletter : exists letter,
               rest st3 = letter ++ rest st4
               /\ (letter = [] \/ exists c, letter = [c]
                                            /\ char_in CLASS_LETTERS c = true)).
    { unfold opt in H4. apply in_run_alt in H4 as [H4|H4].
      - apply in_run_set in H4 as (c & Hr4 & Hc & _).
        rewrite class_set_enumerated in Hc.
        exists [c]. split; [exact Hr4|]. right. eauto.
      - cbn [run] in H4. apply in_singleton in H4. subst st4.
        exists []. split; [reflexivity|]. left. reflexivity. }
    destruct Hletter as (letter & Hr4 & Hl).
    exists ws0, i, v, ws1, letter, (ws2 ++ rest st5).
    cbn [rest] in Hr1. rewrite Hr1, Hr2, Hr3, Hr4, Hr5.
    split; [rewrite <- !app_assoc; reflexivity|].
    repeat (split; [assumption|]).
    exists ws2, (rest st5). auto.
  - intros (ws0 & i & v & ws1 & letter & tail & -> & Hws0 & Hi & Hv & Hws1 & Hl
            & ws2 & nl & -> & Hws2 & Hnl).
    rewrite <- like_I in Hi. rewrite <- like_V in Hv.
    set (st0 := {| prev := None;
                   rest := ws0 ++ ([i; v] ++ ws1 ++ letter) ++ ws2 ++ nl;
                   caps := [] |}).
    set (st1 := jump st0 ws0 (([i; v] ++ ws1 ++ letter) ++ ws2 ++ nl)).
    set (st2 := jump st1 [i; v] (ws1 ++ letter ++ ws2 ++ nl)).
    set (st3 := jump st2 ws1 (letter ++ ws2 ++ nl)).
    set (st4 := jump st3 letter (ws2 ++ nl)).
    set (st5 := jump st4 ws2 nl).
    apply hd_error_of_In with (x := st5).
    unfold attempt, FINAL_CLASS_RE. cbn [ignorecase body]. fold CLASS_SET. fold st0.
    apply in_run_cat. exists st0. split; [apply in_run_bol; auto|].
    apply in_run_cat. exists st1. split.
    { apply in_run_star_cls. exists ws0. auto. }
    apply in_run_cat. exists st2. split.
    { apply in_run_lit. exists [i; v]. cbn [rest st1 jump].
      split; [rewrite <- !app_assoc; reflexivity|].
      split; [|reflexivity]. change (py "IV") with [ch "I"; ch "V"].
      repeat constructor; assumption. }
    apply in_run_cat. exists st3. split.
    { apply in_run_star_cls. exists ws1. auto. }
    apply in_run_cat. exists st4. split.
    { unfold opt. apply in_run_alt. destruct Hl as [-> | (c & -> & Hc)].
      - right. unfold st4. rewrite jump_nil. apply run_eps.
      - left. apply in_run_set. exists c. repeat split.
        rewrite class_set_enumerated. exact Hc. }
    apply in_run_cat. exists st5. split.
    { apply in_run_star_cls. exists ws2. auto. }
    apply in_run_eol. auto.
Qed.

Lemma search_12_iff (k : str) : search HAS_12_RE k <> None <-> has_token_12 k.
Proof.
  split; [|apply token_12_found].
  destruct (search HAS_12_RE k) as [m|] eqn:E; [|congruence]. intros _.
  apply search_go_some in E as (pre & suf & -> & Hin).
  unfold attempt, HAS_12_RE in Hin. cbn [ignorecase body] in Hin.
  apply in_run_cat in Hin as (st0 & H0 & Hin).
  apply in_run_wordb in H0 as [Hb ->].
  apply in_run_cat in Hin as (st1 & H1 & Hin).
  apply in_run_lit in H1 as (h & Hr & Hh & E1).
  apply in_run_wordb in Hin as [He ->].
  change (py "12") with [49; 50]%N in Hh.
  inversion Hh as [|p1 c1 ? l1 L1 F1]; subst. clear Hh.
  inversion F1 as [|p2 c2 ? l2 L2 F2]; subst. clear F1.
  inversion F2. subst. clear F2.
  change 49%N with (ch "1") in L1. change 50%N with (ch "2") in L2.
  rewrite like_one in L1. rewrite like_two in L2.
  apply N.eqb_eq in L1, L2. change (ch "1") with 49%N in L1.
  change (ch "2") with 50%N in L2. subst c1 c2.
  cbn [rest] in Hr. exists pre, (rest st1). split; [rewrite Hr; reflexivity|].
  cbn [prev rest] in Hb. rewrite Hr in Hb. cbn [app hd_error wordy] in Hb.
  replace (is_word 49%N) with true in Hb by (vm_compute; reflexivity).
  assert (Hp : prev st1 = Some 50%N) by (rewrite E1; reflexivity).
  rewrite Hp in He. cbn [wordy] in He.
  replace (is_word 50%N) with true in He by (vm_compute; reflexivity).
  split.
  - unfold word_start. destruct (wordy (last (map Some pre) None));
      [discriminate Hb | reflexivity].
  - apply word_end_wordy.
    destruct (wordy (hd_error (rest st1))); [discriminate He | reflexivity].
Qed.

(** X9.  The class-type classifier, exactly.  A value is a final class if
    and only if it is a [str] whose trimmed text is "IV", optional white
    space and at most one letter, letter case aside, or holds "12" as a
    token of its own.  Under [(?i)] the dotted capital and the dotless
    small i stand for "I" as well. *)
Theorem is_final_class_exactly (klase : cell) :
  is_final_class klase = true <->
  exists s, klase = Text s
            /\ (final_class_text (strip s) \/ has_token_12 (strip s)).
Proof.
  split.
  - destruct klase as [|s|]; try discriminate. cbn [is_final_class].
    intros H. exists s. split; [reflexivity|].
    destruct (match_ FINAL_CLASS_RE (strip s)) eqn:Em.
    + left.
      assert (Hm : match_ FINAL_CLASS_RE (strip s) <> None) by congruence.
      apply match_final_text in Hm
        as (ws0 & i & v & ws1 & letter & tail & Ek & Hws0 & Hi & Hv & Hws1 & Hl
            & ws2 & nl & -> & Hws2 & Hnl).
      destruct (stripped_ends is_space s ws0 _ (ws2 ++ nl) Ek Hws0) as [-> Ht].
      { rewrite forallb_app, Hws2. destruct Hnl as [-> | ->]; reflexivity. }
      rewrite Ht, app_nil_r in Ek. cbn [app] in Ek.
      exists i, v, ws1, letter. auto.
    + right. apply search_12_iff.
      destruct (search HAS_12_RE (strip s)); [discriminate | discriminate H].
  - intros (s & -> & [Hf|Ht]); cbn [is_final_class].
    + destruct Hf as (i & v & ws & letter & Ek & Hi & Hv & Hws & Hl).
      assert (Hm : match_ FINAL_CLASS_RE (strip s) <> None).
      { apply match_final_text. exists [], i, v, ws, letter, [].
        rewrite app_nil_r. cbn [app]. split; [exact Ek|].
        repeat (split; [assumption || reflexivity|]).
        exists [], []. auto. }
      destruct (match_ FINAL_CLASS_RE (strip s)); [reflexivity | congruence].
    + apply search_12_iff in Ht.
      destruct (match_ FINAL_CLASS_RE (strip s)); [reflexivity|].
      destruct (search HAS_12_RE (strip s)); [reflexivity | congruence].
Qed.

(** ** The metadata *)

Lemma last_in_or_default {A} (l : list A) (d : A) : last l d = d \/ In (last l d) l.
Proof.
  revert d. induction l as [|x l IH]; intros d; [left; reflexivity|].
  rewrite last_cons_default. destruct (IH x) as [H|H].
  - right. left. symmetry. exact H.
  - right. right. exact H.
Qed.

Lemma in_hits {A} (f : cell -> option A) (cells : list cell) (x : A) :
  In x (hits f cells) <-> exists c, In c cells /\ f c = Some x.
Proof.
  unfold hits. rewrite in_flat_map. split.
  - intros (c & Hc & Hx). exists c. split; [exact Hc|].
    destruct (f c); [|destruct Hx]. destruct Hx as [->|[]]. reflexivity.
  - intros (c & Hc & Hx). exists c. split; [exact Hc|]. rewrite Hx. left. reflexivity.
Qed.

Lemma hits_nil {A} (f : cell -> option A) (cells : list cell) :
  hits f cells = [] -> forall c, In c cells -> f c = None.
Proof.
  intros H c Hc. destruct (f c) as [x|] eqn:E; [|reflexivity].
  assert (Hin : In x (hits f cells)) by (apply in_hits; eauto).
  rewrite H in Hin. destruct Hin.
Qed.

Lemma labelled_trimmed (keys : list str) (c : cell) (x : str) :
  labelled keys c = Some x -> strip x = x.
Proof.
  unfold labelled. destruct c as [|v|]; try discriminate.
  destruct (existsb _ keys); [|discriminate].
  destruct (split1 58%N (strip v)) as [[a b]|]; [|discriminate].
  intros H. injection H as <-. apply strip_by_idem.
Qed.

Lemma digit_not_space (d : char) : is_digit d = true -> is_space d = false.
Proof.
  intros H. apply not_true_is_false. intros Hs. revert H Hs.
  unfold is_digit, is_space, between.
  rewrite !orb_true_iff, !andb_true_iff, !N.leb_le, !N.eqb_eq. lia.
Qed.

Lemma year_range_text (y1 y2 : str) :
  is_year y1 -> is_year y2 -> strip (y1 ++ [EN_DASH] ++ y2) = y1 ++ [EN_DASH] ++ y2.
Proof.
  intros (a & b & -> & _ & _) (c & d & -> & _ & Hd).
  apply digit_not_space in Hd.
  change (py "20") with [50; 48]%N. cbn [app].
  unfold strip, strip_by. cbn [lstrip_by].
  replace (is_space 50%N) with false by (vm_compute; reflexivity).
  cbn [rev app lstrip_by]. rewrite Hd. reflexivity.
Qed.

Lemma year_range_trimmed (c : cell) (y : str) : year_range c = Some y -> strip y = y.
Proof.
  unfold year_range. destruct c as [|v|]; try discriminate.
  destruct (search pat_years (strip v)) as [m|] eqn:E; [|discriminate].
  cbn [option_map]. intros H. injection H as <-.
  apply search_years_format in E as (y1 & y2 & H1 & H2 & ->).
  apply (year_range_text y1 y2 H1 H2).
Qed.

Lemma school_year_phrase_trimmed (c : cell) (y : str) :
  school_year_phrase c = Some y -> strip y = y.
Proof.
  unfold school_year_phrase. destruct c as [|v|]; try discriminate.
  destruct (contains _ _); [|discriminate].
  intros H. injection H as <-. apply strip_by_idem.
Qed.

Lemma last_hits_trimmed (f : cell -> option str) (cells : list cell) :
  (forall c x, f c = Some x -> strip x = x) ->
  strip (last (hits f cells) (py "")) = last (hits f cells) (py "").
Proof.
  intros Hf. destruct (last_in_or_default (hits f cells) (py "")) as [H|H].
  - rewrite H. reflexivity.
  - apply in_hits in H as (c & _ & H). apply (Hf c), H.
Qed.

Lemma academic_year_trimmed (df : RawGrid) (y : str) :
  try_extract_academic_year df = Ok y -> strip y = y.
Proof.
  rewrite try_extract_academic_year_first. intros H. injection H as <-.
  destruct (hits year_range (window df)) as [|y l] eqn:E.
  - apply last_hits_trimmed, school_year_phrase_trimmed.
  - assert (Hin : In y (hits year_range (window df))) by (rewrite E; left; reflexivity).
    apply in_hits in Hin as (c & _ & Hc). apply (year_range_trimmed c), Hc.
Qed.

(** X2.  The metadata read off the top of the sheet: the two scanners
    never fail, whatever the sheet, and the school, the class and the
    school year they return carry no white space at either end. *)
Theorem metadata_trimmed (df_raw : RawGrid) :
  exists mokykla klase metai,
    try_extract_school_and_class df_raw = Ok (mokykla, klase)
    /\ try_extract_academic_year df_raw = Ok metai
    /\ strip mokykla = mokykla /\ strip klase = klase /\ strip metai = metai.
Proof.
  eexists. eexists. eexists.
  split; [apply try_extract_school_and_class_last|].
  split; [apply try_extract_academic_year_first|].
  split; [|split].
  - apply last_hits_trimmed, labelled_trimmed.
  - apply last_hits_trimmed, labelled_trimmed.
  - apply (academic_year_trimmed df_raw), try_extract_academic_year_first.
Qed.

Lemma search_years_exact (y1 y2 : str) :
  is_year y1 -> is_year y2 ->
  exists m, search pat_years (y1 ++ [EN_DASH] ++ y2) = Some m
            /\ fmt_years m = y1 ++ [EN_DASH] ++ y2.
Proof.
  intros H1 H2.
  assert (Hs : search pat_years (y1 ++ [EN_DASH] ++ y2) <> None).
  { apply search_years_iff. exists [], y1, [], EN_DASH, [], y2, [].
    rewrite app_nil_r. cbn [app]. repeat split; auto. }
  destruct (search pat_years (y1 ++ [EN_DASH] ++ y2)) as [m|] eqn:E; [|congruence].
  exists m. split; [reflexivity|].
  apply search_go_some in E as (pre & suf & Et & Hin).
  apply in_attempt_years in Hin
    as (z1 & ws1 & dash & ws2 & z2 & Hsuf & Hz1 & Hz2 & _ & _ & _ & Hc & _).
  unfold fmt_years. rewrite Hc. cbn [group Nat.eqb fmt_group].
  destruct H1 as (a & b & -> & _). destruct H2 as (c & d & -> & _).
  destruct Hz1 as (a' & b' & -> & _). destruct Hz2 as (c' & d' & -> & _).
  rewrite Hsuf in Et. change (py "20") with [50; 48]%N in *.
  assert (Hlen : length pre + length ws1 + length ws2 + length (rest m) = 0).
  { apply (f_equal (@length char)) in Et.
    repeat first [rewrite length_app in Et | progress cbn [length app] in Et].
    lia. }
  destruct pre; [|simpl in Hlen; lia]. destruct ws1; [|simpl in Hlen; lia].
  destruct ws2; [|simpl in Hlen; lia].
  cbn [app] in Et. injection Et as <- <- <- <- <- _.
  reflexivity.
Qed.

Lemma window_single (c : cell) : window (grid_of [[c]]) = [c].
Proof. reflexivity. Qed.

Lemma academic_year_single (y : str) :
  try_extract_academic_year (grid_of [[Text y]])
  = Ok (match year_range (Text y) with
        | Some x => x
        | None => match school_year_phrase (Text y) with
                  | Some x => x
                  | None => py ""
                  end
        end).
Proof.
  rewrite try_extract_academic_year_first, window_single.
  unfold hits. cbn [flat_map].
  destruct (year_range (Text y)); [reflexivity|].
  destruct (school_year_phrase (Text y)); reflexivity.
Qed.

(** X3.  The school year the scanner returns is in the scanner's own normal
    form: put into a cell of its own, it is read back as it is. *)
Theorem academic_year_read_back (df_raw : RawGrid) :
  exists metai,
    try_extract_academic_year df_raw = Ok metai
    /\ try_extract_academic_year (grid_of [[Text metai]]) = Ok metai.
Proof.
  eexists. split; [apply try_extract_academic_year_first|].
  rewrite academic_year_single. f_equal.
  destruct (hits year_range (window df_raw)) as [|y l] eqn:E.
  - pose proof (hits_nil _ _ E) as Hnone.
    destruct (last_in_or_default (hits school_year_phrase (window df_raw)) (py ""))
      as [H|H].
    + rewrite H. reflexivity.
    + apply in_hits in H as (c & Hc & H).
      specialize (Hnone c Hc).
      unfold school_year_phrase in H. destruct c as [|v|]; try discriminate.
      destruct (contains (py "mokslo metai") (lower (strip v))) eqn:Ec;
        [|discriminate].
      injection H as H.
      assert (Hss : strip (strip v) = strip v) by apply strip_by_idem.
      unfold year_range in Hnone |- *. unfold school_year_phrase.
      rewrite <- H, !Hss, Ec.
      destruct (search pat_years (strip v)); [discriminate|]. reflexivity.
  - assert (Hin : In y (hits year_range (window df_raw)))
      by (rewrite E; left; reflexivity).
    apply in_hits in Hin as (c & _ & Hc).
    pose proof (year_range_trimmed c y Hc) as Ht.
    unfold year_range in Hc. destruct c as [|v|]; try discriminate.
    destruct (search pat_years (strip v)) as [m|] eqn:Es; [|discriminate].
    injection Hc as Hy.
    apply search_years_format in Es as (y1 & y2 & H1 & H2 & Ef).
    rewrite Ef in Hy. change (py "–") with [EN_DASH] in Hy.
    destruct (search_years_exact y1 y2 H1 H2) as (m' & Em' & Ef').
    unfold year_range. rewrite Ht, <- Hy, Em'. cbn [option_map]. rewrite Ef'.
    reflexivity.
Qed.
